(** * Invoice response reconciliation: a shallow embedding of [main.py]

    The development follows [parse_gpt_response] of [src/main.py]: the text
    cleaner [preprocess_json], the tree walker [normalize_nulls], the
    dictionary surgery of lines 419-454 and the construction of the pydantic
    models of lines 33-107.

    Conventions of the embedding:
    - a Python [str] is a sequence of code points, [pystr]; the replies the
      pipeline is run on are ASCII texts, held as [string]s; the cleaner is
      given on an arbitrary [str] as well, with the pattern class [\d] as an
      argument, and the two cleaners agree on the code points of a [string];
    - the values produced by [json.loads] are the trees of [pyval]; a Python
      [float] is kept as the exact rational it denotes;
    - a [dict] is an association list in insertion order with distinct keys;
    - in-place mutation of a sub-dictionary is written as an explicit
      write-back into the enclosing dictionary (the decoded tree is freshly
      allocated and shares nothing, so a path identifies an object);
    - exceptions are the constructors of [exn], threaded by [result]. *)

From Stdlib Require Import String Ascii List ZArith NArith QArith Bool Lia.
Import ListNotations.

Close Scope Q_scope.
Local Open Scope string_scope.
Local Open Scope list_scope.

(** ** Python values *)

Unset Elimination Schemes.
Inductive pyval : Type :=
| PNone
| PBool (b : bool)
| PInt (n : Z)
| PFloat (q : Q)
| PStr (s : string)
| PList (l : list pyval)
| PDict (d : list (string * pyval)).
Set Elimination Schemes.

Definition dict := list (string * pyval).

(** ** Exceptions and the result of a fallible computation *)

Inductive exn : Type :=
| JSONDecodeError
| ValidationError
| AttributeError
| TypeError.

Inductive result (A : Type) : Type :=
| Ok (a : A)
| Raise (e : exn).
Arguments Ok {A} a.
Arguments Raise {A} e.

Definition bind {A B : Type} (m : result A) (k : A -> result B) : result B :=
  match m with
  | Ok a => k a
  | Raise e => Raise e
  end.

Notation "x <- m ;; k" := (bind m (fun x => k))
  (at level 61, m at next level, right associativity).
Notation "' p <- m ;; k" := (bind m (fun x => match x with p => k end))
  (at level 61, p pattern, m at next level, right associativity).

(** ** Numeric literal cleaner (lines 396-400)

    [re.sub(r'(?<=\d),(?=\d)', '', json_str)]: the matches are single commas;
    the look-behind and the look-ahead read the characters of the subject
    string itself, so a scan that remembers the previous character of the
    input decides each comma. *)

(** [\d] on a character of a [string]: below code point 256 the decimal
    digits of Unicode are [0-9] alone *)
Definition is_digit (c : ascii) : bool :=
  ((48 <=? nat_of_ascii c) && (nat_of_ascii c <=? 57))%nat.

Definition comma : ascii := ","%char.

Definition lookbehind_digit (prev : option ascii) : bool :=
  match prev with
  | Some p => is_digit p
  | None => false
  end.

Definition lookahead_digit (rest : string) : bool :=
  match rest with
  | String n _ => is_digit n
  | EmptyString => false
  end.

Fixpoint sub_commas (prev : option ascii) (s : string) : string :=
  match s with
  | EmptyString => EmptyString
  | String c rest =>
      if Ascii.eqb c comma && lookbehind_digit prev && lookahead_digit rest
      then sub_commas (Some c) rest
      else String c (sub_commas (Some c) rest)
  end.

Definition preprocess_json (json_str : string) : string :=
  sub_commas None json_str.

(** *** The cleaner on an arbitrary [str]

    The subject of [re.sub] is a [str], a sequence of code points, and on a
    [str] pattern the class [\d] holds every Unicode decimal digit (category
    Nd), a set that grows with the Unicode version of the interpreter.  The
    scan takes the class as an argument; [unicode_decimal] is the class of
    Unicode 14.0, the [unicodedata] of Python 3.11. *)

Definition codepoint : Type := N.

Definition pystr : Type := list codepoint.

Definition comma_point : codepoint := 44%N.

Definition lookbehind_class (digit : codepoint -> bool)
  (prev : option codepoint) : bool :=
  match prev with
  | Some p => digit p
  | None => false
  end.

Definition lookahead_class (digit : codepoint -> bool) (rest : pystr) : bool :=
  match rest with
  | n :: _ => digit n
  | [] => false
  end.

Fixpoint re_sub_commas (digit : codepoint -> bool) (prev : option codepoint)
  (s : pystr) : pystr :=
  match s with
  | [] => []
  | c :: rest =>
      if N.eqb c comma_point && lookbehind_class digit prev
         && lookahead_class digit rest
      then re_sub_commas digit (Some c) rest
      else c :: re_sub_commas digit (Some c) rest
  end.

Definition preprocess_json_str (digit : codepoint -> bool) (json_str : pystr)
  : pystr :=
  re_sub_commas digit None json_str.

(** the first and the last code point of each run of decimal digits *)
Definition decimal_ranges : list (N * N) :=
  [(48, 57); (1632, 1641); (1776, 1785); (1984, 1993); (2406, 2415);
   (2534, 2543); (2662, 2671); (2790, 2799); (2918, 2927); (3046, 3055);
   (3174, 3183); (3302, 3311); (3430, 3439); (3558, 3567); (3664, 3673);
   (3792, 3801); (3872, 3881); (4160, 4169); (4240, 4249); (6112, 6121);
   (6160, 6169); (6470, 6479); (6608, 6617); (6784, 6793); (6800, 6809);
   (6992, 7001); (7088, 7097); (7232, 7241); (7248, 7257); (42528, 42537);
   (43216, 43225); (43264, 43273); (43472, 43481); (43504, 43513);
   (43600, 43609); (44016, 44025); (65296, 65305); (66720, 66729);
   (68912, 68921); (69734, 69743); (69872, 69881); (69942, 69951);
   (70096, 70105); (70384, 70393); (70736, 70745); (70864, 70873);
   (71248, 71257); (71360, 71369); (71472, 71481); (71904, 71913);
   (72016, 72025); (72784, 72793); (73040, 73049); (73120, 73129);
   (92768, 92777); (92864, 92873); (93008, 93017); (120782, 120831);
   (123200, 123209); (123632, 123641); (125264, 125273); (130032, 130041)]%N.

Definition unicode_decimal (c : codepoint) : bool :=
  existsb (fun r => (fst r <=? c)%N && (c <=? snd r)%N) decimal_ranges.

(** the code points of a [string] *)
Definition codepoints (s : string) : pystr :=
  map N_of_ascii (list_ascii_of_string s).

(** ** Null-synonym normalizer (lines 406-413) *)

(** [data == s] for a string [s]: only a [str] compares equal to a [str]. *)
Definition py_eq_str (data : pyval) (s : string) : bool :=
  match data with
  | PStr t => String.eqb t s
  | _ => false
  end.

(** [data in [s1, s2, ...]] *)
Definition py_in (data : pyval) (l : list string) : bool :=
  existsb (py_eq_str data) l.

Fixpoint normalize_nulls (data : pyval) : pyval :=
  match data with
  | PDict d => PDict (map (fun kv => (fst kv, normalize_nulls (snd kv))) d)
  | PList l => PList (map normalize_nulls l)
  | _ => if py_in data ["null"; "NA"] then PNone else data
  end.

(** ** Dictionaries *)

Fixpoint dict_get (k : string) (d : dict) : option pyval :=
  match d with
  | [] => None
  | (k', v) :: t => if String.eqb k k' then Some v else dict_get k t
  end.

Fixpoint dict_del (k : string) (d : dict) : dict :=
  match d with
  | [] => []
  | (k', v) :: t => if String.eqb k k' then t else (k', v) :: dict_del k t
  end.

(** [d[k] = v]: an existing key keeps its position. *)
Fixpoint dict_set (k : string) (v : pyval) (d : dict) : dict :=
  match d with
  | [] => [(k, v)]
  | (k', v') :: t =>
      if String.eqb k k' then (k, v) :: t else (k', v') :: dict_set k v t
  end.

(** [d.get(k, default)] *)
Definition dict_get_default (k : string) (default : pyval) (d : dict) : pyval :=
  match dict_get k d with
  | Some v => v
  | None => default
  end.

(** [d.pop(k, default)]: the value and the dictionary after the call. *)
Definition dict_pop (k : string) (default : pyval) (d : dict) : pyval * dict :=
  match dict_get k d with
  | Some v => (v, dict_del k d)
  | None => (default, d)
  end.

(** The object bound to [k] is mutated in place: when [k] is a key of [d]
    the new state of that object is visible through [d]; when [d.get(k, {})]
    returned the fresh default, [d] is unchanged. *)
Definition write_back (k : string) (v : pyval) (d : dict) : dict :=
  match dict_get k d with
  | Some _ => dict_set k v d
  | None => d
  end.

(** *** Method calls on an arbitrary object *)

(** [obj.pop(k, default)]: [list.pop] takes at most one argument, the other
    non-dict values have no [pop]. *)
Definition py_pop (obj : pyval) (k : string) (default : pyval)
  : result (pyval * dict) :=
  match obj with
  | PDict d => Ok (dict_pop k default d)
  | PList _ => Raise TypeError
  | _ => Raise AttributeError
  end.

(** [obj.get(...)] needs a dictionary: the other values have no [get]. *)
Definition py_as_dict (obj : pyval) : result dict :=
  match obj with
  | PDict d => Ok d
  | _ => Raise AttributeError
  end.

(** [obj.keys()] *)
Definition py_keys (obj : pyval) : result (list string) :=
  match obj with
  | PDict d => Ok (map fst d)
  | _ => Raise AttributeError
  end.

Definition string_chars (s : string) : list pyval :=
  map (fun c => PStr (String c EmptyString)) (list_ascii_of_string s).

(** [for item in obj]: the elements the loop visits. *)
Definition py_iter (obj : pyval) : result (list pyval) :=
  match obj with
  | PList l => Ok l
  | PDict d => Ok (map (fun kv => PStr (fst kv)) d)
  | PStr s => Ok (string_chars s)
  | _ => Raise TypeError
  end.

(** Truth value of an object in a condition. *)
Definition py_truthy (v : pyval) : bool :=
  match v with
  | PNone => false
  | PBool b => b
  | PInt n => negb (Z.eqb n 0)
  | PFloat q => negb (Qeq_bool q 0)
  | PStr s => negb (String.eqb s "")
  | PList l => negb (Nat.eqb (length l) 0)
  | PDict d => negb (Nat.eqb (length d) 0)
  end.

Definition isinstance_str (v : pyval) : bool :=
  match v with PStr _ => true | _ => false end.

Definition isinstance_dict (v : pyval) : bool :=
  match v with PDict _ => true | _ => false end.

Definition is_None (v : pyval) : bool :=
  match v with PNone => true | _ => false end.

(** ** Library behaviour taken as a parameter

    [json.loads] and the scalar coercions of pydantic's float validator are
    library code; the engine is defined for any such library. *)

Class Library : Type := {
  (** [json.loads]: [None] stands for [json.JSONDecodeError]. *)
  json_loads : string -> option pyval;
  (** float validator, lax mode, on a [str] input *)
  str_as_float : string -> option Q;
  (** float validator on a [bool] input *)
  bool_as_float : bool -> option Q
}.

(** ** The validated record model (lines 33-107) *)

Record VendorDetails : Type := {
  vd_name : option string;
  vd_address : option string;
  vd_contact : option string;
  vd_tax_id : option string;
  vd_extra_fields : option dict
}.

Record CustomerDetails : Type := {
  cd_name : option string;
  cd_address : option string;
  cd_contact : option string;
  cd_tax_id : option string;
  cd_extra_fields : option dict
}.

Record LineItem : Type := {
  li_transaction_date : option string;
  li_description : option string;
  li_transaction_type : option string;
  li_quantity : option Q;
  li_unit : option string;
  li_unit_price : option Q;
  li_tax_rate : option Q;
  li_tax_amount : option Q;
  li_subtotal : option Q;
  li_total : option Q;
  li_status : option string;
  li_sub_items : option (list pyval);
  li_extra_details : option (string + dict);
  li_extra_fields : option dict
}.

Record BankDetails : Type := {
  bd_account_name : option string;
  bd_account_number : option string;
  bd_bank_name : option string;
  bd_extra_fields : option dict
}.

Record PaymentSlip : Type := {
  ps_payment_amount : option Q;
  ps_payment_due_date : option string;
  ps_reference_number : option string;
  ps_bank_details : option BankDetails;
  ps_extra_fields : option dict
}.

Record Totals : Type := {
  t_previous_balance : option Q;
  t_current_charges : option Q;
  t_partial_totals : option (list pyval);
  t_taxes : option (list pyval);
  t_discounts : option Q;
  t_adjustments : option Q;
  t_grand_total : option Q;
  t_amount_in_words : option string;
  t_currency : option string;
  t_extra_fields : option dict
}.

Record InvoiceMetadata : Type := {
  im_invoice_number : option string;
  im_invoice_date : option string;
  im_due_date : option string;
  im_currency : option string;
  im_vendor_details : VendorDetails;
  im_customer_details : CustomerDetails;
  im_additional_metadata : option dict;
  im_extra_fields : option dict
}.

Record InvoiceData : Type := {
  document_type : option string;
  invoice_metadata : InvoiceMetadata;
  line_items : list LineItem;
  totals : Totals;
  payment_slip : option PaymentSlip;
  unstructured_content : option (string + dict);
  extra_fields : option dict
}.

(** [InvoiceData.model_fields] *)
Definition InvoiceData_model_fields : list string :=
  ["document_type"; "invoice_metadata"; "line_items"; "totals";
   "payment_slip"; "unstructured_content"; "extra_fields"].

Definition in_model_fields (k : string) : bool :=
  existsb (String.eqb k) InvoiceData_model_fields.

(** ** Model validation (pydantic 2, default configuration)

    The function reads [InvoiceData.model_fields] (lines 420 and 478), an
    attribute of pydantic 2 models only, so the classes are validated with
    the rules of that version: a field declared without a default is
    required even when its type is [Optional]; a key that is not a declared
    field is ignored (no class sets [extra]); a default is used without
    being validated; a [str] field takes no number, a [float] field takes
    numbers and, through the library, numeric text. *)

Section Validation.
Context {lib : Library}.

Definition lift {A : Type} (o : option A) : result A :=
  match o with
  | Some a => Ok a
  | None => Raise ValidationError
  end.

(** a field without default *)
Definition field_required {A : Type} (validate : pyval -> result A)
  (arg : option pyval) : result A :=
  match arg with
  | Some v => validate v
  | None => Raise ValidationError
  end.

(** a field with a default *)
Definition field_default {A : Type} (default : A)
  (validate : pyval -> result A) (arg : option pyval) : result A :=
  match arg with
  | Some v => validate v
  | None => Ok default
  end.

(** [Optional[T]] *)
Definition optional {A : Type} (validate : pyval -> result A) (v : pyval)
  : result (option A) :=
  match v with
  | PNone => Ok None
  | _ => a <- validate v ;; Ok (Some a)
  end.

(** [str]: no coercion from numbers *)
Definition str_type (v : pyval) : result string :=
  match v with
  | PStr s => Ok s
  | _ => Raise ValidationError
  end.

(** [float] *)
Definition float_type (v : pyval) : result Q :=
  match v with
  | PFloat q => Ok q
  | PInt n => Ok (inject_Z n)
  | PStr s => lift (str_as_float s)
  | PBool b => lift (bool_as_float b)
  | _ => Raise ValidationError
  end.

(** [List[Any]] *)
Definition list_any (v : pyval) : result (list pyval) :=
  match v with
  | PList l => Ok l
  | _ => Raise ValidationError
  end.

(** [Dict[str, Any]]: the keys of a decoded object are strings *)
Definition dict_str_any (v : pyval) : result dict :=
  match v with
  | PDict d => Ok d
  | _ => Raise ValidationError
  end.

(** [Union[str, Dict[str, Any]]] *)
Definition str_or_dict (v : pyval) : result (string + dict) :=
  match v with
  | PStr s => Ok (inl s)
  | PDict d => Ok (inr d)
  | _ => Raise ValidationError
  end.

(** a field whose type is a model, given as a dictionary *)
Definition model_type {A : Type} (init : dict -> result A) (v : pyval)
  : result A :=
  match v with
  | PDict d => init d
  | _ => Raise ValidationError
  end.

Definition opt_str := field_required (optional str_type).
Definition opt_float := field_required (optional float_type).
Definition opt_list := field_default (Some []) (optional list_any).
Definition opt_dict := field_default (Some []) (optional dict_str_any).

(** [VendorDetails] called with the keyword arguments [kw] *)
Definition VendorDetails_init (kw : dict) : result VendorDetails :=
  name <- opt_str (dict_get "name" kw) ;;
  address <- opt_str (dict_get "address" kw) ;;
  contact <- opt_str (dict_get "contact" kw) ;;
  tax_id <- opt_str (dict_get "tax_id" kw) ;;
  extra <- opt_dict (dict_get "extra_fields" kw) ;;
  Ok {| vd_name := name; vd_address := address; vd_contact := contact;
        vd_tax_id := tax_id; vd_extra_fields := extra |}.

(** [CustomerDetails] called with the keyword arguments [kw] *)
Definition CustomerDetails_init (kw : dict) : result CustomerDetails :=
  name <- opt_str (dict_get "name" kw) ;;
  address <- opt_str (dict_get "address" kw) ;;
  contact <- opt_str (dict_get "contact" kw) ;;
  tax_id <- opt_str (dict_get "tax_id" kw) ;;
  extra <- opt_dict (dict_get "extra_fields" kw) ;;
  Ok {| cd_name := name; cd_address := address; cd_contact := contact;
        cd_tax_id := tax_id; cd_extra_fields := extra |}.

(** [LineItem] called with the keyword arguments [kw] *)
Definition LineItem_init (kw : dict) : result LineItem :=
  transaction_date <- opt_str (dict_get "transaction_date" kw) ;;
  description <- opt_str (dict_get "description" kw) ;;
  transaction_type <- opt_str (dict_get "transaction_type" kw) ;;
  quantity <- opt_float (dict_get "quantity" kw) ;;
  unit <- opt_str (dict_get "unit" kw) ;;
  unit_price <- opt_float (dict_get "unit_price" kw) ;;
  tax_rate <- opt_float (dict_get "tax_rate" kw) ;;
  tax_amount <- opt_float (dict_get "tax_amount" kw) ;;
  subtotal <- opt_float (dict_get "subtotal" kw) ;;
  total <- opt_float (dict_get "total" kw) ;;
  status <- opt_str (dict_get "status" kw) ;;
  sub_items <- opt_list (dict_get "sub_items" kw) ;;
  extra_details <- field_default (Some (inl "")) (optional str_or_dict)
                     (dict_get "extra_details" kw) ;;
  extra <- opt_dict (dict_get "extra_fields" kw) ;;
  Ok {| li_transaction_date := transaction_date;
        li_description := description;
        li_transaction_type := transaction_type;
        li_quantity := quantity; li_unit := unit;
        li_unit_price := unit_price; li_tax_rate := tax_rate;
        li_tax_amount := tax_amount; li_subtotal := subtotal;
        li_total := total; li_status := status;
        li_sub_items := sub_items; li_extra_details := extra_details;
        li_extra_fields := extra |}.

(** [BankDetails] called with the keyword arguments [kw] *)
Definition BankDetails_init (kw : dict) : result BankDetails :=
  account_name <- opt_str (dict_get "account_name" kw) ;;
  account_number <- opt_str (dict_get "account_number" kw) ;;
  bank_name <- opt_str (dict_get "bank_name" kw) ;;
  extra <- opt_dict (dict_get "extra_fields" kw) ;;
  Ok {| bd_account_name := account_name;
        bd_account_number := account_number;
        bd_bank_name := bank_name; bd_extra_fields := extra |}.

(** [PaymentSlip] called with [kw], [bank_details=bank] and [extra_fields=extra]: the two
    keyword arguments of line 470 and 474 are an instance and the popped
    value. *)
Definition PaymentSlip_init (kw : dict) (bank : BankDetails)
  (extra_fields : pyval) : result PaymentSlip :=
  payment_amount <- opt_float (dict_get "payment_amount" kw) ;;
  payment_due_date <- opt_str (dict_get "payment_due_date" kw) ;;
  reference_number <- opt_str (dict_get "reference_number" kw) ;;
  extra <- optional dict_str_any extra_fields ;;
  Ok {| ps_payment_amount := payment_amount;
        ps_payment_due_date := payment_due_date;
        ps_reference_number := reference_number;
        ps_bank_details := Some bank; ps_extra_fields := extra |}.

(** [Totals] called with the keyword arguments [kw] *)
Definition Totals_init (kw : dict) : result Totals :=
  previous_balance <- opt_float (dict_get "previous_balance" kw) ;;
  current_charges <- opt_float (dict_get "current_charges" kw) ;;
  partial_totals <- opt_list (dict_get "partial_totals" kw) ;;
  taxes <- opt_list (dict_get "taxes" kw) ;;
  discounts <- opt_float (dict_get "discounts" kw) ;;
  adjustments <- opt_float (dict_get "adjustments" kw) ;;
  grand_total <- opt_float (dict_get "grand_total" kw) ;;
  amount_in_words <- opt_str (dict_get "amount_in_words" kw) ;;
  currency <- opt_str (dict_get "currency" kw) ;;
  extra <- opt_dict (dict_get "extra_fields" kw) ;;
  Ok {| t_previous_balance := previous_balance;
        t_current_charges := current_charges;
        t_partial_totals := partial_totals; t_taxes := taxes;
        t_discounts := discounts; t_adjustments := adjustments;
        t_grand_total := grand_total;
        t_amount_in_words := amount_in_words; t_currency := currency;
        t_extra_fields := extra |}.

(** [InvoiceMetadata] called with the keyword arguments [kw] *)
Definition InvoiceMetadata_init (kw : dict) : result InvoiceMetadata :=
  invoice_number <- opt_str (dict_get "invoice_number" kw) ;;
  invoice_date <- opt_str (dict_get "invoice_date" kw) ;;
  due_date <- opt_str (dict_get "due_date" kw) ;;
  currency <- opt_str (dict_get "currency" kw) ;;
  vendor <- field_required (model_type VendorDetails_init)
              (dict_get "vendor_details" kw) ;;
  customer <- field_required (model_type CustomerDetails_init)
                (dict_get "customer_details" kw) ;;
  additional <- opt_dict (dict_get "additional_metadata" kw) ;;
  extra <- opt_dict (dict_get "extra_fields" kw) ;;
  Ok {| im_invoice_number := invoice_number;
        im_invoice_date := invoice_date; im_due_date := due_date;
        im_currency := currency; im_vendor_details := vendor;
        im_customer_details := customer;
        im_additional_metadata := additional;
        im_extra_fields := extra |}.

(** [InvoiceData(document_type=..., ..., extra_fields=...)] of line 457:
    the nested models arrive as instances. *)
Definition InvoiceData_init (doc_type : pyval) (metadata : InvoiceMetadata)
  (items : list LineItem) (tot : Totals) (slip : option PaymentSlip)
  (unstructured : pyval) (extra : dict) : result InvoiceData :=
  doc <- optional str_type doc_type ;;
  content <- optional str_or_dict unstructured ;;
  Ok {| document_type := doc; invoice_metadata := metadata;
        line_items := items; totals := tot; payment_slip := slip;
        unstructured_content := content; extra_fields := Some extra |}.
End Validation.

(** ** The reconciliation pass (lines 419-480) *)

Section Engine.
Context {lib : Library}.

(** lines 419-421: the keys that are not declared fields, together with
    the dictionary the rest of the function works on ([.keys()] has raised
    when the decoded value is not a dictionary) *)
Definition unknown_top_fields (normalized_invoice_dict : pyval)
  : result (dict * list string) :=
  keys <- py_keys normalized_invoice_dict ;;
  nd <- py_as_dict normalized_invoice_dict ;;
  Ok (nd, filter (fun key => negb (in_model_fields key)) keys).

(** ["extra_details" not in item or item["extra_details"] is None] *)
Definition extra_details_missing (item : dict) : bool :=
  match dict_get "extra_details" item with
  | None => true
  | Some v => is_None v
  end.

(** The body of the loop of lines 427-432: the item after its mutation
    and the record built from it. *)
Definition normalize_line_item (item : pyval) : result (pyval * LineItem) :=
  '(extra_fields, item) <- py_pop item "extra_fields" (PDict []) ;;
  let item := if extra_details_missing item
              then dict_set "extra_details" (PStr "") item
              else item in
  li <- LineItem_init (dict_set "extra_fields" extra_fields item) ;;
  Ok (PDict item, li).

Fixpoint line_items_loop (items : list pyval)
  : result (list pyval * list LineItem) :=
  match items with
  | [] => Ok ([], [])
  | item :: rest =>
      '(item', li) <- normalize_line_item item ;;
      '(rest', lis) <- line_items_loop rest ;;
      Ok (item' :: rest', li :: lis)
  end.

(** the record built from one element of the sequence *)
Definition built_from (item : pyval) (li : LineItem) : Prop :=
  exists item', normalize_line_item item = Ok (item', li).

(** lines 426-433; the items of a list are mutated in place *)
Definition process_line_items (nd : dict) : result (dict * list LineItem) :=
  match dict_get "line_items" nd with
  | None => Ok (nd, [])
  | Some obj =>
      items <- py_iter obj ;;
      '(items', normalized_line_items) <- line_items_loop items ;;
      Ok (match obj with
          | PList _ => dict_set "line_items" (PList items') nd
          | _ => nd
          end, normalized_line_items)
  end.

(** lines 450-454 on the dictionary [additional_metadata] *)
Definition fix_additional_metadata (additional_metadata : dict) : dict :=
  let reference_numbers :=
    dict_get_default "reference_numbers" PNone additional_metadata in
  let additional_metadata :=
    if isinstance_str reference_numbers
    then dict_set "reference_numbers" (PList [reference_numbers])
           additional_metadata
    else additional_metadata in
  if negb (isinstance_dict
             (dict_get_default "extra_fields" PNone additional_metadata))
  then dict_set "extra_fields" (PDict []) additional_metadata
  else additional_metadata.

(** lines 468-475: the conditional expression reads the dictionary after
    the pops of lines 445-446 *)
Definition build_payment_slip (nd payment_slip bank_details : dict)
  (payment_slip_extra_fields bank_details_extra_fields : pyval)
  : result (option PaymentSlip) :=
  if py_truthy (dict_get_default "payment_slip" PNone nd)
  then
    bank <- BankDetails_init
              (dict_set "extra_fields" bank_details_extra_fields
                 bank_details) ;;
    slip <- PaymentSlip_init payment_slip bank payment_slip_extra_fields ;;
    Ok (Some slip)
  else Ok None.

(** The local variables at line 456, after the dictionary surgery. *)
Record locals : Type := {
  v_normalized_invoice_dict : dict;
  v_normalized_line_items : list LineItem;
  v_metadata : dict;
  v_metadata_extra_fields : pyval;
  v_totals : dict;
  v_totals_extra_fields : pyval;
  v_payment_slip : dict;
  v_payment_slip_extra_fields : pyval;
  v_bank_details : dict;
  v_bank_details_extra_fields : pyval
}.

(** lines 425-454 on the normalized top-level dictionary *)
Definition surgery (normalized_invoice_dict : dict) : result locals :=
  '(nd, normalized_line_items) <-
     process_line_items normalized_invoice_dict ;;
  (* 436-437 *)
  '(metadata_extra_fields, metadata) <-
     py_pop (dict_get_default "invoice_metadata" (PDict []) nd)
       "extra_fields" (PDict []) ;;
  let nd := write_back "invoice_metadata" (PDict metadata) nd in
  (* 440-441 *)
  '(totals_extra_fields, totals) <-
     py_pop (dict_get_default "totals" (PDict []) nd)
       "extra_fields" (PDict []) ;;
  let nd := write_back "totals" (PDict totals) nd in
  (* 444-447 *)
  '(payment_slip_extra_fields, payment_slip) <-
     py_pop (dict_get_default "payment_slip" (PDict []) nd)
       "extra_fields" (PDict []) ;;
  let bank_details := fst (dict_pop "bank_details" (PDict []) payment_slip) in
  let payment_slip :=
    snd (dict_pop "bank_details" (PDict []) payment_slip) in
  let nd := write_back "payment_slip" (PDict payment_slip) nd in
  '(bank_details_extra_fields, bank_details) <-
     py_pop bank_details "extra_fields" (PDict []) ;;
  (* 450-454 *)
  additional_metadata <-
    py_as_dict (dict_get_default "additional_metadata" (PDict []) metadata) ;;
  let additional_metadata := fix_additional_metadata additional_metadata in
  let metadata :=
    write_back "additional_metadata" (PDict additional_metadata) metadata in
  let nd := write_back "invoice_metadata" (PDict metadata) nd in
  Ok {| v_normalized_invoice_dict := nd;
        v_normalized_line_items := normalized_line_items;
        v_metadata := metadata;
        v_metadata_extra_fields := metadata_extra_fields;
        v_totals := totals;
        v_totals_extra_fields := totals_extra_fields;
        v_payment_slip := payment_slip;
        v_payment_slip_extra_fields := payment_slip_extra_fields;
        v_bank_details := bank_details;
        v_bank_details_extra_fields := bank_details_extra_fields |}.

(** lines 457-480: the models are built from the local variables *)
Definition construct (s : locals) : result InvoiceData :=
  let nd := v_normalized_invoice_dict s in
  im <- InvoiceMetadata_init
          (dict_set "extra_fields" (v_metadata_extra_fields s)
             (v_metadata s)) ;;
  tot <- Totals_init
           (dict_set "extra_fields" (v_totals_extra_fields s)
              (v_totals s)) ;;
  slip <- build_payment_slip nd (v_payment_slip s) (v_bank_details s)
            (v_payment_slip_extra_fields s)
            (v_bank_details_extra_fields s) ;;
  InvoiceData_init (dict_get_default "document_type" PNone nd) im
    (v_normalized_line_items s) tot slip
    (dict_get_default "unstructured_content" (PStr "") nd)
    (filter (fun kv => negb (in_model_fields (fst kv))) nd).

(** lines 425-480 *)
Definition map_to_models (normalized_invoice_dict : dict)
  : result InvoiceData :=
  s <- surgery normalized_invoice_dict ;;
  construct s.

(** lines 415-480 on the decoded value *)
Definition reconcile (invoice_dict : pyval) : result InvoiceData :=
  '(nd, _) <- unknown_top_fields (normalize_nulls invoice_dict) ;;
  map_to_models nd.

Definition loads (s : string) : result pyval :=
  match json_loads s with
  | Some v => Ok v
  | None => Raise JSONDecodeError
  end.

(** lines 393-403: the text is decoded once as received and once after
    cleaning; the second value is the one kept *)
Definition decode (response : string) : result pyval :=
  _ <- loads response ;;
  loads (preprocess_json response).
End Engine.

(** ** The function with its effects (lines 386-492)

    The only state outside the call is the module logger; [World] is the
    sequence of records it has emitted, oldest first.  The logger level is
    INFO, so the [debug] calls emit nothing.  The text of an exception
    interpolated into a message is not modelled. *)

Inductive levelname : Type := INFO | WARNING | ERROR.

Record LogRecord : Type := {
  level : levelname;
  message : string;
  args : list string
}.

Definition World := list LogRecord.

Definition emit (l : levelname) (m : string) (a : list string) (w : World)
  : World :=
  w ++ [{| level := l; message := m; args := a |}].

Record HTTPException : Type := {
  status_code : Z;
  detail : string
}.

Inductive outcome : Type :=
| Returned (invoice_data : InvoiceData)
| Raised (e : HTTPException).

(** the exception raised by each of the three handlers of lines 484-492 *)
Definition http_exception (e : exn) : HTTPException :=
  match e with
  | JSONDecodeError =>
      {| status_code := 500; detail := "Received invalid JSON from GPT." |}
  | ValidationError =>
      {| status_code := 422;
         detail := "Validation error in GPT response data." |}
  | _ =>
      {| status_code := 500;
         detail := "An error occurred while parsing GPT response." |}
  end.

(** the message each handler logs before raising *)
Definition error_message (e : exn) : string :=
  match e with
  | JSONDecodeError => "Invalid JSON from GPT: "
  | ValidationError => "Validation error while mapping GPT response: "
  | _ => "An unexpected error occurred while parsing GPT response: "
  end.

Definition handler (e : exn) (w : World) : outcome * World :=
  (Raised (http_exception e), emit ERROR (error_message e) [] w).

Section Parse.
Context {lib : Library}.

Definition parse_gpt_response (response : string) (w : World)
  : outcome * World :=
  let w := emit INFO "Parsing the JSON response from GPT." [] w in
  match decode response with
  | Raise e => handler e w
  | Ok invoice_dict =>
      let normalized_invoice_dict := normalize_nulls invoice_dict in
      let w := emit INFO
        "Successfully parsed JSON response. Checking for unknown fields."
        [] w in
      match unknown_top_fields normalized_invoice_dict with
      | Raise e => handler e w
      | Ok (nd, unknown) =>
          let w := match unknown with
                   | [] => w
                   | _ => emit WARNING
                            "Unknown top-level fields detected: " unknown w
                   end in
          match map_to_models nd with
          | Raise e => handler e w
          | Ok invoice_data =>
              (Returned invoice_data,
               emit INFO
                 "Successfully mapped GPT response to InvoiceData model."
                 [] w)
          end
      end
  end.

(** the value of the call, without the log *)
Definition parse (response : string) : result InvoiceData :=
  invoice_dict <- decode response ;;
  reconcile invoice_dict.
End Parse.

(** ** A reference library

    An executable decoder for the JSON texts used in the examples: objects,
    arrays, strings with the two-character escapes and [\u00XX], integer and
    decimal literals, [true], [false], [null].  It follows the strict mode of
    [json.loads]; the literals [NaN] and [Infinity] have no counterpart in
    [pyval] and are not accepted. *)

Module Json.

(** the double quote, character 34 *)
Definition dquote : ascii := "034"%char.

Definition is_ws (c : ascii) : bool :=
  let n := nat_of_ascii c in
  (Nat.eqb n 32 || Nat.eqb n 9 || Nat.eqb n 10 || Nat.eqb n 13)%bool.

Fixpoint skip_ws (s : string) : string :=
  match s with
  | String c r => if is_ws c then skip_ws r else s
  | EmptyString => s
  end.

Fixpoint span_digits (s : string) : string * string :=
  match s with
  | String c r =>
      if is_digit c
      then let '(ds, rest) := span_digits r in (String c ds, rest)
      else (EmptyString, s)
  | EmptyString => (EmptyString, s)
  end.

Definition digit_value (c : ascii) : Z := Z.of_nat (nat_of_ascii c - 48).

Fixpoint digits_value (acc : Z) (ds : string) : Z :=
  match ds with
  | String c r => digits_value (10 * acc + digit_value c) r
  | EmptyString => acc
  end.

Definition pow10 (n : nat) : positive := Pos.pow 10 (Pos.of_nat n).

(** mantissa [m], [f] fraction digits, decimal exponent [e] *)
Definition decimal (m : Z) (f : nat) (e : Z) : Q :=
  let scale := (e - Z.of_nat f)%Z in
  Qred (match scale with
        | Z0 => inject_Z m
        | Zpos p => inject_Z (m * Z.pow 10 (Zpos p))
        | Zneg p => Qmake m (Pos.pow 10 p)
        end).

(** the fraction part [\.\d+] when present *)
Definition scan_frac (s : string) : option string * string :=
  match s with
  | String "." r =>
      match span_digits r with
      | (EmptyString, _) => (None, s)
      | (fs, rest) => (Some fs, rest)
      end
  | _ => (None, s)
  end.

(** the exponent part [[eE][-+]?\d+] when present *)
Definition scan_exp (s : string) : option Z * string :=
  match s with
  | String c r =>
      if (Ascii.eqb c "e" || Ascii.eqb c "E")%bool then
        let '(neg, r') :=
          match r with
          | String "-" t => (true, t)
          | String "+" t => (false, t)
          | _ => (false, r)
          end in
        match span_digits r' with
        | (EmptyString, _) => (None, s)
        | (es, rest) =>
            (Some (if neg then (- digits_value 0 es)%Z
                   else digits_value 0 es), rest)
        end
      else (None, s)
  | EmptyString => (None, s)
  end.

(** an optional minus sign, then [0] or a digit string that does not
    start with [0] *)
Definition scan_int (s : string) : option (bool * string * string) :=
  let '(neg, s1) :=
    match s with
    | String "-" t => (true, t)
    | _ => (false, s)
    end in
  match s1 with
  | String c r =>
      if Ascii.eqb c "0" then Some (neg, "0", r)
      else if is_digit c
           then let '(ds, rest) := span_digits s1 in Some (neg, ds, rest)
           else None
  | EmptyString => None
  end.

Definition signed (neg : bool) (z : Z) : Z := if neg then (- z)%Z else z.

Definition scan_number (s : string) : option (pyval * string) :=
  match scan_int s with
  | None => None
  | Some (neg, ds, rest) =>
      let '(frac, rest1) := scan_frac rest in
      let '(ex, rest2) := scan_exp rest1 in
      match frac, ex with
      | None, None => Some (PInt (signed neg (digits_value 0 ds)), rest2)
      | _, _ =>
          let fs := match frac with Some fs => fs | None => "" end in
          let e := match ex with Some e => e | None => 0%Z end in
          Some (PFloat (decimal
                          (signed neg (digits_value (digits_value 0 ds) fs))
                          (String.length fs) e), rest2)
      end
  end.

Definition hex_value (c : ascii) : option nat :=
  let n := nat_of_ascii c in
  if is_digit c then Some (n - 48)
  else if ((97 <=? n) && (n <=? 102))%nat then Some (n - 87)
  else if ((65 <=? n) && (n <=? 70))%nat then Some (n - 55)
  else None.

Definition simple_escape (c : ascii) : option ascii :=
  match c with
  | "034"%char => Some dquote
  | "\"%char => Some "\"%char
  | "/"%char => Some "/"%char
  | "b"%char => Some (ascii_of_nat 8)
  | "f"%char => Some (ascii_of_nat 12)
  | "n"%char => Some (ascii_of_nat 10)
  | "r"%char => Some (ascii_of_nat 13)
  | "t"%char => Some (ascii_of_nat 9)
  | _ => None
  end.

Definition cons_char (c : ascii) (r : option (string * string))
  : option (string * string) :=
  match r with
  | Some (body, rest) => Some (String c body, rest)
  | None => None
  end.

(** the characters after an opening quote, up to the closing one *)
Fixpoint scan_string (s : string) : option (string * string) :=
  match s with
  | EmptyString => None
  | String c r =>
      if Ascii.eqb c dquote then Some (EmptyString, r)
      else if Ascii.eqb c "\" then
        match r with
        | String "u" (String "0" (String "0" (String h1 (String h2 r')))) =>
            match hex_value h1, hex_value h2 with
            | Some a, Some b =>
                cons_char (ascii_of_nat (16 * a + b)) (scan_string r')
            | _, _ => None
            end
        | String e r' =>
            match simple_escape e with
            | Some ch => cons_char ch (scan_string r')
            | None => None
            end
        | EmptyString => None
        end
      else if (nat_of_ascii c <? 32)%nat then None
      else cons_char c (scan_string r)
  end.

Fixpoint strip_prefix (p s : string) : option string :=
  match p, s with
  | EmptyString, _ => Some s
  | String a p', String b s' =>
      if Ascii.eqb a b then strip_prefix p' s' else None
  | _, EmptyString => None
  end.

Definition scan_atom (s : string) : option (pyval * string) :=
  match strip_prefix "null" s with
  | Some r => Some (PNone, r)
  | None =>
      match strip_prefix "true" s with
      | Some r => Some (PBool true, r)
      | None =>
          match strip_prefix "false" s with
          | Some r => Some (PBool false, r)
          | None => scan_number s
          end
      end
  end.

(** [scan_once], [JSONArray] and [JSONObject] *)
Fixpoint scan_once (fuel : nat) (s : string) {struct fuel}
  : option (pyval * string) :=
  match fuel with
  | O => None
  | S n =>
      match s with
      | String "034" r =>
          match scan_string r with
          | Some (body, rest) => Some (PStr body, rest)
          | None => None
          end
      | String "[" r =>
          match skip_ws r with
          | String "]" rest => Some (PList [], rest)
          | r' =>
              match scan_elements n r' with
              | Some (vs, rest) => Some (PList vs, rest)
              | None => None
              end
          end
      | String "{" r =>
          match skip_ws r with
          | String "}" rest => Some (PDict [], rest)
          | r' =>
              match scan_members n r' with
              | Some (kvs, rest) =>
                  Some (PDict (fold_left
                                 (fun d kv => dict_set (fst kv) (snd kv) d)
                                 kvs []), rest)
              | None => None
              end
          end
      | _ => scan_atom s
      end
  end
with scan_elements (fuel : nat) (s : string) {struct fuel}
  : option (list pyval * string) :=
  match fuel with
  | O => None
  | S n =>
      match scan_once n s with
      | Some (v, rest) =>
          match skip_ws rest with
          | String "]" rest' => Some ([v], rest')
          | String "," rest' =>
              match scan_elements n (skip_ws rest') with
              | Some (vs, rest'') => Some (v :: vs, rest'')
              | None => None
              end
          | _ => None
          end
      | None => None
      end
  end
with scan_members (fuel : nat) (s : string) {struct fuel}
  : option (list (string * pyval) * string) :=
  match fuel with
  | O => None
  | S n =>
      match s with
      | String "034" r =>
          match scan_string r with
          | Some (key, rest) =>
              match skip_ws rest with
              | String ":" rest1 =>
                  match scan_once n (skip_ws rest1) with
                  | Some (v, rest2) =>
                      match skip_ws rest2 with
                      | String "}" rest3 => Some ([(key, v)], rest3)
                      | String "," rest3 =>
                          match scan_members n (skip_ws rest3) with
                          | Some (kvs, rest4) => Some ((key, v) :: kvs, rest4)
                          | None => None
                          end
                      | _ => None
                      end
                  | None => None
                  end
              | _ => None
              end
          | None => None
          end
      | _ => None
      end
  end.

(** [JSONDecoder.decode]: leading and trailing white space is skipped and
    nothing else may follow the value *)
Definition loads (s : string) : option pyval :=
  match scan_once (2 * String.length s + 2) (skip_ws s) with
  | Some (v, rest) =>
      match skip_ws rest with
      | EmptyString => Some v
      | _ => None
      end
  | None => None
  end.

(** a decimal numeral given as text: optional sign, digits, optional
    fraction, optional exponent *)
Definition float_of_string (s : string) : option Q :=
  let '(neg, s1) :=
    match s with
    | String "-" t => (true, t)
    | String "+" t => (false, t)
    | _ => (false, s)
    end in
  let '(ds, rest) := span_digits s1 in
  let '(fs, rest1) :=
    match rest with
    | String "." r => span_digits r
    | _ => (EmptyString, rest)
    end in
  let '(ex, rest2) := scan_exp rest1 in
  match (String.length ds + String.length fs)%nat, rest2 with
  | S _, EmptyString =>
      Some (decimal (signed neg (digits_value (digits_value 0 ds) fs))
              (String.length fs)
              (match ex with Some e => e | None => 0%Z end))
  | _, _ => None
  end.

Definition float_of_bool (b : bool) : option Q :=
  Some (if b then inject_Z 1 else inject_Z 0).

End Json.

#[export] Instance reference_library : Library := {
  json_loads := Json.loads;
  str_as_float := Json.float_of_string;
  bool_as_float := Json.float_of_bool
}.

(** ** Structural induction on values *)

Fixpoint pyval_ind (P : pyval -> Prop)
  (HNone : P PNone)
  (HBool : forall b, P (PBool b))
  (HInt : forall n, P (PInt n))
  (HFloat : forall q, P (PFloat q))
  (HStr : forall s, P (PStr s))
  (HList : forall l, Forall P l -> P (PList l))
  (HDict : forall d, Forall (fun kv => P (snd kv)) d -> P (PDict d))
  (v : pyval) {struct v} : P v :=
  match v with
  | PNone => HNone
  | PBool b => HBool b
  | PInt n => HInt n
  | PFloat q => HFloat q
  | PStr s => HStr s
  | PList l =>
      HList l
        ((fix all (l : list pyval) : Forall P l :=
            match l with
            | [] => Forall_nil P
            | x :: t =>
                Forall_cons x
                  (pyval_ind P HNone HBool HInt HFloat HStr HList HDict x)
                  (all t)
            end) l)
  | PDict d =>
      HDict d
        ((fix all (d : dict) : Forall (fun kv => P (snd kv)) d :=
            match d with
            | [] => Forall_nil _
            | kv :: t =>
                Forall_cons kv
                  (pyval_ind P HNone HBool HInt HFloat HStr HList HDict
                     (snd kv))
                  (all t)
            end) d)
  end.

(** ** Vocabulary of the statements *)

(** A position in a value tree: keys of maps and indices of sequences. *)
Inductive step : Type :=
| Key (k : string)
| Index (i : nat).

Fixpoint lookup (p : list step) (v : pyval) : option pyval :=
  match p with
  | [] => Some v
  | Key k :: p' =>
      match v with
      | PDict d =>
          match dict_get k d with
          | Some x => lookup p' x
          | None => None
          end
      | _ => None
      end
  | Index i :: p' =>
      match v with
      | PList l =>
          match nth_error l i with
          | Some x => lookup p' x
          | None => None
          end
      | _ => None
      end
  end.

Definition is_scalar (v : pyval) : bool :=
  match v with
  | PList _ | PDict _ => false
  | _ => true
  end.

(** the string ["null"] or the string ["NA"] *)
Definition null_synonym (v : pyval) : bool :=
  match v with
  | PStr s => String.eqb s "null" || String.eqb s "NA"
  | _ => false
  end.

(** same kind of container, same keys in the same order, same length *)
Definition same_shape (a b : pyval) : Prop :=
  match a, b with
  | PDict d, PDict d' => map fst d = map fst d'
  | PList l, PList l' => length l = length l'
  | _, _ => False
  end.

Definition normalize_dict (d : dict) : dict :=
  map (fun kv => (fst kv, normalize_nulls (snd kv))) d.

(** the key is missing, or bound to null or to a null synonym *)
Definition absent_input (k : string) (d : dict) : Prop :=
  match dict_get k d with
  | None => True
  | Some v => v = PNone \/ null_synonym v = true
  end.

(** *** The cleaner, as the specification words it

    Position [i] of [s] holds a comma whose left and right neighbours are
    digits. *)
Definition digit_at (s : string) (i : nat) : bool :=
  match String.get i s with
  | Some c => is_digit c
  | None => false
  end.

Definition separator_at (s : string) (i : nat) : bool :=
  match i with
  | O => false
  | S j =>
      match String.get i s with
      | Some c => Ascii.eqb c comma && digit_at s j && digit_at s (S i)
      | None => false
      end
  end.

(** the same on an arbitrary [str], for the class [digit] *)
Definition digit_at_str (digit : codepoint -> bool) (s : pystr) (i : nat)
  : bool :=
  match nth_error s i with
  | Some c => digit c
  | None => false
  end.

Definition separator_at_str (digit : codepoint -> bool) (s : pystr) (i : nat)
  : bool :=
  match i with
  | O => false
  | S j =>
      match nth_error s i with
      | Some c =>
          N.eqb c comma_point && digit_at_str digit s j
          && digit_at_str digit s (S i)
      | None => false
      end
  end.

(** the code points of [s] from position [i] on, those of [tail], without
    the separators of [s] *)
Fixpoint drop_separators_str (digit : codepoint -> bool) (s : pystr) (i : nat)
  (tail : pystr) : pystr :=
  match tail with
  | [] => []
  | c :: rest =>
      if separator_at_str digit s i
      then drop_separators_str digit s (S i) rest
      else c :: drop_separators_str digit s (S i) rest
  end.

Definition without_separators_str (digit : codepoint -> bool) (s : pystr)
  : pystr :=
  drop_separators_str digit s 0 s.

(** no comma of [s] stands between two digits, [prev] being the code point
    before [s] *)
Fixpoint separator_free_str (digit : codepoint -> bool)
  (prev : option codepoint) (s : pystr) : bool :=
  match s with
  | [] => true
  | c :: rest =>
      negb (N.eqb c comma_point && lookbehind_class digit prev
            && lookahead_class digit rest)
      && separator_free_str digit (Some c) rest
  end.

(** [sub] occurs in [s] *)
Fixpoint occurs (sub s : string) : bool :=
  match Json.strip_prefix sub s with
  | Some _ => true
  | None =>
      match s with
      | String _ rest => occurs sub rest
      | EmptyString => false
      end
  end.

(** the records raised by the handlers of lines 484-492 *)
Definition invalid_json : HTTPException := http_exception JSONDecodeError.

Definition validation_failure : HTTPException := http_exception ValidationError.

Definition unexpected_failure : HTTPException := http_exception AttributeError.

(** the outcome of the call for a value of the reconciliation *)
Definition outcome_of (m : result InvoiceData) : outcome :=
  match m with
  | Ok invoice_data => Returned invoice_data
  | Raise e => Raised (http_exception e)
  end.

(** ** Sample replies

    The texts are written with apostrophes; [json_text] turns each into a
    double quote. *)

Definition json_text (s : string) : string :=
  string_of_list_ascii
    (map (fun c => if Ascii.eqb c "'" then Json.dquote else c)
       (list_ascii_of_string s)).

Definition vendor_json : string :=
  "{'name': 'Acme', 'address': null, 'contact': 'NA', 'tax_id': 'T1', 'foo': 'bar'}".

Definition customer_json : string :=
  "{'name': 'Bolt', 'address': null, 'contact': null, 'tax_id': null}".

Definition metadata_json (vendor : string) : string :=
  "{'invoice_number': 'INV-001', 'invoice_date': null, 'due_date': 'null', 'currency': 'USD', 'vendor_details': "
  ++ vendor ++ ", 'customer_details': " ++ customer_json ++ "}".

Definition item_json (description total : string) : string :=
  "{'transaction_date': null, 'description': '" ++ description
  ++ "', 'transaction_type': null, 'quantity': 2, 'unit': 'NA', 'unit_price': null, 'tax_rate': null, 'tax_amount': null, 'subtotal': null, 'total': "
  ++ total ++ ", 'status': null}".

Definition totals_json (grand_total : string) : string :=
  "{'previous_balance': null, 'current_charges': null, 'discounts': null, 'adjustments': null, 'grand_total': "
  ++ grand_total ++ ", 'amount_in_words': null, 'currency': 'USD'}".

Definition invoice_json (vendor grand_total tail : string) : string :=
  json_text
    ("{'document_type': 'invoice', 'invoice_metadata': "
     ++ metadata_json vendor
     ++ ", 'line_items': [" ++ item_json "Widget" "10" ++ ", "
     ++ item_json "Gadget" "20.5" ++ "], 'totals': "
     ++ totals_json grand_total ++ tail ++ "}").

(** a complete reply: an undeclared vendor key, line items without
    [extra_details], a quoted amount with a thousands separator, two
    undeclared top-level keys and no payment slip *)
Definition sample_response : string :=
  invoice_json vendor_json "'1,234.56'" ", 'page_count': 3, 'note': 'NA'".

(** the same reply with the amount written as a bare literal *)
Definition bare_amount_response : string :=
  invoice_json vendor_json "1,234.56" ", 'page_count': 3, 'note': 'NA'".

(** the same reply with a null payment slip *)
Definition null_slip_response : string :=
  invoice_json vendor_json "'1,234.56'" ", 'payment_slip': null".

(** the same reply with an empty payment slip *)
Definition empty_slip_response : string :=
  invoice_json vendor_json "'1,234.56'" ", 'payment_slip': {}".

(** the vendor is the scalar ["Acme"] *)
Definition scalar_vendor_response : string :=
  invoice_json "'Acme'" "'1,234.56'" "".

(** the vendor is the scalar ["Acme"], the only line item is the empty
    map and the totals are null *)
Definition scalar_vendor_empty_item_response : string :=
  json_text
    ("{'document_type': 'invoice', 'invoice_metadata': "
     ++ metadata_json "'Acme'" ++ ", 'line_items': [{}], 'totals': null}").

(** the vendor is the scalar ["Acme"], there is no line item and the
    totals are null *)
Definition scalar_vendor_null_totals_response : string :=
  json_text
    ("{'document_type': 'invoice', 'invoice_metadata': "
     ++ metadata_json "'Acme'" ++ ", 'line_items': [], 'totals': null}").

(** the customer's place is taken by the vendor text: used to compare two
    offending paths *)
Definition scalar_customer_response : string :=
  json_text
    ("{'document_type': 'invoice', 'invoice_metadata': {'invoice_number': 'INV-001', 'invoice_date': null, 'due_date': null, 'currency': 'USD', 'vendor_details': "
     ++ customer_json ++ ", 'customer_details': 'Bolt'}, 'line_items': [], 'totals': "
     ++ totals_json "1" ++ "}").

Definition decoded (response : string) : pyval :=
  match Json.loads response with
  | Some v => v
  | None => PNone
  end.

Definition top_level (response : string) : dict :=
  match decoded response with
  | PDict d => d
  | _ => []
  end.

(** the keyword argument is not given, or is [None] *)
Definition absent_kw (arg : option pyval) : Prop :=
  arg = None \/ arg = Some PNone.

(** [fields] pairs the key of each optional scalar field of a record with
    the statement that the field is absent in the record; each field is
    absent whenever its key is absent from the input map *)
Definition absent_stay_absent (input : dict) (fields : list (string * Prop))
  : Prop :=
  Forall (fun kp => absent_input (fst kp) input -> snd kp) fields.

Definition VendorDetails_scalars (r : VendorDetails) : list (string * Prop) :=
  [("name", vd_name r = None); ("address", vd_address r = None);
   ("contact", vd_contact r = None); ("tax_id", vd_tax_id r = None)].

Definition CustomerDetails_scalars (r : CustomerDetails)
  : list (string * Prop) :=
  [("name", cd_name r = None); ("address", cd_address r = None);
   ("contact", cd_contact r = None); ("tax_id", cd_tax_id r = None)].

Definition LineItem_scalars (r : LineItem) : list (string * Prop) :=
  [("transaction_date", li_transaction_date r = None);
   ("description", li_description r = None);
   ("transaction_type", li_transaction_type r = None);
   ("quantity", li_quantity r = None);
   ("unit", li_unit r = None);
   ("unit_price", li_unit_price r = None);
   ("tax_rate", li_tax_rate r = None);
   ("tax_amount", li_tax_amount r = None);
   ("subtotal", li_subtotal r = None);
   ("total", li_total r = None);
   ("status", li_status r = None)].

Definition BankDetails_scalars (r : BankDetails) : list (string * Prop) :=
  [("account_name", bd_account_name r = None);
   ("account_number", bd_account_number r = None);
   ("bank_name", bd_bank_name r = None)].

Definition PaymentSlip_scalars (r : PaymentSlip) : list (string * Prop) :=
  [("payment_amount", ps_payment_amount r = None);
   ("payment_due_date", ps_payment_due_date r = None);
   ("reference_number", ps_reference_number r = None)].

Definition Totals_scalars (r : Totals) : list (string * Prop) :=
  [("previous_balance", t_previous_balance r = None);
   ("current_charges", t_current_charges r = None);
   ("discounts", t_discounts r = None);
   ("adjustments", t_adjustments r = None);
   ("grand_total", t_grand_total r = None);
   ("amount_in_words", t_amount_in_words r = None);
   ("currency", t_currency r = None)].

Definition InvoiceMetadata_scalars (r : InvoiceMetadata)
  : list (string * Prop) :=
  [("invoice_number", im_invoice_number r = None);
   ("invoice_date", im_invoice_date r = None);
   ("due_date", im_due_date r = None);
   ("currency", im_currency r = None)].

(** the declared fields of [VendorDetails] *)
Definition VendorDetails_model_fields : list string :=
  ["name"; "address"; "contact"; "tax_id"; "extra_fields"].

(** the keyword arguments [kw] agree with the normalized input on [keys] *)
Definition agree_on (keys : list string) (kw input : dict) : Prop :=
  forall k, In k keys -> dict_get k kw = dict_get k (normalize_dict input).

(** only pydantic's [ValidationError] *)
Definition only_validation {A : Type} (m : result A) : Prop :=
  forall e, m = Raise e -> e = ValidationError.

(** never [json.JSONDecodeError] *)
Definition no_decode_error {A : Type} (m : result A) : Prop :=
  forall e, m = Raise e -> e <> JSONDecodeError.

(** the top-level map the engine receives for the complete sample reply *)
Definition sample_top : dict := top_level (preprocess_json sample_response).

Definition dict_of (v : option pyval) : dict :=
  match v with
  | Some (PDict d) => d
  | _ => []
  end.

Definition list_of (v : option pyval) : list pyval :=
  match v with
  | Some (PList l) => l
  | _ => []
  end.

Definition sample_metadata : dict :=
  dict_of (dict_get "invoice_metadata" sample_top).

Definition sample_vendor : dict :=
  dict_of (dict_get "vendor_details" sample_metadata).

(** the top-level map and the metadata map of the reply whose vendor is a
    scalar *)
Definition scalar_vendor_top : dict :=
  top_level (preprocess_json scalar_vendor_response).

Definition scalar_vendor_metadata : dict :=
  dict_of (dict_get "invoice_metadata" scalar_vendor_top).

(** the entry's key is not a declared field of [InvoiceData] *)
Definition undeclared (kv : string * pyval) : bool :=
  negb (in_model_fields (fst kv)).

(** ** The reply sanitizer (line 378 of [call_gpt_api])

    [assistant_message.strip().lstrip('```json').rstrip('```')] followed by
    the two [replace] calls.  The argument of [lstrip] and of [rstrip] is a
    set of characters, not a prefix or a suffix.  The two typographic quotes
    are not ASCII: they stand here as their UTF-8 byte sequences; white
    space is the ASCII white space of [str.isspace]. *)

Definition py_isspace (c : ascii) : bool :=
  let n := nat_of_ascii c in
  ((9 <=? n) && (n <=? 13) || (28 <=? n) && (n <=? 32))%nat.

Fixpoint in_chars (chars : string) (c : ascii) : bool :=
  match chars with
  | EmptyString => false
  | String x rest => Ascii.eqb c x || in_chars rest c
  end.

(** [s.lstrip(chars)] for the set of characters [f] *)
Fixpoint lstrip (f : ascii -> bool) (s : string) : string :=
  match s with
  | String c rest => if f c then lstrip f rest else s
  | EmptyString => EmptyString
  end.

(** [s.rstrip(chars)] *)
Fixpoint rstrip (f : ascii -> bool) (s : string) : string :=
  match s with
  | EmptyString => EmptyString
  | String c rest =>
      match rstrip f rest with
      | EmptyString => if f c then EmptyString else String c EmptyString
      | kept => String c kept
      end
  end.

(** [s.strip(chars)] *)
Definition strip (f : ascii -> bool) (s : string) : string :=
  rstrip f (lstrip f s).

(** [s.replace(old, new)] for a non-empty [old]: the occurrences are
    taken from left to right and do not overlap; [skip] counts the
    characters of an occurrence that are still to be passed over *)
Fixpoint replace_from (old new : string) (skip : nat) (s : string) : string :=
  match s with
  | EmptyString => EmptyString
  | String c rest =>
      match skip with
      | S k => replace_from old new k rest
      | O =>
          match Json.strip_prefix old s with
          | Some _ =>
              (new ++ replace_from old new (String.length old - 1) rest)%string
          | None => String c (replace_from old new 0 rest)
          end
      end
  end.

Definition replace (old new s : string) : string := replace_from old new 0 s.

Definition fence_json : string := "```json".

Definition fence : string := "```".

(** U+201C and U+201D in UTF-8 *)
Definition left_quote : string :=
  String "226" (String "128" (String "156" EmptyString)).

Definition right_quote : string :=
  String "226" (String "128" (String "157" EmptyString)).

Definition plain_quote : string := String Json.dquote EmptyString.

Definition sanitize_message (assistant_message : string) : string :=
  replace right_quote plain_quote
    (replace left_quote plain_quote
       (rstrip (in_chars fence)
          (lstrip (in_chars fence_json)
             (strip py_isspace assistant_message)))).

(** every character of [s] satisfies [f] *)
Fixpoint all_chars (f : ascii -> bool) (s : string) : bool :=
  match s with
  | EmptyString => true
  | String c rest => f c && all_chars f rest
  end.

Definition is_ascii_char (c : ascii) : bool := (nat_of_ascii c <? 128)%nat.

Definition is_ascii (s : string) : bool := all_chars is_ascii_char s.

Definition first_char (s : string) : option ascii :=
  match s with
  | String c _ => Some c
  | EmptyString => None
  end.

Fixpoint last_char (s : string) : option ascii :=
  match s with
  | EmptyString => None
  | String c rest =>
      match last_char rest with
      | Some d => Some d
      | None => Some c
      end
  end.

(** a JSON object text: a brace, a body, a brace *)
Definition object_text (body : string) : string :=
  String "{" (body ++ "}").

(** ** The file extension check (lines 130-133 of [extract_invoice]) *)

Definition lower_char (c : ascii) : ascii :=
  let n := nat_of_ascii c in
  if ((65 <=? n) && (n <=? 90))%nat then ascii_of_nat (n + 32) else c.

(** [s.lower()] on ASCII text *)
Fixpoint lower (s : string) : string :=
  match s with
  | EmptyString => EmptyString
  | String c rest => String (lower_char c) (lower rest)
  end.

Definition is_dot (c : ascii) : bool := Ascii.eqb c ".".

Definition allowed_extensions : list string := ["pdf"].

(** [request.ext.lower().strip('.')] *)
Definition normalize_ext (ext : string) : string := strip is_dot (lower ext).

(** the test of line 132, negated: the extension is accepted *)
Definition ext_allowed (ext : string) : bool :=
  existsb (String.eqb (normalize_ext ext)) allowed_extensions.

(** ** The end of the endpoint (lines 174-185 of [extract_invoice])

    [call_gpt_api] returns the sanitized message, or a dictionary with the
    single key [error] when anything was raised.  The value of the endpoint
    is modelled; its log records and the removal of the uploaded file are
    not. *)

Inductive api_response : Type :=
| Message (assistant_message : string)
| ErrorDict (error : string).

Inductive endpoint_outcome : Type :=
| Responded (invoice_data : InvoiceData)
| Failed (e : HTTPException)
| Crashed (e : exn).

Definition parse_failure : HTTPException :=
  {| status_code := 500; detail := "Failed to parse the GPT API response." |}.

Section Endpoint.
Context {lib : Library}.

(** ["error" in response] is a key test on the dictionary and a substring
    test on the message; on a message that holds the substring, the
    subscript [response['error']] of line 175 raises [TypeError], which no
    handler of the endpoint catches.  Every exception of
    [parse_gpt_response] is caught at line 181. *)
Definition respond (response : api_response) : endpoint_outcome :=
  match response with
  | ErrorDict error => Failed {| status_code := 500; detail := error |}
  | Message assistant_message =>
      if occurs "error" assistant_message then Crashed TypeError
      else
        match parse assistant_message with
        | Ok invoice_data => Responded invoice_data
        | Raise _ => Failed parse_failure
        end
  end.
End Endpoint.

(** a second complete reply: the metadata has an [additional_metadata]
    map whose [reference_numbers] is one string, there are no line items,
    and the payment slip holds nothing but its bank details and an overflow
    map *)
Definition second_response : string :=
  json_text
    ("{'document_type': null, 'invoice_metadata': {'invoice_number': 'INV-002', 'invoice_date': null, 'due_date': null, 'currency': null, 'vendor_details': "
     ++ customer_json ++ ", 'customer_details': " ++ customer_json
     ++ ", 'additional_metadata': {'reference_numbers': 'PO-7', 'notes': 'NA'}}, 'line_items': [], 'totals': "
     ++ totals_json "1"
     ++ ", 'payment_slip': {'bank_details': {'account_name': 'Bolt', 'account_number': '12', 'bank_name': null}, 'extra_fields': {'k': 1}}}").

Definition second_top : dict := top_level (preprocess_json second_response).


Definition second_slip : dict :=
  dict_of (dict_get "payment_slip" second_top).

(** the top-level map of the reply whose payment slip is null *)
Definition null_slip_top : dict :=
  top_level (preprocess_json null_slip_response).

(** a reply that is a JSON list *)
Definition list_response : string := "[1, 2]".

(** a reply with three line items: the first has a text under
    [extra_details] and an overflow map, the second a map under
    [extra_details], the third a null [extra_details] *)
Definition detailed_item_json (description total tail : string) : string :=
  "{'transaction_date': null, 'description': '" ++ description
  ++ "', 'transaction_type': null, 'quantity': 2, 'unit': 'NA', 'unit_price': null, 'tax_rate': null, 'tax_amount': null, 'subtotal': null, 'total': "
  ++ total ++ ", 'status': null" ++ tail ++ "}".

Definition detailed_items_response : string :=
  json_text
    ("{'document_type': 'invoice', 'invoice_metadata': "
     ++ metadata_json vendor_json ++ ", 'line_items': ["
     ++ detailed_item_json "Widget" "10"
          ", 'extra_details': 'per unit', 'extra_fields': {'sku': 'W-1'}"
     ++ ", "
     ++ detailed_item_json "Gadget" "20.5"
          ", 'extra_details': {'color': 'red'}"
     ++ ", "
     ++ detailed_item_json "Sprocket" "'30'" ", 'extra_details': null"
     ++ "], 'totals': " ++ totals_json "1" ++ "}").

Definition detailed_top : dict :=
  top_level (preprocess_json detailed_items_response).

Definition detailed_items : list pyval :=
  list_of (dict_get "line_items" detailed_top).

(** ** A line item, field by field

    The record [li] holds the validated entries of the map [d]: each
    declared key gives the field of its name, [extra_details] is the empty
    string when the map has none or null there and the entry itself
    otherwise, and the overflow map is the map's own [extra_fields]
    entry. *)
Definition extra_details_of (arg : option pyval) (x : option (string + dict))
  : Prop :=
  match arg with
  | None | Some PNone => x = Some (inl EmptyString)
  | Some (PStr s) => x = Some (inl s)
  | Some (PDict m) => x = Some (inr m)
  | Some _ => False
  end.

Section LineItemFields.
Context {lib : Library}.

Definition line_item_of (d : dict) (li : LineItem) : Prop :=
  opt_str (dict_get "transaction_date" d) = Ok (li_transaction_date li)
  /\ opt_str (dict_get "description" d) = Ok (li_description li)
  /\ opt_str (dict_get "transaction_type" d) = Ok (li_transaction_type li)
  /\ opt_float (dict_get "quantity" d) = Ok (li_quantity li)
  /\ opt_str (dict_get "unit" d) = Ok (li_unit li)
  /\ opt_float (dict_get "unit_price" d) = Ok (li_unit_price li)
  /\ opt_float (dict_get "tax_rate" d) = Ok (li_tax_rate li)
  /\ opt_float (dict_get "tax_amount" d) = Ok (li_tax_amount li)
  /\ opt_float (dict_get "subtotal" d) = Ok (li_subtotal li)
  /\ opt_float (dict_get "total" d) = Ok (li_total li)
  /\ opt_str (dict_get "status" d) = Ok (li_status li)
  /\ opt_list (dict_get "sub_items" d) = Ok (li_sub_items li)
  /\ extra_details_of (dict_get "extra_details" d) (li_extra_details li)
  /\ opt_dict (dict_get "extra_fields" d) = Ok (li_extra_fields li).
End LineItemFields.

(** the record has level [l] *)
Definition has_level (l : levelname) (rec : LogRecord) : bool :=
  match l, level rec with
  | INFO, INFO | WARNING, WARNING | ERROR, ERROR => true
  | _, _ => false
  end.

(** the warning of line 423 for the keys [unknown] *)
Definition unknown_fields_warning (unknown : list string) : LogRecord :=
  {| level := WARNING;
     message := "Unknown top-level fields detected: ";
     args := unknown |}.

(** ** Vocabulary of the further properties *)

(** no comma of [s] stands between two digits, [prev] being the character
    before [s] *)
Fixpoint separator_free (prev : option ascii) (s : string) : bool :=
  match s with
  | EmptyString => true
  | String c rest =>
      negb (Ascii.eqb c comma && lookbehind_digit prev && lookahead_digit rest)
      && separator_free (Some c) rest
  end.

(** null, or one of the two null synonyms *)
Definition null_like (v : pyval) : Prop :=
  v = PNone \/ null_synonym v = true.

(** the positions the dictionary surgery dereferences with [pop] or [get],
    or iterates over *)
Definition dereferenced_paths : list (list step) :=
  [[Key "line_items"]; [Key "invoice_metadata"]; [Key "totals"];
   [Key "payment_slip"]; [Key "payment_slip"; Key "bank_details"];
   [Key "invoice_metadata"; Key "additional_metadata"]].

(** every key of [keys] is bound in [input] *)
Definition keys_present (input : dict) (keys : list string) : Prop :=
  Forall (fun k => dict_get k input <> None) keys.

(** the fields declared without a default, by model; the nested models
    that line 457 passes as instances are not keyword arguments *)
Definition VendorDetails_required : list string :=
  ["name"; "address"; "contact"; "tax_id"].

Definition CustomerDetails_required : list string :=
  ["name"; "address"; "contact"; "tax_id"].

Definition LineItem_required : list string :=
  ["transaction_date"; "description"; "transaction_type"; "quantity"; "unit";
   "unit_price"; "tax_rate"; "tax_amount"; "subtotal"; "total"; "status"].

Definition BankDetails_required : list string :=
  ["account_name"; "account_number"; "bank_name"].

Definition PaymentSlip_required : list string :=
  ["payment_amount"; "payment_due_date"; "reference_number"].

Definition Totals_required : list string :=
  ["previous_balance"; "current_charges"; "discounts"; "adjustments";
   "grand_total"; "amount_in_words"; "currency"].

Definition InvoiceMetadata_required : list string :=
  ["invoice_number"; "invoice_date"; "due_date"; "currency";
   "vendor_details"; "customer_details"].

(** the local variables [s] with another top-level dictionary *)
Definition with_invoice_dict (nd : dict) (s : locals) : locals :=
  {| v_normalized_invoice_dict := nd;
     v_normalized_line_items := v_normalized_line_items s;
     v_metadata := v_metadata s;
     v_metadata_extra_fields := v_metadata_extra_fields s;
     v_totals := v_totals s;
     v_totals_extra_fields := v_totals_extra_fields s;
     v_payment_slip := v_payment_slip s;
     v_payment_slip_extra_fields := v_payment_slip_extra_fields s;
     v_bank_details := v_bank_details s;
     v_bank_details_extra_fields := v_bank_details_extra_fields s |}.

(** * Properties *)

(** ** Strings *)

Lemma string_app_assoc (a b c : string) : ((a ++ b) ++ c = a ++ (b ++ c))%string.
Proof.
  induction a as [|x a IH]; simpl; [reflexivity | now rewrite IH].
Qed.

Lemma string_length_snoc (a : string) (c : ascii) :
  String.length (a ++ String c EmptyString) = S (String.length a).
Proof.
  induction a as [|x a IH]; simpl; [reflexivity | now rewrite IH].
Qed.

Lemma get_app_length (pre : string) (c : ascii) (r : string) :
  String.get (String.length pre) (pre ++ String c r) = Some c.
Proof.
  induction pre as [|x pre IH]; simpl; [reflexivity | exact IH].
Qed.

Lemma get_app_next (pre : string) (p c : ascii) (r : string) :
  String.get (S (String.length pre)) (pre ++ String p (String c r)) = Some c.
Proof.
  induction pre as [|x pre IH]; simpl; [reflexivity | exact IH].
Qed.

Lemma get_app_next2 (pre : string) (p c : ascii) (r : string) :
  String.get (S (S (String.length pre))) (pre ++ String p (String c r))
  = String.get 0 r.
Proof.
  induction pre as [|x pre IH]; simpl; [reflexivity | exact IH].
Qed.

Lemma separator_at_snoc (pre : string) (p c : ascii) (r : string) :
  separator_at ((pre ++ String p EmptyString) ++ String c r)
    (S (String.length pre))
  = Ascii.eqb c comma && is_digit p && lookahead_digit r.
Proof.
  rewrite string_app_assoc.
  change (String p EmptyString ++ String c r)%string
    with (String p (String c r)).
  unfold separator_at, digit_at.
  rewrite get_app_next, get_app_length, get_app_next2.
  destruct r; reflexivity.
Qed.

(** *** The cleaner on an arbitrary [str] *)

Section CleanerOnStr.
Variable digit : codepoint -> bool.

Lemma nth_error_snoc_here (pre : pystr) (p : codepoint) (r : pystr) :
  nth_error (pre ++ p :: r) (length pre) = Some p.
Proof. induction pre as [|x pre IH]; simpl; [reflexivity | exact IH]. Qed.

Lemma nth_error_snoc_next (pre : pystr) (p c : codepoint) (r : pystr) :
  nth_error (pre ++ p :: c :: r) (S (length pre)) = Some c.
Proof. induction pre as [|x pre IH]; simpl; [reflexivity | exact IH]. Qed.

Lemma nth_error_snoc_next2 (pre : pystr) (p c : codepoint) (r : pystr) :
  nth_error (pre ++ p :: c :: r) (S (S (length pre))) = nth_error r 0.
Proof. induction pre as [|x pre IH]; simpl; [reflexivity | exact IH]. Qed.

Lemma nth_error_past (pre : pystr) (p : codepoint) (j : nat) :
  nth_error ((pre ++ [p]) ++ []) (S (length pre + j)) = None.
Proof.
  rewrite app_nil_r. revert j.
  induction pre as [|x pre IH]; intros j; cbn; [now destruct j | apply IH].
Qed.

Lemma separator_at_str_snoc (pre : pystr) (p c : codepoint) (r : pystr) :
  separator_at_str digit ((pre ++ [p]) ++ c :: r) (S (length pre))
  = N.eqb c comma_point && digit p && lookahead_class digit r.
Proof.
  rewrite <- app_assoc. cbn [app].
  unfold separator_at_str, digit_at_str.
  rewrite nth_error_snoc_next, nth_error_snoc_here, nth_error_snoc_next2.
  destruct r; reflexivity.
Qed.

Lemma re_sub_commas_drop (s pre : pystr) (p : codepoint) :
  re_sub_commas digit (Some p) s
  = drop_separators_str digit ((pre ++ [p]) ++ s) (S (length pre)) s.
Proof.
  revert pre p. induction s as [|c r IH]; intros pre p; [reflexivity|].
  cbn [re_sub_commas drop_separators_str lookbehind_class].
  rewrite separator_at_str_snoc.
  specialize (IH (pre ++ [p]) c).
  rewrite length_app in IH. cbn [length] in IH. rewrite Nat.add_1_r in IH.
  rewrite <- (app_assoc _ [c] r) in IH. cbn [app] in IH.
  rewrite <- IH. reflexivity.
Qed.

Lemma preprocess_json_str_without_separators (s : pystr) :
  preprocess_json_str digit s = without_separators_str digit s.
Proof.
  unfold preprocess_json_str, without_separators_str.
  destruct s as [|c r]; [reflexivity|].
  cbn [re_sub_commas drop_separators_str lookbehind_class separator_at_str].
  rewrite andb_false_r. cbn [andb].
  now rewrite (re_sub_commas_drop r [] c).
Qed.

Lemma separator_free_str_fixed (s : pystr) (prev : option codepoint) :
  separator_free_str digit prev s = true -> re_sub_commas digit prev s = s.
Proof.
  revert prev. induction s as [|c r IH]; intros prev H; [reflexivity|].
  cbn [separator_free_str re_sub_commas] in *.
  apply andb_true_iff in H as [N F].
  apply negb_true_iff in N. rewrite N. now rewrite IH.
Qed.

Lemma re_sub_commas_length (s : pystr) (prev : option codepoint) :
  length (re_sub_commas digit prev s) <= length s.
Proof.
  revert prev. induction s as [|c r IH]; intros prev; [apply Nat.le_refl|].
  cbn [re_sub_commas].
  destruct (N.eqb c comma_point && lookbehind_class digit prev
            && lookahead_class digit r);
    cbn [length]; specialize (IH (Some c)); lia.
Qed.

Lemma fixed_separator_free_str (s : pystr) (prev : option codepoint) :
  re_sub_commas digit prev s = s -> separator_free_str digit prev s = true.
Proof.
  revert prev. induction s as [|c r IH]; intros prev H; [reflexivity|].
  cbn [separator_free_str re_sub_commas] in *.
  destruct (N.eqb c comma_point && lookbehind_class digit prev
            && lookahead_class digit r).
  - exfalso. pose proof (re_sub_commas_length r (Some c)) as L.
    rewrite H in L. cbn [length] in L. lia.
  - injection H as H. now rewrite (IH _ H).
Qed.

Lemma separator_free_str_from (s pre : pystr) (p : codepoint) :
  separator_free_str digit (Some p) s = true
  <-> forall j, separator_at_str digit ((pre ++ [p]) ++ s)
                  (S (length pre) + j) = false.
Proof.
  revert pre p. induction s as [|c r IH]; intros pre p.
  - split; [|reflexivity]. intros _ j.
    unfold separator_at_str. cbn [Nat.add].
    now rewrite nth_error_past.
  - cbn [separator_free_str lookbehind_class].
    specialize (IH (pre ++ [p]) c).
    rewrite length_app in IH. cbn [length] in IH. rewrite Nat.add_1_r in IH.
    rewrite <- (app_assoc _ [c] r) in IH. cbn [app] in IH.
    rewrite andb_true_iff, negb_true_iff, IH.
    rewrite <- (separator_at_str_snoc pre p c r). split.
    + intros [H0 HS] [|j].
      * rewrite Nat.add_0_r. exact H0.
      * rewrite Nat.add_succ_r. apply (HS j).
    + intros H. split.
      * specialize (H 0). now rewrite Nat.add_0_r in H.
      * intros j. specialize (H (S j)). now rewrite Nat.add_succ_r in H.
Qed.

Lemma separator_free_str_iff (s : pystr) :
  separator_free_str digit None s = true
  <-> forall i, separator_at_str digit s i = false.
Proof.
  destruct s as [|c r]; [split; [intros _ [|i]|]; reflexivity|].
  cbn [separator_free_str lookbehind_class].
  rewrite andb_false_r. cbn [negb andb].
  rewrite (separator_free_str_from r [] c). cbn. split.
  - intros H [|i]; [reflexivity | apply H].
  - intros H j. apply (H (S j)).
Qed.

(** on a [string] the scan of [sub_commas] is the scan of [re_sub_commas],
    for every class that holds [0-9] and nothing else below 256 *)
Lemma comma_point_ascii (c : ascii) :
  N.eqb (N_of_ascii c) comma_point = Ascii.eqb c comma.
Proof.
  destruct c as [[] [] [] [] [] [] [] []]; vm_compute; reflexivity.
Qed.

Lemma sub_commas_codepoints (s : string) (prev : option ascii) :
  (forall c : ascii, digit (N_of_ascii c) = is_digit c) ->
  codepoints (sub_commas prev s)
  = re_sub_commas digit (option_map N_of_ascii prev) (codepoints s).
Proof.
  intros D. revert prev. induction s as [|c r IH]; intros prev; [reflexivity|].
  change (codepoints (String c r)) with (N_of_ascii c :: codepoints r).
  cbn [sub_commas re_sub_commas].
  rewrite comma_point_ascii.
  replace (lookbehind_class digit (option_map N_of_ascii prev))
    with (lookbehind_digit prev)
    by (destruct prev as [p|]; [symmetry; apply D | reflexivity]).
  replace (lookahead_class digit (codepoints r)) with (lookahead_digit r)
    by (destruct r as [|n r']; [reflexivity | symmetry; apply D]).
  specialize (IH (Some c)). cbn [option_map] in IH.
  destruct (Ascii.eqb c comma && lookbehind_digit prev && lookahead_digit r).
  - exact IH.
  - change (codepoints (String c (sub_commas (Some c) r)))
      with (N_of_ascii c :: codepoints (sub_commas (Some c) r)).
    now rewrite IH.
Qed.
End CleanerOnStr.

Lemma unicode_decimal_ascii (c : ascii) :
  unicode_decimal (N_of_ascii c) = is_digit c.
Proof.
  destruct c as [[] [] [] [] [] [] [] []]; vm_compute; reflexivity.
Qed.

Lemma preprocess_json_codepoints (s : string) :
  codepoints (preprocess_json s)
  = preprocess_json_str unicode_decimal (codepoints s).
Proof.
  exact (sub_commas_codepoints unicode_decimal s None unicode_decimal_ascii).
Qed.

(** C4. On every [str], and for every class of digits, the cleaner deletes
    exactly the commas whose two neighbours in the input are digits and keeps
    every other code point in place; with the decimal digits of Unicode a
    comma between two Arabic-Indic digits is deleted; on a [string] the
    cleaner of the pipeline is that cleaner; a comma between digits inside a
    quoted address is deleted as well; and the quoted amount "1,234.56" of
    the sample reply is validated to the number 1234.56. *)
Theorem numeric_cleaning_digit_adjacent_commas :
  (forall (digit : codepoint -> bool) (s : pystr),
      preprocess_json_str digit s = without_separators_str digit s)
  /\ preprocess_json_str unicode_decimal [1635; 44; 1635]%N = [1635; 1635]%N
  /\ (forall s : string,
        codepoints (preprocess_json s)
        = preprocess_json_str unicode_decimal (codepoints s))
  /\ preprocess_json (json_text "'12,34 Main St'") = json_text "'1234 Main St'"
  /\ occurs (json_text "'grand_total': '1,234.56'") sample_response = true
  /\ exists r : InvoiceData,
       parse sample_response = Ok r
       /\ t_grand_total (totals r) = Some (Qred (Qmake 123456 100)).
Proof.
  split; [exact preprocess_json_str_without_separators|].
  split; [vm_compute; reflexivity|].
  split; [exact preprocess_json_codepoints|].
  split; [reflexivity|].
  split; [vm_compute; reflexivity|].
  destruct (parse sample_response) as [r|e] eqn:E.
  - exists r. split; [reflexivity|].
    revert E. vm_compute. intros E. injection E as <-. reflexivity.
  - revert E. vm_compute. discriminate.
Qed.

(** ** The normalizer *)

Lemma dict_get_normalize (k : string) (d : dict) :
  dict_get k (normalize_dict d) = option_map normalize_nulls (dict_get k d).
Proof.
  induction d as [|[k' v] t IH]; simpl; [reflexivity|].
  destruct (String.eqb k k'); [reflexivity | exact IH].
Qed.

Lemma normalize_nulls_dict (d : dict) :
  normalize_nulls (PDict d) = PDict (normalize_dict d).
Proof. reflexivity. Qed.

Lemma lookup_normalize (p : list step) (v : pyval) :
  lookup p (normalize_nulls v) = option_map normalize_nulls (lookup p v).
Proof.
  revert v. induction p as [|[k|i] p IH]; intros v; [reflexivity| |].
  - destruct v; try reflexivity.
    + change (normalize_nulls (PStr s))
        with (if py_in (PStr s) ["null"; "NA"] then PNone else PStr s).
      destruct (py_in (PStr s) ["null"; "NA"]); reflexivity.
    + rewrite normalize_nulls_dict. simpl.
      rewrite dict_get_normalize.
      destruct (dict_get k d); simpl; [apply IH | reflexivity].
  - destruct v; try reflexivity.
    + change (normalize_nulls (PStr s))
        with (if py_in (PStr s) ["null"; "NA"] then PNone else PStr s).
      destruct (py_in (PStr s) ["null"; "NA"]); reflexivity.
    + simpl. rewrite nth_error_map.
      destruct (nth_error l i); simpl; [apply IH | reflexivity].
Qed.

Lemma normalize_nulls_scalar (x : pyval) :
  is_scalar x = true ->
  normalize_nulls x = if null_synonym x then PNone else x.
Proof.
  destruct x; simpl; try reflexivity; try discriminate.
  intros _. unfold py_in. simpl. now rewrite orb_false_r.
Qed.

Lemma normalize_nulls_shape (x : pyval) :
  is_scalar x = false -> same_shape x (normalize_nulls x).
Proof.
  destruct x; simpl; try discriminate; intros _.
  - now rewrite length_map.
  - rewrite map_map. simpl. reflexivity.
Qed.

(** normalizing a normalized tree changes nothing *)
Lemma normalize_nulls_idempotent (v : pyval) :
  normalize_nulls (normalize_nulls v) = normalize_nulls v.
Proof.
  induction v as [| b | n | q | s | l IH | d IH] using pyval_ind;
    try reflexivity.
  - change (normalize_nulls (PStr s))
      with (if py_in (PStr s) ["null"; "NA"] then PNone else PStr s).
    destruct (py_in (PStr s) ["null"; "NA"]) eqn:E; [reflexivity|].
    change (normalize_nulls (PStr s))
      with (if py_in (PStr s) ["null"; "NA"] then PNone else PStr s).
    now rewrite E.
  - cbn [normalize_nulls]. f_equal. rewrite map_map.
    apply map_ext_Forall. exact IH.
  - rewrite !normalize_nulls_dict. f_equal. unfold normalize_dict.
    rewrite map_map. apply map_ext_Forall.
    rewrite Forall_forall in *. intros kv I. simpl.
    now rewrite (IH kv I).
Qed.

(** C3. At every position of the tree, whatever the depth and whether the
    position is reached through map keys or sequence indices: a scalar equal
    to the string "null" or "NA" becomes the absent marker, any other scalar
    is unchanged, a map keeps its keys and a sequence its length, and no
    position appears or disappears. *)
Theorem normalize_nulls_every_position : forall (v : pyval) (p : list step),
  match lookup p v with
  | Some x =>
      if is_scalar x
      then lookup p (normalize_nulls v)
           = Some (if null_synonym x then PNone else x)
      else exists y, lookup p (normalize_nulls v) = Some y /\ same_shape x y
  | None => lookup p (normalize_nulls v) = None
  end.
Proof.
  intros v p. rewrite lookup_normalize.
  destruct (lookup p v) as [x|]; simpl; [|reflexivity].
  destruct (is_scalar x) eqn:S.
  - now rewrite normalize_nulls_scalar.
  - eexists. split; [reflexivity|]. now apply normalize_nulls_shape.
Qed.

(** ** Dictionaries *)

Lemma dict_get_set (k k' : string) (v : pyval) (d : dict) :
  dict_get k (dict_set k' v d)
  = if String.eqb k k' then Some v else dict_get k d.
Proof.
  induction d as [|[k0 v0] t IH]; simpl.
  - destruct (String.eqb k k'); reflexivity.
  - destruct (String.eqb k' k0) eqn:E0; simpl.
    + apply String.eqb_eq in E0. subst k0.
      destruct (String.eqb k k'); reflexivity.
    + destruct (String.eqb k k0) eqn:E1.
      * apply String.eqb_eq in E1. subst k0.
        now rewrite String.eqb_sym, E0.
      * exact IH.
Qed.

Lemma dict_get_del (k k' : string) (d : dict) :
  String.eqb k k' = false -> dict_get k (dict_del k' d) = dict_get k d.
Proof.
  intros N. induction d as [|[k0 v0] t IH]; simpl; [reflexivity|].
  destruct (String.eqb k' k0) eqn:E0; simpl.
  - apply String.eqb_eq in E0. subst k0. now rewrite N.
  - now rewrite IH.
Qed.

Lemma dict_get_write_back (k k' : string) (v : pyval) (d : dict) :
  String.eqb k k' = false -> dict_get k (write_back k' v d) = dict_get k d.
Proof.
  intros N. unfold write_back.
  destruct (dict_get k' d); [|reflexivity].
  now rewrite dict_get_set, N.
Qed.

Lemma dict_get_pop (k k' : string) (default : pyval) (d : dict) :
  String.eqb k k' = false ->
  dict_get k (snd (dict_pop k' default d)) = dict_get k d.
Proof.
  intros N. unfold dict_pop.
  destruct (dict_get k' d); simpl; [now apply dict_get_del | reflexivity].
Qed.

Lemma filter_undeclared_set (k : string) (v : pyval) (d : dict) :
  in_model_fields k = true ->
  filter undeclared (dict_set k v d) = filter undeclared d.
Proof.
  intros D. induction d as [|[k0 v0] t IH]; simpl.
  - unfold undeclared. simpl. now rewrite D.
  - destruct (String.eqb k k0) eqn:E0; simpl.
    + apply String.eqb_eq in E0. subst k0.
      unfold undeclared. simpl. now rewrite D.
    + now rewrite IH.
Qed.

Lemma filter_undeclared_write_back (k : string) (v : pyval) (d : dict) :
  in_model_fields k = true ->
  filter undeclared (write_back k v d) = filter undeclared d.
Proof.
  intros D. unfold write_back.
  destruct (dict_get k d); [now apply filter_undeclared_set | reflexivity].
Qed.

Lemma dict_get_filter_undeclared (k : string) (d : dict) :
  dict_get k (filter undeclared d)
  = if in_model_fields k then None else dict_get k d.
Proof.
  induction d as [|[k0 v0] t IH]; simpl.
  - now destruct (in_model_fields k).
  - unfold undeclared at 1. simpl.
    destruct (String.eqb k k0) eqn:E0.
    + apply String.eqb_eq in E0. subst k0.
      destruct (in_model_fields k) eqn:D; simpl.
      * exact IH.
      * now rewrite String.eqb_refl.
    + destruct (in_model_fields k0); simpl.
      * exact IH.
      * now rewrite E0.
Qed.

(** ** Inversion of successful computations *)

Lemma bind_Ok {A B : Type} (m : result A) (k : A -> result B) (b : B) :
  bind m k = Ok b -> exists a, m = Ok a /\ k a = Ok b.
Proof.
  destruct m as [a|e]; simpl; [eauto | discriminate].
Qed.

Ltac inv_bind H :=
  repeat
    (lazymatch type of H with
     | bind _ _ = Ok _ =>
         let a := fresh "a" in
         let E := fresh "E" in
         apply bind_Ok in H; destruct H as (a & E & H); cbv beta in H
     | (match ?x with (_, _) => _ end) = Ok _ =>
         let E := fresh "P" in
         destruct x eqn:E
     end).

Ltac inv_surgery H :=
  unfold surgery in H; inv_bind H; injection H as <-;
  cbn [v_normalized_invoice_dict v_normalized_line_items v_metadata
       v_metadata_extra_fields v_totals v_totals_extra_fields
       v_payment_slip v_payment_slip_extra_fields v_bank_details
       v_bank_details_extra_fields] in *.

Section EngineFacts.
Context {lib : Library}.

Lemma process_line_items_frame (nd nd' : dict) (lis : list LineItem) :
  process_line_items nd = Ok (nd', lis) ->
  nd' = nd \/ exists items', nd' = dict_set "line_items" (PList items') nd.
Proof.
  unfold process_line_items.
  destruct (dict_get "line_items" nd) as [obj|].
  - intros H. inv_bind H. injection H as <- <-.
    destruct obj; eauto.
  - intros H. injection H as <- <-. now left.
Qed.

Lemma process_line_items_get (nd nd' : dict) (lis : list LineItem)
  (k : string) :
  process_line_items nd = Ok (nd', lis) ->
  String.eqb k "line_items" = false ->
  dict_get k nd' = dict_get k nd.
Proof.
  intros H N. apply process_line_items_frame in H as [->|[items' ->]].
  - reflexivity.
  - now rewrite dict_get_set, N.
Qed.

Lemma process_line_items_undeclared (nd nd' : dict) (lis : list LineItem) :
  process_line_items nd = Ok (nd', lis) ->
  filter undeclared nd' = filter undeclared nd.
Proof.
  intros H. apply process_line_items_frame in H as [->|[items' ->]].
  - reflexivity.
  - now apply filter_undeclared_set.
Qed.

Lemma InvoiceData_init_extra (doc : pyval) (im : InvoiceMetadata)
  (lis : list LineItem) (tot : Totals) (slip : option PaymentSlip)
  (content : pyval) (extra : dict) (r : InvoiceData) :
  InvoiceData_init doc im lis tot slip content extra = Ok r ->
  invoice_metadata r = im /\ line_items r = lis /\ totals r = tot
  /\ payment_slip r = slip /\ extra_fields r = Some extra
  /\ optional str_type doc = Ok (document_type r)
  /\ optional str_or_dict content = Ok (unstructured_content r).
Proof.
  unfold InvoiceData_init. intros H. inv_bind H.
  injection H as <-. simpl. auto 10.
Qed.

Lemma surgery_line_items (nd : dict) (s : locals) :
  surgery nd = Ok s ->
  exists nd', process_line_items nd = Ok (nd', v_normalized_line_items s).
Proof. intros H. inv_surgery H. eauto. Qed.

Lemma surgery_undeclared (nd : dict) (s : locals) :
  surgery nd = Ok s ->
  filter undeclared (v_normalized_invoice_dict s) = filter undeclared nd.
Proof.
  intros H. inv_surgery H.
  rewrite !filter_undeclared_write_back by reflexivity.
  eapply process_line_items_undeclared; eassumption.
Qed.

Lemma construct_inv (s : locals) (r : InvoiceData) :
  construct s = Ok r ->
  InvoiceMetadata_init
    (dict_set "extra_fields" (v_metadata_extra_fields s) (v_metadata s))
  = Ok (invoice_metadata r)
  /\ Totals_init
       (dict_set "extra_fields" (v_totals_extra_fields s) (v_totals s))
     = Ok (totals r)
  /\ build_payment_slip (v_normalized_invoice_dict s) (v_payment_slip s)
       (v_bank_details s) (v_payment_slip_extra_fields s)
       (v_bank_details_extra_fields s)
     = Ok (payment_slip r)
  /\ line_items r = v_normalized_line_items s
  /\ extra_fields r
     = Some (filter undeclared (v_normalized_invoice_dict s))
  /\ optional str_type
       (dict_get_default "document_type" PNone
          (v_normalized_invoice_dict s))
     = Ok (document_type r)
  /\ optional str_or_dict
       (dict_get_default "unstructured_content" (PStr "")
          (v_normalized_invoice_dict s))
     = Ok (unstructured_content r).
Proof.
  unfold construct. intros H. inv_bind H.
  apply InvoiceData_init_extra in H as (-> & -> & -> & -> & -> & D & U).
  auto 10.
Qed.

Lemma map_to_models_inv (nd : dict) (r : InvoiceData) :
  map_to_models nd = Ok r ->
  exists s, surgery nd = Ok s /\ construct s = Ok r.
Proof. unfold map_to_models. intros H. inv_bind H. eauto. Qed.

Lemma map_to_models_extra_fields (nd : dict) (r : InvoiceData) :
  map_to_models nd = Ok r ->
  extra_fields r = Some (filter undeclared nd).
Proof.
  intros H. apply map_to_models_inv in H as (s & S & C).
  apply construct_inv in C as (_ & _ & _ & _ & -> & _).
  f_equal. now apply surgery_undeclared.
Qed.

Lemma reconcile_dict (top : dict) :
  reconcile (PDict top) = map_to_models (normalize_dict top).
Proof. reflexivity. Qed.

(** C2 (amended). When a record is returned for a decoded top-level map,
    its overflow map consists of exactly the top-level entries whose key is
    not a declared field, in input order, each with its null-normalized
    value; a declared key never occurs in it. *)
Theorem root_overflow_undeclared_keys :
  forall (top : dict) (r : InvoiceData),
    reconcile (PDict top) = Ok r ->
    exists extra : dict,
      extra_fields r = Some extra
      /\ extra = filter undeclared (normalize_dict top)
      /\ forall k : string,
           dict_get k extra
           = if in_model_fields k then None
             else option_map normalize_nulls (dict_get k top).
Proof.
  intros top r H. rewrite reconcile_dict in H.
  apply map_to_models_extra_fields in H.
  eexists. split; [exact H|]. split; [reflexivity|].
  intros k. rewrite dict_get_filter_undeclared, dict_get_normalize.
  reflexivity.
Qed.
End EngineFacts.

(** ** Line items *)

Lemma Forall2_nth_error {A B : Type} (R : A -> B -> Prop) (l : list A)
  (l' : list B) (i : nat) (x : A) :
  Forall2 R l l' -> nth_error l i = Some x ->
  exists y, nth_error l' i = Some y /\ R x y.
Proof.
  intros F. revert i. induction F as [|a b l l' Rab F IH]; intros i H.
  - destruct i; discriminate.
  - destruct i as [|i]; simpl in *.
    + injection H as <-. eauto.
    + now apply IH.
Qed.

Section LineItems.
Context {lib : Library}.

Lemma line_items_loop_Forall2 (items items' : list pyval)
  (lis : list LineItem) :
  line_items_loop items = Ok (items', lis) -> Forall2 built_from items lis.
Proof.
  revert items' lis. induction items as [|item rest IH]; intros items' lis H.
  - injection H as <- <-. constructor.
  - simpl in H. inv_bind H. injection H as <- <-.
    constructor; [eexists; eassumption | eapply IH; eassumption].
Qed.

Lemma process_line_items_list (nd nd' : dict) (items : list pyval)
  (lis : list LineItem) :
  dict_get "line_items" nd = Some (PList items) ->
  process_line_items nd = Ok (nd', lis) ->
  Forall2 built_from items lis.
Proof.
  unfold process_line_items. intros -> H. simpl in H. inv_bind H.
  injection H as <- <-. eapply line_items_loop_Forall2; eassumption.
Qed.

Lemma map_to_models_line_items (nd : dict) (r : InvoiceData) :
  map_to_models nd = Ok r ->
  exists nd', process_line_items nd = Ok (nd', line_items r).
Proof.
  intros H. apply map_to_models_inv in H as (s & S & C).
  apply construct_inv in C as (_ & _ & _ & -> & _).
  now apply surgery_line_items.
Qed.

Lemma line_items_pointwise (top : dict) (items : list pyval)
  (r : InvoiceData) :
  reconcile (PDict top) = Ok r ->
  dict_get "line_items" top = Some (PList items) ->
  Forall2 built_from (map normalize_nulls items) (line_items r).
Proof.
  intros H G. rewrite reconcile_dict in H.
  apply map_to_models_line_items in H as [nd' H].
  eapply process_line_items_list; [|exact H].
  rewrite dict_get_normalize, G. reflexivity.
Qed.

End LineItems.

(** ** The dictionary surgery, read from the input dictionary *)

Lemma dict_get_write_back_same (k : string) (v : pyval) (d : dict) :
  dict_get k (write_back k v d)
  = match dict_get k d with Some _ => Some v | None => None end.
Proof.
  unfold write_back. destruct (dict_get k d) eqn:E; [|exact E].
  now rewrite dict_get_set, String.eqb_refl.
Qed.

Lemma dict_get_default_write_back (k k' : string) (v default : pyval)
  (d : dict) :
  String.eqb k k' = false ->
  dict_get_default k default (write_back k' v d) = dict_get_default k default d.
Proof.
  intros N. unfold dict_get_default. now rewrite dict_get_write_back.
Qed.

Section SurgeryFacts.
Context {lib : Library}.

Lemma process_line_items_get_default (nd nd' : dict) (lis : list LineItem)
  (k : string) (default : pyval) :
  process_line_items nd = Ok (nd', lis) ->
  String.eqb k "line_items" = false ->
  dict_get_default k default nd' = dict_get_default k default nd.
Proof.
  intros H N. unfold dict_get_default.
  now rewrite (process_line_items_get _ _ _ _ H N).
Qed.

Lemma surgery_spec (nd : dict) (s : locals) :
  surgery nd = Ok s ->
  (exists nd', process_line_items nd = Ok (nd', v_normalized_line_items s))
  /\ (exists m0 am,
        py_pop (dict_get_default "invoice_metadata" (PDict []) nd)
          "extra_fields" (PDict [])
        = Ok (v_metadata_extra_fields s, m0)
        /\ py_as_dict (dict_get_default "additional_metadata" (PDict []) m0)
           = Ok am
        /\ v_metadata s
           = write_back "additional_metadata"
               (PDict (fix_additional_metadata am)) m0)
  /\ py_pop (dict_get_default "totals" (PDict []) nd)
       "extra_fields" (PDict [])
     = Ok (v_totals_extra_fields s, v_totals s)
  /\ (exists p0,
        py_pop (dict_get_default "payment_slip" (PDict []) nd)
          "extra_fields" (PDict [])
        = Ok (v_payment_slip_extra_fields s, p0)
        /\ v_payment_slip s = snd (dict_pop "bank_details" (PDict []) p0)
        /\ py_pop (fst (dict_pop "bank_details" (PDict []) p0))
             "extra_fields" (PDict [])
           = Ok (v_bank_details_extra_fields s, v_bank_details s))
  /\ dict_get "payment_slip" (v_normalized_invoice_dict s)
     = match dict_get "payment_slip" nd with
       | Some _ => Some (PDict (v_payment_slip s))
       | None => None
       end
  /\ forall k : string,
       String.eqb k "line_items" = false ->
       String.eqb k "invoice_metadata" = false ->
       String.eqb k "totals" = false ->
       String.eqb k "payment_slip" = false ->
       dict_get k (v_normalized_invoice_dict s) = dict_get k nd.
Proof.
  intros H. inv_surgery H.
  repeat match goal with
         | H : context [dict_get_default _ _ (write_back _ _ _)] |- _ =>
             rewrite dict_get_default_write_back in H by reflexivity
         end.
  match goal with
  | L : process_line_items nd = Ok (?nd1, _) |- _ =>
      rewrite !(process_line_items_get_default _ _ _ _ _ L) in * by reflexivity;
      pose proof (process_line_items_get _ _ _ "payment_slip" L eq_refl) as G;
      pose proof (fun k N => process_line_items_get _ _ _ k L N) as F
  end.
  split; [eauto|].
  split; [eauto 6|].
  split; [assumption|].
  split; [eauto 6|].
  split.
  - rewrite dict_get_write_back by reflexivity.
    rewrite dict_get_write_back_same.
    rewrite !dict_get_write_back by reflexivity.
    now rewrite G.
  - intros k N1 N2 N3 N4.
    rewrite !dict_get_write_back by assumption.
    now apply F.
Qed.
End SurgeryFacts.

(** ** Validation of one model *)

Lemma absent_input_normalized (k : string) (d : dict) :
  absent_input k d -> absent_kw (dict_get k (normalize_dict d)).
Proof.
  unfold absent_input, absent_kw. rewrite dict_get_normalize.
  destruct (dict_get k d) as [v|]; simpl; [|now left].
  intros [->|N]; right; [reflexivity|].
  rewrite normalize_nulls_scalar, N; [reflexivity|].
  destruct v; try discriminate; reflexivity.
Qed.

Lemma absent_bridge (input kw : dict) (fields : list (string * Prop)) :
  agree_on (map fst fields) kw input ->
  Forall (fun kp => absent_kw (dict_get (fst kp) kw) -> snd kp) fields ->
  absent_stay_absent input fields.
Proof.
  unfold absent_stay_absent, agree_on. intros A F.
  rewrite Forall_forall in *. intros kp I N.
  apply (F kp I). rewrite A by (apply in_map; exact I).
  now apply absent_input_normalized.
Qed.

Section ModelFacts.
Context {lib : Library}.

Lemma opt_str_absent (arg : option pyval) (x : option string) :
  opt_str arg = Ok x -> absent_kw arg -> x = None.
Proof.
  intros H [->| ->]; simpl in H; [discriminate | now injection H].
Qed.

Lemma opt_float_absent (arg : option pyval) (x : option Q) :
  opt_float arg = Ok x -> absent_kw arg -> x = None.
Proof.
  intros H [->| ->]; simpl in H; [discriminate | now injection H].
Qed.

Ltac absent_fields H :=
  inv_bind H; injection H as <-; simpl;
  repeat constructor; simpl; intros A;
  first [eapply opt_str_absent; eassumption
        | eapply opt_float_absent; eassumption].

Lemma VendorDetails_init_absent (kw : dict) (r : VendorDetails) :
  VendorDetails_init kw = Ok r ->
  Forall (fun kp => absent_kw (dict_get (fst kp) kw) -> snd kp)
    (VendorDetails_scalars r).
Proof. unfold VendorDetails_init. intros H. absent_fields H. Qed.

Lemma CustomerDetails_init_absent (kw : dict) (r : CustomerDetails) :
  CustomerDetails_init kw = Ok r ->
  Forall (fun kp => absent_kw (dict_get (fst kp) kw) -> snd kp)
    (CustomerDetails_scalars r).
Proof. unfold CustomerDetails_init. intros H. absent_fields H. Qed.

Lemma LineItem_init_absent (kw : dict) (r : LineItem) :
  LineItem_init kw = Ok r ->
  Forall (fun kp => absent_kw (dict_get (fst kp) kw) -> snd kp)
    (LineItem_scalars r).
Proof. unfold LineItem_init. intros H. absent_fields H. Qed.

Lemma BankDetails_init_absent (kw : dict) (r : BankDetails) :
  BankDetails_init kw = Ok r ->
  Forall (fun kp => absent_kw (dict_get (fst kp) kw) -> snd kp)
    (BankDetails_scalars r).
Proof. unfold BankDetails_init. intros H. absent_fields H. Qed.

Lemma PaymentSlip_init_absent (kw : dict) (bank : BankDetails)
  (extra : pyval) (r : PaymentSlip) :
  PaymentSlip_init kw bank extra = Ok r ->
  Forall (fun kp => absent_kw (dict_get (fst kp) kw) -> snd kp)
    (PaymentSlip_scalars r)
  /\ ps_bank_details r = Some bank.
Proof.
  unfold PaymentSlip_init. intros H. split; [absent_fields H|].
  inv_bind H. now injection H as <-.
Qed.

Lemma Totals_init_absent (kw : dict) (r : Totals) :
  Totals_init kw = Ok r ->
  Forall (fun kp => absent_kw (dict_get (fst kp) kw) -> snd kp)
    (Totals_scalars r).
Proof. unfold Totals_init. intros H. absent_fields H. Qed.

Lemma InvoiceMetadata_init_inv (kw : dict) (r : InvoiceMetadata) :
  InvoiceMetadata_init kw = Ok r ->
  Forall (fun kp => absent_kw (dict_get (fst kp) kw) -> snd kp)
    (InvoiceMetadata_scalars r)
  /\ field_required (model_type VendorDetails_init)
       (dict_get "vendor_details" kw) = Ok (im_vendor_details r)
  /\ field_required (model_type CustomerDetails_init)
       (dict_get "customer_details" kw) = Ok (im_customer_details r).
Proof.
  unfold InvoiceMetadata_init. intros H. split; [absent_fields H|].
  inv_bind H. injection H as <-. simpl. auto.
Qed.
End ModelFacts.

(** ** From the decoded input to the keyword arguments of each model *)

Lemma py_pop_get_default (nd : dict) (key : string) (m : dict) (x : pyval)
  (d' : dict) :
  dict_get key nd = Some (PDict m) ->
  py_pop (dict_get_default key (PDict []) nd) "extra_fields" (PDict [])
  = Ok (x, d') ->
  (x, d') = dict_pop "extra_fields" (PDict []) m.
Proof.
  unfold dict_get_default. intros -> H. simpl in H. now injection H.
Qed.

Lemma dict_get_normalize_dict (k : string) (top m : dict) :
  dict_get k top = Some (PDict m) ->
  dict_get k (normalize_dict top) = Some (PDict (normalize_dict m)).
Proof. intros H. now rewrite dict_get_normalize, H. Qed.

Lemma agree_on_pop_set (keys : list string) (input : dict) (x : pyval)
  (d' : dict) :
  (x, d') = dict_pop "extra_fields" (PDict []) (normalize_dict input) ->
  forallb (fun k => negb (String.eqb k "extra_fields")) keys = true ->
  agree_on keys (dict_set "extra_fields" x d') input.
Proof.
  intros P K k I.
  rewrite forallb_forall in K. specialize (K k I).
  apply negb_true_iff in K.
  rewrite dict_get_set, K.
  replace d' with (snd (dict_pop "extra_fields" (PDict []) (normalize_dict input)))
    by now rewrite <- P.
  now apply dict_get_pop.
Qed.

Section Levels.
Context {lib : Library}.

Lemma reconcile_inv (top : dict) (r : InvoiceData) :
  reconcile (PDict top) = Ok r ->
  exists s, surgery (normalize_dict top) = Ok s /\ construct s = Ok r.
Proof. rewrite reconcile_dict. apply map_to_models_inv. Qed.

(** the keyword arguments of [InvoiceMetadata] agree with the input outside
    the two keys the surgery rewrites *)
Lemma metadata_kw (top m : dict) (s : locals) (k : string) :
  surgery (normalize_dict top) = Ok s ->
  dict_get "invoice_metadata" top = Some (PDict m) ->
  String.eqb k "extra_fields" = false ->
  String.eqb k "additional_metadata" = false ->
  dict_get k (dict_set "extra_fields" (v_metadata_extra_fields s)
                (v_metadata s))
  = dict_get k (normalize_dict m).
Proof.
  intros S G N1 N2.
  apply surgery_spec in S as (_ & (m0 & am & P & _ & ->) & _).
  apply (py_pop_get_default _ _ _ _ _ (dict_get_normalize_dict _ _ _ G)) in P.
  rewrite dict_get_set, N1, dict_get_write_back by exact N2.
  replace m0 with (snd (dict_pop "extra_fields" (PDict []) (normalize_dict m)))
    by now rewrite <- P.
  now apply dict_get_pop.
Qed.

Lemma metadata_absent (top m : dict) (r : InvoiceData) :
  reconcile (PDict top) = Ok r ->
  dict_get "invoice_metadata" top = Some (PDict m) ->
  absent_stay_absent m (InvoiceMetadata_scalars (invoice_metadata r)).
Proof.
  intros H G. apply reconcile_inv in H as (s & S & C).
  apply construct_inv in C as (I & _).
  apply InvoiceMetadata_init_inv in I as (F & _).
  eapply absent_bridge; [|exact F].
  intros k K. simpl in K.
  eapply metadata_kw; try eassumption;
    repeat (destruct K as [<-|K]; [reflexivity|]); destruct K.
Qed.

Lemma vendor_kw (top m v : dict) (r : InvoiceData) :
  reconcile (PDict top) = Ok r ->
  dict_get "invoice_metadata" top = Some (PDict m) ->
  dict_get "vendor_details" m = Some (PDict v) ->
  VendorDetails_init (normalize_dict v)
  = Ok (im_vendor_details (invoice_metadata r)).
Proof.
  intros H G V. apply reconcile_inv in H as (s & S & C).
  apply construct_inv in C as (I & _).
  apply InvoiceMetadata_init_inv in I as (_ & I & _).
  rewrite (metadata_kw top m s "vendor_details" S G eq_refl eq_refl) in I.
  now rewrite (dict_get_normalize_dict _ _ _ V) in I.
Qed.

Lemma customer_kw (top m c : dict) (r : InvoiceData) :
  reconcile (PDict top) = Ok r ->
  dict_get "invoice_metadata" top = Some (PDict m) ->
  dict_get "customer_details" m = Some (PDict c) ->
  CustomerDetails_init (normalize_dict c)
  = Ok (im_customer_details (invoice_metadata r)).
Proof.
  intros H G V. apply reconcile_inv in H as (s & S & C).
  apply construct_inv in C as (I & _).
  apply InvoiceMetadata_init_inv in I as (_ & _ & I).
  rewrite (metadata_kw top m s "customer_details" S G eq_refl eq_refl) in I.
  now rewrite (dict_get_normalize_dict _ _ _ V) in I.
Qed.

Lemma agree_on_refl (keys : list string) (d : dict) :
  agree_on keys (normalize_dict d) d.
Proof. intros k _. reflexivity. Qed.

Lemma totals_absent (top t : dict) (r : InvoiceData) :
  reconcile (PDict top) = Ok r ->
  dict_get "totals" top = Some (PDict t) ->
  absent_stay_absent t (Totals_scalars (totals r)).
Proof.
  intros H G. apply reconcile_inv in H as (s & S & C).
  apply construct_inv in C as (_ & T & _).
  apply Totals_init_absent in T.
  eapply absent_bridge; [|exact T].
  apply surgery_spec in S as (_ & _ & P & _).
  apply (py_pop_get_default _ _ _ _ _ (dict_get_normalize_dict _ _ _ G)) in P.
  now apply agree_on_pop_set.
Qed.
End Levels.

Lemma dict_pop_fst (k : string) (default : pyval) (d : dict) :
  fst (dict_pop k default d) = dict_get_default k default d.
Proof.
  unfold dict_pop, dict_get_default. now destruct (dict_get k d).
Qed.

Section Absence.
Context {lib : Library}.

Lemma LineItem_init_extra_details (kw : dict) (r : LineItem) :
  LineItem_init kw = Ok r ->
  field_default (Some (inl EmptyString)) (optional str_or_dict)
    (dict_get "extra_details" kw)
  = Ok (li_extra_details r).
Proof.
  unfold LineItem_init. intros H. inv_bind H. injection H as <-. assumption.
Qed.

Lemma line_item_absent (d : dict) (li : LineItem) :
  built_from (PDict (normalize_dict d)) li ->
  absent_stay_absent d (LineItem_scalars li)
  /\ (absent_input "extra_details" d ->
      li_extra_details li = Some (inl EmptyString)).
Proof.
  intros [item' H]. unfold normalize_line_item in H.
  cbn [py_pop bind] in H.
  destruct (dict_pop "extra_fields" (PDict []) (normalize_dict d))
    as [ef item0] eqn:P.
  inv_bind H. injection H as _ <-.
  assert (G : forall k, String.eqb k "extra_fields" = false ->
                        dict_get k item0 = dict_get k (normalize_dict d)).
  { intros k N. replace item0 with (snd (dict_pop "extra_fields" (PDict [])
                                           (normalize_dict d)))
      by now rewrite P.
    now apply dict_get_pop. }
  split.
  - eapply absent_bridge; [|eapply LineItem_init_absent; eassumption].
    intros k K. simpl in K.
    assert (N1 : String.eqb k "extra_fields" = false)
      by (repeat (destruct K as [<-|K]; [reflexivity|]); destruct K).
    assert (N2 : String.eqb k "extra_details" = false)
      by (repeat (destruct K as [<-|K]; [reflexivity|]); destruct K).
    rewrite dict_get_set, N1.
    destruct (extra_details_missing item0).
    + rewrite dict_get_set, N2. now apply G.
    + now apply G.
  - intros A. apply absent_input_normalized in A.
    rewrite <- (G "extra_details" eq_refl) in A.
    assert (M : extra_details_missing item0 = true).
    { unfold extra_details_missing. now destruct A as [-> | ->]. }
    rewrite M in E.
    apply LineItem_init_extra_details in E.
    rewrite !dict_get_set in E. simpl in E. now injection E.
Qed.

Lemma payment_slip_absent (top p : dict) (r : InvoiceData) (ps : PaymentSlip) :
  reconcile (PDict top) = Ok r ->
  dict_get "payment_slip" top = Some (PDict p) ->
  payment_slip r = Some ps ->
  absent_stay_absent p (PaymentSlip_scalars ps)
  /\ forall (b : dict) (bd : BankDetails),
       dict_get "bank_details" p = Some (PDict b) ->
       ps_bank_details ps = Some bd ->
       absent_stay_absent b (BankDetails_scalars bd).
Proof.
  intros H G R. apply reconcile_inv in H as (s & S & C).
  apply construct_inv in C as (_ & _ & B & _).
  rewrite R in B. unfold build_payment_slip in B.
  destruct (py_truthy _); [|discriminate].
  inv_bind B. injection B as ->.
  apply surgery_spec in S as (_ & _ & _ & (p0 & P & V & Q) & _).
  apply (py_pop_get_default _ _ _ _ _ (dict_get_normalize_dict _ _ _ G)) in P.
  assert (G0 : forall k, String.eqb k "extra_fields" = false ->
                         dict_get k p0 = dict_get k (normalize_dict p)).
  { intros k N. replace p0 with (snd (dict_pop "extra_fields" (PDict [])
                                        (normalize_dict p)))
      by now rewrite <- P.
    now apply dict_get_pop. }
  apply PaymentSlip_init_absent in E0 as (F & BD).
  split.
  - eapply absent_bridge; [|exact F].
    intros k K. rewrite V. simpl in K.
    rewrite dict_get_pop, G0;
      try reflexivity;
      repeat (destruct K as [<-|K]; [reflexivity|]); destruct K.
  - intros b bd GB EB. rewrite BD in EB. injection EB as <-.
    rewrite dict_pop_fst in Q. unfold dict_get_default in Q.
    rewrite (G0 "bank_details" eq_refl) in Q.
    rewrite (dict_get_normalize_dict _ _ _ GB) in Q.
    cbn [py_pop] in Q. injection Q as Q.
    eapply absent_bridge; [|eapply BankDetails_init_absent; eassumption].
    apply agree_on_pop_set; [|reflexivity].
    now rewrite <- Q.
Qed.

Lemma document_type_absent (top : dict) (r : InvoiceData) :
  reconcile (PDict top) = Ok r ->
  absent_input "document_type" top ->
  document_type r = None.
Proof.
  intros H A. apply reconcile_inv in H as (s & S & C).
  apply construct_inv in C as (_ & _ & _ & _ & _ & D & _).
  apply surgery_spec in S as (_ & _ & _ & _ & _ & F).
  unfold dict_get_default in D.
  rewrite (F "document_type") in D by reflexivity.
  apply absent_input_normalized in A.
  destruct A as [A|A]; rewrite A in D; simpl in D; now injection D.
Qed.

Lemma unstructured_content_missing (top : dict) (r : InvoiceData) :
  reconcile (PDict top) = Ok r ->
  dict_get "unstructured_content" top = None ->
  unstructured_content r = Some (inl EmptyString).
Proof.
  intros H A. apply reconcile_inv in H as (s & S & C).
  apply construct_inv in C as (_ & _ & _ & _ & _ & _ & U).
  apply surgery_spec in S as (_ & _ & _ & _ & _ & F).
  unfold dict_get_default in U.
  rewrite (F "unstructured_content") in U by reflexivity.
  rewrite dict_get_normalize, A in U. simpl in U. now injection U.
Qed.

(** C6 (amended). In every returned record each field declared
    [Optional[str]] or [Optional[float]], at every level, is absent when its
    key is missing from the input map of that level or bound to null or to a
    null synonym; a line item's [extra_details] that is missing or null is
    the empty string, and a missing [unstructured_content] is the empty
    string. *)
Theorem absent_scalars_stay_absent :
  forall (top : dict) (r : InvoiceData),
    reconcile (PDict top) = Ok r ->
    (absent_input "document_type" top -> document_type r = None)
    /\ (forall m : dict,
          dict_get "invoice_metadata" top = Some (PDict m) ->
          absent_stay_absent m (InvoiceMetadata_scalars (invoice_metadata r))
          /\ (forall v : dict,
                dict_get "vendor_details" m = Some (PDict v) ->
                absent_stay_absent v
                  (VendorDetails_scalars
                     (im_vendor_details (invoice_metadata r))))
          /\ (forall c : dict,
                dict_get "customer_details" m = Some (PDict c) ->
                absent_stay_absent c
                  (CustomerDetails_scalars
                     (im_customer_details (invoice_metadata r)))))
    /\ (forall t : dict,
          dict_get "totals" top = Some (PDict t) ->
          absent_stay_absent t (Totals_scalars (totals r)))
    /\ (forall (items : list pyval) (i : nat) (item : dict),
          dict_get "line_items" top = Some (PList items) ->
          nth_error items i = Some (PDict item) ->
          exists li : LineItem,
            nth_error (line_items r) i = Some li
            /\ absent_stay_absent item (LineItem_scalars li)
            /\ (absent_input "extra_details" item ->
                li_extra_details li = Some (inl EmptyString)))
    /\ (forall (p : dict) (ps : PaymentSlip),
          dict_get "payment_slip" top = Some (PDict p) ->
          payment_slip r = Some ps ->
          absent_stay_absent p (PaymentSlip_scalars ps)
          /\ forall (b : dict) (bd : BankDetails),
               dict_get "bank_details" p = Some (PDict b) ->
               ps_bank_details ps = Some bd ->
               absent_stay_absent b (BankDetails_scalars bd))
    /\ (dict_get "unstructured_content" top = None ->
        unstructured_content r = Some (inl EmptyString)).
Proof.
  intros top r H.
  split; [now apply document_type_absent|].
  split.
  { intros m G. split; [now apply (metadata_absent top)|]. split.
    - intros v V. eapply absent_bridge; [apply agree_on_refl|].
      apply VendorDetails_init_absent. now apply (vendor_kw top m).
    - intros c V. eapply absent_bridge; [apply agree_on_refl|].
      apply CustomerDetails_init_absent. now apply (customer_kw top m). }
  split; [intros t G; now apply (totals_absent top)|].
  split.
  { intros items i item G N.
    pose proof (line_items_pointwise top items r H G) as F.
    eapply Forall2_nth_error in F as (li & L & B);
      [|rewrite nth_error_map, N; reflexivity].
    exists li. split; [exact L|]. now apply line_item_absent. }
  split; [intros p ps G R; now apply (payment_slip_absent top p r)|].
  now apply unstructured_content_missing.
Qed.
End Absence.

(** ** Nested overflow maps *)

Section NestedOverflow.
Context {lib : Library}.

Lemma VendorDetails_init_inv (kw : dict) (r : VendorDetails) :
  VendorDetails_init kw = Ok r ->
  opt_str (dict_get "name" kw) = Ok (vd_name r)
  /\ opt_str (dict_get "address" kw) = Ok (vd_address r)
  /\ opt_str (dict_get "contact" kw) = Ok (vd_contact r)
  /\ opt_str (dict_get "tax_id" kw) = Ok (vd_tax_id r)
  /\ opt_dict (dict_get "extra_fields" kw) = Ok (vd_extra_fields r).
Proof.
  unfold VendorDetails_init. intros H. inv_bind H. injection H as <-.
  simpl. auto.
Qed.

Lemma VendorDetails_init_ignores (k : string) (x : pyval) (kw : dict) :
  existsb (String.eqb k) VendorDetails_model_fields = false ->
  VendorDetails_init (dict_set k x kw) = VendorDetails_init kw.
Proof.
  intros N. simpl in N.
  repeat (apply orb_false_elim in N; destruct N as [?N N]).
  unfold VendorDetails_init. rewrite !dict_get_set.
  rewrite !(String.eqb_sym _ k), N0, N1, N2, N3, N4. reflexivity.
Qed.

(** C1 (amended). When a record is returned, the Vendor record binds its
    four declared fields from the same-named keys of the (null-normalized)
    vendor map; its overflow map is the value of that map's own
    [extra_fields] key, and is empty when the map has no such key; a key of
    the vendor map that is not a declared field has no effect on the record;
    and at the root every undeclared key is placed, with its null-normalized
    value, in the root overflow map. *)
Theorem vendor_overflow_is_own_extra_fields :
  forall (top m v : dict) (r : InvoiceData),
    reconcile (PDict top) = Ok r ->
    dict_get "invoice_metadata" top = Some (PDict m) ->
    dict_get "vendor_details" m = Some (PDict v) ->
    opt_str (dict_get "name" (normalize_dict v))
    = Ok (vd_name (im_vendor_details (invoice_metadata r)))
    /\ opt_str (dict_get "address" (normalize_dict v))
       = Ok (vd_address (im_vendor_details (invoice_metadata r)))
    /\ opt_str (dict_get "contact" (normalize_dict v))
       = Ok (vd_contact (im_vendor_details (invoice_metadata r)))
    /\ opt_str (dict_get "tax_id" (normalize_dict v))
       = Ok (vd_tax_id (im_vendor_details (invoice_metadata r)))
    /\ opt_dict (dict_get "extra_fields" (normalize_dict v))
       = Ok (vd_extra_fields (im_vendor_details (invoice_metadata r)))
    /\ (dict_get "extra_fields" v = None ->
        vd_extra_fields (im_vendor_details (invoice_metadata r)) = Some [])
    /\ (forall (k : string) (x : pyval),
          existsb (String.eqb k) VendorDetails_model_fields = false ->
          VendorDetails_init (dict_set k x (normalize_dict v))
          = Ok (im_vendor_details (invoice_metadata r)))
    /\ (forall k : string,
          in_model_fields k = false ->
          exists extra : dict,
            extra_fields r = Some extra
            /\ dict_get k extra = option_map normalize_nulls (dict_get k top)).
Proof.
  intros top m v r H G V.
  pose proof (vendor_kw top m v r H G V) as I.
  pose proof (VendorDetails_init_inv _ _ I) as (N & A & C & T & E).
  repeat (split; [assumption|]).
  split.
  { intros M. rewrite dict_get_normalize, M in E. simpl in E.
    now injection E. }
  split.
  { intros k x D. now rewrite VendorDetails_init_ignores. }
  intros k D. rewrite reconcile_dict in H.
  apply map_to_models_extra_fields in H.
  eexists. split; [exact H|].
  now rewrite dict_get_filter_undeclared, D, dict_get_normalize.
Qed.
End NestedOverflow.

(** ** Which exceptions the reconciliation can raise *)

Lemma only_validation_bind {A B : Type} (m : result A) (k : A -> result B) :
  only_validation m -> (forall a, only_validation (k a)) ->
  only_validation (bind m k).
Proof.
  intros M K e. destruct m as [a|e']; simpl.
  - apply K.
  - intros H. apply M. injection H as <-. reflexivity.
Qed.

Lemma only_validation_Ok {A : Type} (a : A) : only_validation (Ok a).
Proof. intros e H. discriminate. Qed.

Lemma only_validation_Raise {A : Type} :
  only_validation (@Raise A ValidationError).
Proof. intros e H. now injection H. Qed.

Lemma no_decode_error_bind {A B : Type} (m : result A) (k : A -> result B) :
  no_decode_error m -> (forall a, no_decode_error (k a)) ->
  no_decode_error (bind m k).
Proof.
  intros M K e. destruct m as [a|e']; simpl.
  - apply K.
  - intros H. apply M. injection H as <-. reflexivity.
Qed.

Lemma no_decode_error_Ok {A : Type} (a : A) : no_decode_error (Ok a).
Proof. intros e H. discriminate. Qed.

Lemma only_validation_no_decode {A : Type} (m : result A) :
  only_validation m -> no_decode_error m.
Proof. intros V e H. rewrite (V e H). discriminate. Qed.

Section Raises.
Context {lib : Library}.

Lemma lift_only {A : Type} (o : option A) : only_validation (lift o).
Proof. destruct o; [apply only_validation_Ok | apply only_validation_Raise]. Qed.

Lemma str_type_only (v : pyval) : only_validation (str_type v).
Proof.
  destruct v; first [apply only_validation_Ok | apply only_validation_Raise].
Qed.

Lemma float_type_only (v : pyval) : only_validation (float_type v).
Proof.
  destruct v; simpl;
    first [apply only_validation_Ok | apply only_validation_Raise
          | apply lift_only].
Qed.

Lemma list_any_only (v : pyval) : only_validation (list_any v).
Proof.
  destruct v; first [apply only_validation_Ok | apply only_validation_Raise].
Qed.

Lemma dict_str_any_only (v : pyval) : only_validation (dict_str_any v).
Proof.
  destruct v; first [apply only_validation_Ok | apply only_validation_Raise].
Qed.

Lemma str_or_dict_only (v : pyval) : only_validation (str_or_dict v).
Proof.
  destruct v; first [apply only_validation_Ok | apply only_validation_Raise].
Qed.

Lemma optional_only {A : Type} (validate : pyval -> result A) (v : pyval) :
  (forall x, only_validation (validate x)) ->
  only_validation (optional validate v).
Proof.
  intros V. destruct v; simpl; try apply only_validation_Ok;
    (apply only_validation_bind; [apply V | intros; apply only_validation_Ok]).
Qed.

Lemma field_required_only {A : Type} (validate : pyval -> result A)
  (arg : option pyval) :
  (forall x, only_validation (validate x)) ->
  only_validation (field_required validate arg).
Proof.
  intros V. destruct arg; simpl; [apply V | apply only_validation_Raise].
Qed.

Lemma field_default_only {A : Type} (default : A)
  (validate : pyval -> result A) (arg : option pyval) :
  (forall x, only_validation (validate x)) ->
  only_validation (field_default default validate arg).
Proof.
  intros V. destruct arg; simpl; [apply V | apply only_validation_Ok].
Qed.

Lemma model_type_only {A : Type} (init : dict -> result A) (v : pyval) :
  (forall d, only_validation (init d)) ->
  only_validation (model_type init v).
Proof.
  intros V. destruct v; simpl; try apply only_validation_Raise. apply V.
Qed.

Ltac only_validation_chain :=
  repeat first
    [ apply only_validation_Ok
    | apply only_validation_Raise
    | apply only_validation_bind; [|intros]
    | apply field_required_only; intros
    | apply field_default_only; intros
    | apply optional_only; intros
    | apply str_type_only
    | apply float_type_only
    | apply list_any_only
    | apply dict_str_any_only
    | apply str_or_dict_only ].

Lemma VendorDetails_init_only (kw : dict) :
  only_validation (VendorDetails_init kw).
Proof.
  unfold VendorDetails_init, opt_str, opt_dict. only_validation_chain.
Qed.

Lemma CustomerDetails_init_only (kw : dict) :
  only_validation (CustomerDetails_init kw).
Proof.
  unfold CustomerDetails_init, opt_str, opt_dict. only_validation_chain.
Qed.

Lemma LineItem_init_only (kw : dict) : only_validation (LineItem_init kw).
Proof.
  unfold LineItem_init, opt_str, opt_float, opt_list, opt_dict.
  only_validation_chain.
Qed.

Lemma BankDetails_init_only (kw : dict) : only_validation (BankDetails_init kw).
Proof.
  unfold BankDetails_init, opt_str, opt_dict. only_validation_chain.
Qed.

Lemma PaymentSlip_init_only (kw : dict) (bank : BankDetails) (extra : pyval) :
  only_validation (PaymentSlip_init kw bank extra).
Proof.
  unfold PaymentSlip_init, opt_str, opt_float. only_validation_chain.
Qed.

Lemma Totals_init_only (kw : dict) : only_validation (Totals_init kw).
Proof.
  unfold Totals_init, opt_str, opt_float, opt_list, opt_dict.
  only_validation_chain.
Qed.

Lemma InvoiceMetadata_init_only (kw : dict) :
  only_validation (InvoiceMetadata_init kw).
Proof.
  unfold InvoiceMetadata_init, opt_str, opt_dict.
  only_validation_chain;
    (apply model_type_only; intros;
     first [apply VendorDetails_init_only | apply CustomerDetails_init_only]).
Qed.

(** lines 457-480 raise nothing but the validation error *)
Lemma construct_only (s : locals) : only_validation (construct s).
Proof.
  unfold construct. cbv zeta.
  apply only_validation_bind; [apply InvoiceMetadata_init_only|intros].
  apply only_validation_bind; [apply Totals_init_only|intros].
  apply only_validation_bind.
  - unfold build_payment_slip. destruct (py_truthy _).
    + apply only_validation_bind; [apply BankDetails_init_only|intros].
      apply only_validation_bind; [apply PaymentSlip_init_only|intros].
      apply only_validation_Ok.
    + apply only_validation_Ok.
  - intros. unfold InvoiceData_init. only_validation_chain.
Qed.

Lemma py_pop_no_decode (obj : pyval) (k : string) (default : pyval) :
  no_decode_error (py_pop obj k default).
Proof. destruct obj; intros e H; simpl in H; now inversion H. Qed.

Lemma py_as_dict_no_decode (obj : pyval) : no_decode_error (py_as_dict obj).
Proof. destruct obj; intros e H; simpl in H; now inversion H. Qed.

Lemma py_keys_no_decode (obj : pyval) : no_decode_error (py_keys obj).
Proof. destruct obj; intros e H; simpl in H; now inversion H. Qed.

Lemma py_iter_no_decode (obj : pyval) : no_decode_error (py_iter obj).
Proof. destruct obj; intros e H; simpl in H; now inversion H. Qed.

Lemma normalize_line_item_no_decode (item : pyval) :
  no_decode_error (normalize_line_item item).
Proof.
  unfold normalize_line_item.
  apply no_decode_error_bind; [apply py_pop_no_decode|intros [ef d]].
  apply no_decode_error_bind;
    [apply only_validation_no_decode, LineItem_init_only|intros].
  apply no_decode_error_Ok.
Qed.

Lemma line_items_loop_no_decode (items : list pyval) :
  no_decode_error (line_items_loop items).
Proof.
  induction items as [|item rest IH]; simpl; [apply no_decode_error_Ok|].
  apply no_decode_error_bind; [apply normalize_line_item_no_decode|].
  intros [item' li].
  apply no_decode_error_bind; [exact IH|intros [rest' lis]].
  apply no_decode_error_Ok.
Qed.

Lemma process_line_items_no_decode (nd : dict) :
  no_decode_error (process_line_items nd).
Proof.
  unfold process_line_items.
  destruct (dict_get "line_items" nd); [|apply no_decode_error_Ok].
  apply no_decode_error_bind; [apply py_iter_no_decode|intros].
  apply no_decode_error_bind; [apply line_items_loop_no_decode|intros [? ?]].
  apply no_decode_error_Ok.
Qed.

Lemma surgery_no_decode (nd : dict) : no_decode_error (surgery nd).
Proof.
  unfold surgery.
  apply no_decode_error_bind; [apply process_line_items_no_decode|].
  intros [? ?].
  apply no_decode_error_bind; [apply py_pop_no_decode|intros [? ?]].
  apply no_decode_error_bind; [apply py_pop_no_decode|intros [? ?]].
  apply no_decode_error_bind; [apply py_pop_no_decode|intros [? ?]].
  apply no_decode_error_bind; [apply py_pop_no_decode|intros [? ?]].
  apply no_decode_error_bind; [apply py_as_dict_no_decode|intros].
  apply no_decode_error_Ok.
Qed.

Lemma reconcile_no_decode (invoice_dict : pyval) :
  no_decode_error (reconcile invoice_dict).
Proof.
  unfold reconcile, unknown_top_fields.
  apply no_decode_error_bind.
  - apply no_decode_error_bind; [apply py_keys_no_decode|intros].
    apply no_decode_error_bind; [apply py_as_dict_no_decode|intros].
    apply no_decode_error_Ok.
  - intros [nd unknown]. unfold map_to_models.
    apply no_decode_error_bind; [apply surgery_no_decode|intros].
    apply only_validation_no_decode, construct_only.
Qed.
End Raises.

(** ** The call and its log *)

Section Call.
Context {lib : Library}.

Lemma parse_gpt_response_outcome (response : string) (w : World) :
  fst (parse_gpt_response response w) = outcome_of (parse response).
Proof.
  unfold parse_gpt_response, parse, reconcile.
  destruct (decode response) as [d|e]; [|reflexivity].
  cbn [bind]. cbv zeta.
  destruct (unknown_top_fields (normalize_nulls d)) as [[nd unknown]|e];
    [|reflexivity].
  cbn [bind]. destruct (map_to_models nd); reflexivity.
Qed.

Lemma parse_gpt_response_log (response : string) (w : World) :
  snd (parse_gpt_response response w)
  = w ++ snd (parse_gpt_response response []).
Proof.
  unfold parse_gpt_response, handler, emit. cbv zeta.
  destruct (decode response) as [d|e]; cbn [snd app];
    [|now rewrite <- app_assoc].
  destruct (unknown_top_fields (normalize_nulls d)) as [[nd unknown]|e];
    cbn [snd app]; [|now rewrite <- !app_assoc].
  destruct unknown; destruct (map_to_models nd);
    cbn [snd app]; now rewrite <- !app_assoc.
Qed.

(** the decoder's error is raised exactly when the text as received or the
    cleaned text is rejected by [json.loads] *)
Lemma decode_error_iff (response : string) :
  parse response = Raise JSONDecodeError
  <-> json_loads response = None
      \/ json_loads (preprocess_json response) = None.
Proof.
  unfold parse, decode, loads. split.
  - destruct (json_loads response); [|now left].
    destruct (json_loads (preprocess_json response)) as [d|]; [|now right].
    cbn [bind]. intros H. now apply reconcile_no_decode in H.
  - intros [-> | H]; [reflexivity|].
    destruct (json_loads response); [|reflexivity].
    now rewrite H.
Qed.

Lemma scalar_vendor_no_record (top m : dict) (v : pyval) (r : InvoiceData) :
  reconcile (PDict top) = Ok r ->
  dict_get "invoice_metadata" top = Some (PDict m) ->
  dict_get "vendor_details" m = Some v ->
  isinstance_dict v = false ->
  False.
Proof.
  intros H G V D. apply reconcile_inv in H as (s & S & C).
  apply construct_inv in C as (I & _).
  apply InvoiceMetadata_init_inv in I as (_ & I & _).
  rewrite (metadata_kw top m s "vendor_details" S G eq_refl eq_refl) in I.
  rewrite dict_get_normalize, V in I. cbn [option_map field_required] in I.
  destruct v; try discriminate.
  change (normalize_nulls (PStr s0))
    with (if py_in (PStr s0) ["null"; "NA"] then PNone else PStr s0) in I.
  destruct (py_in (PStr s0) ["null"; "NA"]); discriminate.
Qed.

Lemma py_pop_raise (obj : pyval) (k : string) (default : pyval) (e : exn) :
  py_pop obj k default = Raise e -> e <> ValidationError.
Proof. destruct obj; simpl; intros H; inversion H; discriminate. Qed.

Lemma py_as_dict_raise (obj : pyval) (e : exn) :
  py_as_dict obj = Raise e -> e <> ValidationError.
Proof. destruct obj; simpl; intros H; inversion H; discriminate. Qed.

(** within lines 425-454 a validation error comes from the loop over the
    line items alone: the other lines call methods of the values *)
Lemma surgery_validation_error (nd : dict) :
  surgery nd = Raise ValidationError ->
  process_line_items nd = Raise ValidationError.
Proof.
  unfold surgery. intros H.
  destruct (process_line_items nd) as [[nd1 lis]|e]; cbn [bind] in H;
    [|now injection H as ->].
  exfalso.
  repeat
    (lazymatch type of H with
     | bind (py_pop ?o ?k ?d) _ = _ =>
         let E := fresh "E" in
         destruct (py_pop o k d) as [[? ?]|?] eqn:E; cbn [bind] in H;
         [cbv zeta in H
         |injection H as ->; now apply py_pop_raise in E]
     | bind (py_as_dict ?o) _ = _ =>
         let E := fresh "E" in
         destruct (py_as_dict o) as [?|?] eqn:E; cbn [bind] in H;
         [cbv zeta in H
         |injection H as ->; now apply py_as_dict_raise in E]
     end).
  discriminate.
Qed.

(** C7 (amended). When [invoice_metadata.vendor_details] holds anything but
    a map, no record is returned: the call raises one of two fixed
    HTTPExceptions.  It is the validation failure (status 422) when the
    dictionary surgery of lines 425-454 completes, and also when a line item
    fails validation in the loop of lines 427-432, the only place of the
    surgery a validation error comes from; it is the generic failure (status
    500) when the surgery raises any other exception.  The detail is a fixed
    text in which the field path does not occur. *)
Theorem scalar_vendor_raises_fixed_detail :
  forall (response : string) (top m : dict) (v : pyval) (w : World),
    decode response = Ok (PDict top) ->
    dict_get "invoice_metadata" top = Some (PDict m) ->
    dict_get "vendor_details" m = Some v ->
    isinstance_dict v = false ->
    exists e : HTTPException,
      fst (parse_gpt_response response w) = Raised e
      /\ (e = validation_failure \/ e = unexpected_failure)
      /\ (forall s, surgery (normalize_dict top) = Ok s ->
                    e = validation_failure)
      /\ (process_line_items (normalize_dict top) = Raise ValidationError ->
          e = validation_failure)
      /\ (forall x, surgery (normalize_dict top) = Raise x ->
                    x <> ValidationError ->
                    e = unexpected_failure)
      /\ (surgery (normalize_dict top) = Raise ValidationError ->
          process_line_items (normalize_dict top) = Raise ValidationError)
      /\ status_code validation_failure = 422%Z
      /\ status_code unexpected_failure = 500%Z
      /\ occurs "invoice_metadata.vendor_details" (detail e) = false.
Proof.
  intros response top m v w D G V N.
  rewrite parse_gpt_response_outcome. unfold parse. rewrite D. cbn [bind].
  destruct (reconcile (PDict top)) as [r|e] eqn:R.
  - exfalso. eapply scalar_vendor_no_record; eassumption.
  - exists (http_exception e). split; [reflexivity|].
    pose proof (reconcile_no_decode _ _ R) as J.
    rewrite reconcile_dict in R. unfold map_to_models in R.
    split; [|split; [|split; [|split; [|split; [|split; [|split]]]]]].
    + destruct e; [contradiction | now left | now right | now right].
    + intros s S. rewrite S in R. cbn [bind] in R.
      now rewrite (construct_only _ _ R).
    + intros L. unfold surgery in R. rewrite L in R. cbn [bind] in R.
      now injection R as <-.
    + intros x S X. rewrite S in R. cbn [bind] in R. injection R as <-.
      destruct x; [contradiction | contradiction | reflexivity | reflexivity].
    + apply surgery_validation_error.
    + reflexivity.
    + reflexivity.
    + destruct e; [contradiction | | | ]; vm_compute; reflexivity.
Qed.

(** when the [payment_slip] key is missing or holds the empty map, a
    returned record has no payment slip *)
Lemma payment_slip_missing_or_empty (top : dict) (r : InvoiceData) :
  reconcile (PDict top) = Ok r ->
  dict_get "payment_slip" top = None
  \/ dict_get "payment_slip" top = Some (PDict []) ->
  payment_slip r = None.
Proof.
  intros H G. apply reconcile_inv in H as (s & S & C).
  apply construct_inv in C as (_ & _ & B & _).
  apply surgery_spec in S as (_ & _ & _ & (p0 & P & V & _) & T & _).
  unfold build_payment_slip, dict_get_default in B, P. rewrite T in B.
  rewrite dict_get_normalize in B, P.
  destruct G as [G|G]; rewrite G in B, P; cbn in B, P.
  - now injection B.
  - injection P as _ <-. rewrite V in B. cbn in B. now injection B.
Qed.

(** when the [payment_slip] key holds null or a null synonym, no record is
    returned *)
Lemma payment_slip_null_no_record (top : dict) (v : pyval) :
  dict_get "payment_slip" top = Some v ->
  v = PNone \/ null_synonym v = true ->
  forall r, reconcile (PDict top) <> Ok r.
Proof.
  intros G N r H. apply reconcile_inv in H as (s & S & C).
  apply surgery_spec in S as (_ & _ & _ & (p0 & P & _) & _).
  unfold dict_get_default in P. rewrite dict_get_normalize, G in P.
  cbn [option_map] in P.
  assert (E : normalize_nulls v = PNone).
  { destruct N as [->|N]; [reflexivity|].
    rewrite normalize_nulls_scalar, N; [reflexivity|].
    destruct v; try discriminate; reflexivity. }
  rewrite E in P. discriminate.
Qed.
End Call.

(** * The sample replies *)

(** C1, counterexample. The vendor map of the sample reply has the
    undeclared key [foo] bound to ["bar"]; a record is returned and the
    overflow map of its Vendor record is empty. *)
Lemma vendor_undeclared_key_not_routed :
  exists (r : InvoiceData) (extra : dict),
    reconcile (PDict sample_top) = Ok r
    /\ lookup [Key "invoice_metadata"; Key "vendor_details"; Key "foo"]
         (PDict sample_top) = Some (PStr "bar")
    /\ existsb (String.eqb "foo") VendorDetails_model_fields = false
    /\ vd_extra_fields (im_vendor_details (invoice_metadata r)) = Some extra
    /\ dict_get "foo" extra = None.
Proof.
  do 2 eexists.
  split; [vm_compute; reflexivity|].
  split; [vm_compute; reflexivity|].
  split; [reflexivity|].
  split; [vm_compute; reflexivity|].
  reflexivity.
Qed.

(** C1 (amended) on the sample reply. *)
Lemma vendor_overflow_witness :
  exists r : InvoiceData,
    reconcile (PDict sample_top) = Ok r
    /\ dict_get "invoice_metadata" sample_top = Some (PDict sample_metadata)
    /\ dict_get "vendor_details" sample_metadata = Some (PDict sample_vendor)
    /\ opt_str (dict_get "name" (normalize_dict sample_vendor))
       = Ok (vd_name (im_vendor_details (invoice_metadata r)))
    /\ vd_extra_fields (im_vendor_details (invoice_metadata r)) = Some []
    /\ VendorDetails_init
         (dict_set "foo" (PStr "baz") (normalize_dict sample_vendor))
       = Ok (im_vendor_details (invoice_metadata r)).
Proof.
  destruct (reconcile (PDict sample_top)) as [r|e] eqn:E.
  - exists r. split; [reflexivity|].
    assert (M : dict_get "invoice_metadata" sample_top
                = Some (PDict sample_metadata)) by (vm_compute; reflexivity).
    assert (V : dict_get "vendor_details" sample_metadata
                = Some (PDict sample_vendor)) by (vm_compute; reflexivity).
    split; [exact M|]. split; [exact V|].
    destruct (vendor_overflow_is_own_extra_fields
                sample_top sample_metadata sample_vendor r E M V)
      as (N & _ & _ & _ & _ & X & I & _).
    split; [exact N|]. split.
    + apply X. vm_compute. reflexivity.
    + apply I. reflexivity.
  - exfalso. vm_compute in E. discriminate.
Defined.

(** C2, counterexample. The sample reply has the undeclared top-level key
    [note] bound to the string ["NA"]; the root overflow map of the returned
    record binds [note] to the absent marker, not to the original value. *)
Lemma root_overflow_value_normalized :
  exists (r : InvoiceData) (extra : dict),
    reconcile (PDict sample_top) = Ok r
    /\ dict_get "note" sample_top = Some (PStr "NA")
    /\ in_model_fields "note" = false
    /\ extra_fields r = Some extra
    /\ dict_get "note" extra = Some PNone
    /\ dict_get "note" extra <> Some (PStr "NA").
Proof.
  do 2 eexists.
  split; [vm_compute; reflexivity|].
  split; [vm_compute; reflexivity|].
  split; [reflexivity|].
  split; [vm_compute; reflexivity|].
  split; [reflexivity | discriminate].
Qed.

(** C2 (amended) on the sample reply. *)
Lemma root_overflow_witness :
  exists (r : InvoiceData) (extra : dict),
    reconcile (PDict sample_top) = Ok r
    /\ extra_fields r = Some extra
    /\ extra = filter undeclared (normalize_dict sample_top)
    /\ dict_get "page_count" extra = Some (PInt 3)
    /\ dict_get "totals" extra = None.
Proof.
  destruct (reconcile (PDict sample_top)) as [r|e] eqn:E.
  - destruct (root_overflow_undeclared_keys sample_top r E)
      as (extra & X & F & K).
    exists r, extra. split; [reflexivity|]. split; [exact X|].
    split; [exact F|]. rewrite !K. split; vm_compute; reflexivity.
  - exfalso. vm_compute in E. discriminate.
Defined.

(** C6, counterexample. The first line item of the sample reply has no
    [extra_details] key; the line item of the returned record holds the
    empty string there, which the input did not supply. *)
Lemma missing_extra_details_is_empty_string :
  exists (r : InvoiceData) (li : LineItem),
    reconcile (PDict sample_top) = Ok r
    /\ lookup [Key "line_items"; Index 0; Key "extra_details"]
         (PDict sample_top) = None
    /\ nth_error (line_items r) 0 = Some li
    /\ li_extra_details li = Some (inl EmptyString)
    /\ li_extra_details li <> None.
Proof.
  do 2 eexists.
  split; [vm_compute; reflexivity|].
  split; [vm_compute; reflexivity|].
  split; [reflexivity|].
  split; [reflexivity | discriminate].
Qed.

(** C6 (amended) on the sample reply: the null [invoice_date] and the
    null synonym under [due_date]. *)
Lemma absent_scalars_witness :
  exists r : InvoiceData,
    reconcile (PDict sample_top) = Ok r
    /\ dict_get "invoice_metadata" sample_top = Some (PDict sample_metadata)
    /\ absent_input "invoice_date" sample_metadata
    /\ im_invoice_date (invoice_metadata r) = None
    /\ absent_input "due_date" sample_metadata
    /\ im_due_date (invoice_metadata r) = None.
Proof.
  destruct (reconcile (PDict sample_top)) as [r|e] eqn:E.
  - exists r. split; [reflexivity|].
    assert (M : dict_get "invoice_metadata" sample_top
                = Some (PDict sample_metadata)) by (vm_compute; reflexivity).
    assert (A1 : absent_input "invoice_date" sample_metadata)
      by (vm_compute; left; reflexivity).
    assert (A2 : absent_input "due_date" sample_metadata)
      by (vm_compute; right; reflexivity).
    destruct (absent_scalars_stay_absent sample_top r E) as (_ & S & _).
    destruct (S sample_metadata M) as (F & _).
    apply Forall_inv_tail in F.
    pose proof (Forall_inv F) as D1.
    apply Forall_inv_tail in F.
    pose proof (Forall_inv F) as D2.
    split; [exact M|]. split; [exact A1|]. split; [exact (D1 A1)|].
    split; [exact A2 | exact (D2 A2)].
  - exfalso. vm_compute in E. discriminate.
Defined.

(** C7, counterexample. In the reply whose vendor is the scalar ["Acme"]
    the call raises the validation failure; the path does not occur in its
    detail, and a reply whose offending field is [customer_details] raises
    the very same record. *)
Lemma scalar_vendor_payload_names_no_path :
  lookup [Key "invoice_metadata"; Key "vendor_details"]
    (PDict scalar_vendor_top) = Some (PStr "Acme")
  /\ fst (parse_gpt_response scalar_vendor_response []) = Raised validation_failure
  /\ detail validation_failure = "Validation error in GPT response data."
  /\ occurs "invoice_metadata.vendor_details" (detail validation_failure)
     = false
  /\ occurs "vendor_details" (detail validation_failure) = false
  /\ fst (parse_gpt_response scalar_customer_response [])
     = Raised validation_failure.
Proof.
  repeat split; vm_compute; reflexivity.
Qed.

(** the reply whose vendor is the scalar ["Acme"], with a line item that
    fails validation and with null totals: the loop of lines 427-432 raises
    the validation error before the null totals are reached, and without
    the line item the null totals raise the generic failure *)
Lemma scalar_vendor_other_failures :
  lookup [Key "invoice_metadata"; Key "vendor_details"]
    (decoded scalar_vendor_empty_item_response) = Some (PStr "Acme")
  /\ lookup [Key "line_items"; Index 0]
       (decoded scalar_vendor_empty_item_response) = Some (PDict [])
  /\ lookup [Key "totals"] (decoded scalar_vendor_empty_item_response)
     = Some PNone
  /\ fst (parse_gpt_response scalar_vendor_empty_item_response [])
     = Raised validation_failure
  /\ lookup [Key "invoice_metadata"; Key "vendor_details"]
       (decoded scalar_vendor_null_totals_response) = Some (PStr "Acme")
  /\ lookup [Key "totals"] (decoded scalar_vendor_null_totals_response)
     = Some PNone
  /\ fst (parse_gpt_response scalar_vendor_null_totals_response [])
     = Raised unexpected_failure.
Proof.
  repeat split; vm_compute; reflexivity.
Qed.

(** C7 (amended) on the reply whose vendor is the scalar ["Acme"]: its
    surgery completes and the validation failure is raised. *)
Lemma scalar_vendor_witness :
  decode scalar_vendor_response = Ok (PDict scalar_vendor_top)
  /\ dict_get "invoice_metadata" scalar_vendor_top
     = Some (PDict scalar_vendor_metadata)
  /\ dict_get "vendor_details" scalar_vendor_metadata = Some (PStr "Acme")
  /\ (exists s, surgery (normalize_dict scalar_vendor_top) = Ok s)
  /\ fst (parse_gpt_response scalar_vendor_response [])
     = Raised validation_failure
  /\ status_code validation_failure = 422%Z
  /\ occurs "invoice_metadata.vendor_details" (detail validation_failure)
     = false.
Proof.
  assert (D : decode scalar_vendor_response = Ok (PDict scalar_vendor_top))
    by (vm_compute; reflexivity).
  assert (M : dict_get "invoice_metadata" scalar_vendor_top
              = Some (PDict scalar_vendor_metadata))
    by (vm_compute; reflexivity).
  assert (V : dict_get "vendor_details" scalar_vendor_metadata
              = Some (PStr "Acme")) by (vm_compute; reflexivity).
  split; [exact D|]. split; [exact M|]. split; [exact V|].
  destruct (surgery (normalize_dict scalar_vendor_top)) as [s|x] eqn:S;
    [|exfalso; vm_compute in S; discriminate].
  split; [exists s; reflexivity|].
  destruct (scalar_vendor_raises_fixed_detail scalar_vendor_response
              scalar_vendor_top scalar_vendor_metadata (PStr "Acme") []
              D M V eq_refl)
    as (e & O & _ & C & _ & _ & _ & T & _ & P).
  rewrite (C s S) in O, P. split; [exact O|]. split; [exact T | exact P].
Defined.

(** C5. The reply [bare_amount_response] carries the amount as the bare
    literal 1,234.56.  After cleaning it is valid JSON and reconciles to a
    record whose grand total is 1234.56; the call nevertheless raises the
    invalid-JSON error, because line 393 decodes the text as received
    before the cleaner of line 402 has run. *)
Theorem bare_amount_rejected_before_cleaning :
  json_loads bare_amount_response = None
  /\ (exists (d : pyval) (r : InvoiceData),
        json_loads (preprocess_json bare_amount_response) = Some d
        /\ reconcile d = Ok r
        /\ t_grand_total (totals r) = Some (Qred (Qmake 123456 100)))
  /\ parse bare_amount_response = Raise JSONDecodeError
  /\ fst (parse_gpt_response bare_amount_response []) = Raised invalid_json.
Proof.
  split; [vm_compute; reflexivity|].
  split.
  { do 2 eexists. split; [vm_compute; reflexivity|].
    split; vm_compute; reflexivity. }
  split; vm_compute; reflexivity.
Qed.

(** C10. In [null_slip_response] the [payment_slip] key holds null.  The
    default of the [get] of line 444 applies to a missing key only, so line
    445 calls [pop] on [None]: the call raises the unexpected-failure
    exception and returns no record.  The same reply with an empty map, or
    without the key, returns a record whose payment slip is absent. *)
Theorem null_payment_slip_raises :
  lookup [Key "payment_slip"] (decoded (preprocess_json null_slip_response))
  = Some PNone
  /\ parse null_slip_response = Raise AttributeError
  /\ fst (parse_gpt_response null_slip_response [])
     = Raised unexpected_failure
  /\ (exists r : InvoiceData,
        parse empty_slip_response = Ok r /\ payment_slip r = None)
  /\ (exists r : InvoiceData,
        parse sample_response = Ok r /\ payment_slip r = None).
Proof.
  split; [vm_compute; reflexivity|].
  split; [vm_compute; reflexivity|].
  split; [vm_compute; reflexivity|].
  split; eexists; split; vm_compute; reflexivity.
Qed.

(** * Further properties *)

(** ** The cleaner *)

Lemma separator_free_fixed (s : string) (prev : option ascii) :
  separator_free prev s = true -> sub_commas prev s = s.
Proof.
  revert prev. induction s as [|c r IH]; intros prev H; [reflexivity|].
  cbn [separator_free sub_commas] in *.
  apply andb_true_iff in H as [N F].
  apply negb_true_iff in N. rewrite N. now rewrite IH.
Qed.

Lemma is_digit_not_comma (c : ascii) :
  is_digit c = true -> Ascii.eqb c comma = false.
Proof.
  intros D. destruct (Ascii.eqb c comma) eqn:E; [|reflexivity].
  apply Ascii.eqb_eq in E. subst c. discriminate.
Qed.

(** the first character of the output after a character that is no digit *)
Lemma lookahead_sub_commas (c : ascii) (r : string) :
  is_digit c = false ->
  lookahead_digit (sub_commas (Some c) r) = lookahead_digit r.
Proof.
  intros N. destruct r as [|n r']; [reflexivity|].
  cbn [sub_commas lookbehind_digit]. rewrite N, andb_false_r. reflexivity.
Qed.

Lemma sub_commas_separator_free (s : string) (prev before : option ascii) :
  (lookbehind_digit before = true ->
   lookbehind_digit prev = true \/ lookahead_digit s = true) ->
  separator_free before (sub_commas prev s) = true.
Proof.
  revert prev before. induction s as [|c r IH]; intros prev before H;
    [reflexivity|].
  cbn [sub_commas].
  destruct (Ascii.eqb c comma && lookbehind_digit prev && lookahead_digit r)
    eqn:R.
  - apply andb_true_iff in R as [R L]. apply IH. intros _. now right.
  - cbn [separator_free]. apply andb_true_iff. split.
    + apply negb_true_iff.
      destruct (Ascii.eqb c comma) eqn:C; [|reflexivity].
      destruct (lookbehind_digit before) eqn:B; [|reflexivity].
      cbn [andb]. apply Ascii.eqb_eq in C. subst c.
      rewrite lookahead_sub_commas by reflexivity.
      destruct (H eq_refl) as [P|P].
      * rewrite P in R. exact R.
      * discriminate.
    + apply IH. intros D. now left.
Qed.

Lemma separator_free_from (s pre : string) (p : ascii) :
  separator_free (Some p) s = true
  <-> forall j, separator_at ((pre ++ String p EmptyString) ++ s)
                  (S (String.length pre) + j) = false.
Proof.
  revert pre p. induction s as [|c r IH]; intros pre p.
  - split; [|reflexivity]. intros _ j.
    unfold separator_at. cbn [Nat.add].
    replace (String.get (S (String.length pre + j))
               ((pre ++ String p EmptyString) ++ EmptyString))
      with (@None ascii); [reflexivity|].
    symmetry. clear. revert j.
    induction pre as [|x pre IHp]; intros j; cbn; [reflexivity | apply IHp].
  - cbn [separator_free lookbehind_digit].
    specialize (IH (pre ++ String p EmptyString)%string c).
    rewrite string_length_snoc in IH.
    rewrite (string_app_assoc _ (String c EmptyString) r) in IH.
    change (String c EmptyString ++ r)%string with (String c r) in IH.
    rewrite andb_true_iff, negb_true_iff, IH.
    rewrite <- (separator_at_snoc pre p c r). split.
    + intros [H0 HS] [|j].
      * rewrite Nat.add_0_r. exact H0.
      * rewrite Nat.add_succ_r. apply (HS j).
    + intros H. split.
      * specialize (H 0). now rewrite Nat.add_0_r in H.
      * intros j. specialize (H (S j)). now rewrite Nat.add_succ_r in H.
Qed.

Lemma separator_free_iff (s : string) :
  separator_free None s = true <-> forall i, separator_at s i = false.
Proof.
  destruct s as [|c r]; [split; [intros _ [|i]|]; reflexivity|].
  cbn [separator_free lookbehind_digit]. rewrite andb_false_r. cbn [negb andb].
  rewrite (separator_free_from r EmptyString c). cbn. split.
  - intros H [|i]; [reflexivity | apply H].
  - intros H j. apply (H (S j)).
Qed.

(** X1. The output of the cleaner holds no comma between two digits, and
    cleaning a cleaned text changes nothing. *)
Theorem preprocess_json_leaves_no_separator :
  forall s : string,
    (forall i : nat, separator_at (preprocess_json s) i = false)
    /\ preprocess_json (preprocess_json s) = preprocess_json s.
Proof.
  intros s.
  assert (F : separator_free None (preprocess_json s) = true).
  { apply sub_commas_separator_free. discriminate. }
  split.
  - now apply separator_free_iff.
  - now apply separator_free_fixed.
Qed.

(** X2. On every [str], and for every class of digits (the decimal digits
    of Unicode among them), the cleaner returns its input unchanged exactly
    when the input holds no comma between two digits. *)
Theorem preprocess_json_fixed_iff :
  forall (digit : codepoint -> bool) (s : pystr),
    preprocess_json_str digit s = s
    <-> forall i : nat, separator_at_str digit s i = false.
Proof.
  intros digit s. rewrite <- separator_free_str_iff. split.
  - apply fixed_separator_free_str.
  - apply separator_free_str_fixed.
Qed.

Lemma sub_commas_app (a rest : string) (x : ascii) (prev : option ascii) :
  Ascii.eqb x comma = false ->
  sub_commas prev (a ++ String x rest)
  = (sub_commas prev (a ++ String x EmptyString)
     ++ sub_commas (Some x) rest)%string.
Proof.
  intros N. revert prev. induction a as [|c a IH]; intros prev.
  - cbn [append sub_commas]. rewrite N. reflexivity.
  - cbn [append sub_commas].
    replace (lookahead_digit (a ++ String x EmptyString))
      with (lookahead_digit (a ++ String x rest))
      by (destruct a; reflexivity).
    destruct (Ascii.eqb c comma && lookbehind_digit prev
              && lookahead_digit (a ++ String x rest));
      cbn [append]; now rewrite IH.
Qed.

(** X3. A comma that stands between two digits is removed wherever it
    stands, also where it separates two elements of a JSON array, and the
    texts on its two sides are cleaned independently of each other. *)
Theorem preprocess_json_joins_across_separator :
  forall (a b : string) (x y : ascii),
    is_digit x = true ->
    is_digit y = true ->
    preprocess_json ((a ++ String x EmptyString) ++ String comma (String y b))
    = (preprocess_json (a ++ String x EmptyString)
       ++ preprocess_json (String y b))%string.
Proof.
  intros a b x y X Y. unfold preprocess_json.
  rewrite string_app_assoc.
  change (String x EmptyString ++ String comma (String y b))%string
    with (String x (String comma (String y b))).
  rewrite sub_commas_app by now apply is_digit_not_comma.
  f_equal.
  cbn [sub_commas lookbehind_digit lookahead_digit].
  rewrite X, Y, (is_digit_not_comma y Y). reflexivity.
Qed.

(** ** The normalizer *)

Lemma normalize_nulls_not_synonym (y : pyval) :
  null_synonym (normalize_nulls y) = false.
Proof.
  destruct y; try reflexivity.
  change (normalize_nulls (PStr s))
    with (if py_in (PStr s) ["null"; "NA"] then PNone else PStr s).
  destruct (py_in (PStr s) ["null"; "NA"]) eqn:E; [reflexivity|].
  unfold py_in in E. simpl in E. rewrite orb_false_r in E. exact E.
Qed.

(** X4. Normalizing twice is normalizing once, and no position of a
    normalized tree holds the string "null" or the string "NA". *)
Theorem normalize_nulls_leaves_no_synonym :
  forall v : pyval,
    normalize_nulls (normalize_nulls v) = normalize_nulls v
    /\ forall p : list step,
         match lookup p (normalize_nulls v) with
         | Some x => null_synonym x = false
         | None => True
         end.
Proof.
  intros v. split; [apply normalize_nulls_idempotent|].
  intros p. rewrite lookup_normalize.
  destruct (lookup p v); simpl; [apply normalize_nulls_not_synonym | exact I].
Qed.

(** ** Failures of the call *)

Section CallFailures.
Context {lib : Library}.

(** X5. A reply that decodes to anything but a JSON object (a list, a
    string, a number, a boolean, null) raises the unexpected-failure
    exception; the log then holds the success message of the decoding step
    followed by the error. *)
Theorem non_object_reply_is_unexpected_failure :
  forall (response : string) (d : pyval) (w : World),
    decode response = Ok d ->
    isinstance_dict d = false ->
    parse_gpt_response response w
    = (Raised unexpected_failure,
       w ++ [{| level := INFO;
                message := "Parsing the JSON response from GPT.";
                args := [] |};
             {| level := INFO;
                message :=
                  "Successfully parsed JSON response. Checking for unknown fields.";
                args := [] |};
             {| level := ERROR;
                message :=
                  "An unexpected error occurred while parsing GPT response: ";
                args := [] |}]).
Proof.
  intros response d w D N. unfold parse_gpt_response. rewrite D. cbv zeta.
  assert (K : unknown_top_fields (normalize_nulls d) = Raise AttributeError).
  { destruct d; try reflexivity; try discriminate.
    unfold unknown_top_fields.
    change (normalize_nulls (PStr s))
      with (if py_in (PStr s) ["null"; "NA"] then PNone else PStr s).
    destruct (py_in (PStr s) ["null"; "NA"]); reflexivity. }
  rewrite K. unfold handler, emit. cbn [http_exception error_message].
  f_equal. now rewrite <- !app_assoc.
Qed.

Lemma http_exception_invalid_json (e : exn) :
  http_exception e = invalid_json -> e = JSONDecodeError.
Proof. destruct e; [reflexivity | discriminate ..]. Qed.

(** X6. The call raises the invalid-JSON exception exactly when
    [json.loads] rejects the reply as received or rejects the cleaned
    reply. *)
Theorem invalid_json_raised_iff :
  forall (response : string) (w : World),
    fst (parse_gpt_response response w) = Raised invalid_json
    <-> json_loads response = None
        \/ json_loads (preprocess_json response) = None.
Proof.
  intros response w. rewrite parse_gpt_response_outcome.
  rewrite <- decode_error_iff. unfold outcome_of.
  destruct (parse response) as [r|e]; split; intros H; try discriminate.
  - injection H as H. now rewrite (http_exception_invalid_json e H).
  - injection H as ->. reflexivity.
Qed.
End CallFailures.

Lemma null_like_normalized (v : pyval) :
  null_like v -> normalize_nulls v = PNone.
Proof.
  intros [->|N]; [reflexivity|].
  rewrite normalize_nulls_scalar, N; [reflexivity|].
  destruct v; try discriminate; reflexivity.
Qed.

Section Dereferences.
Context {lib : Library}.

Lemma null_top_level_no_record (top : dict) (k : string) (v : pyval)
  (r : InvoiceData) :
  k = "line_items" \/ k = "invoice_metadata" \/ k = "totals"
  \/ k = "payment_slip" ->
  dict_get k top = Some v ->
  null_like v ->
  reconcile (PDict top) = Ok r ->
  False.
Proof.
  intros K G N H. apply null_like_normalized in N.
  apply reconcile_inv in H as (s & S & _).
  apply surgery_spec in S
    as ((nd' & L) & (m0 & am & M & _) & T & (p0 & P & _) & _).
  unfold process_line_items in L. unfold dict_get_default in M, T, P.
  destruct K as [->|[->|[->| ->]]];
    rewrite dict_get_normalize, G in *; cbn [option_map] in *;
    rewrite N in *; discriminate.
Qed.

Lemma null_bank_details_no_record (top p : dict) (v : pyval)
  (r : InvoiceData) :
  dict_get "payment_slip" top = Some (PDict p) ->
  dict_get "bank_details" p = Some v ->
  null_like v ->
  reconcile (PDict top) = Ok r ->
  False.
Proof.
  intros G B N H. apply null_like_normalized in N.
  apply reconcile_inv in H as (s & S & _).
  apply surgery_spec in S as (_ & _ & _ & (p0 & P & _ & Q) & _).
  apply (py_pop_get_default _ _ _ _ _ (dict_get_normalize_dict _ _ _ G)) in P.
  rewrite dict_pop_fst in Q. unfold dict_get_default in Q.
  replace p0 with (snd (dict_pop "extra_fields" (PDict []) (normalize_dict p)))
    in Q by now rewrite <- P.
  rewrite dict_get_pop in Q by reflexivity.
  rewrite dict_get_normalize, B in Q. cbn [option_map] in Q.
  rewrite N in Q. discriminate.
Qed.

Lemma null_additional_metadata_no_record (top m : dict) (v : pyval)
  (r : InvoiceData) :
  dict_get "invoice_metadata" top = Some (PDict m) ->
  dict_get "additional_metadata" m = Some v ->
  null_like v ->
  reconcile (PDict top) = Ok r ->
  False.
Proof.
  intros G B N H. apply null_like_normalized in N.
  apply reconcile_inv in H as (s & S & _).
  apply surgery_spec in S as (_ & (m0 & am & P & A & _) & _).
  apply (py_pop_get_default _ _ _ _ _ (dict_get_normalize_dict _ _ _ G)) in P.
  unfold dict_get_default in A.
  replace m0 with (snd (dict_pop "extra_fields" (PDict []) (normalize_dict m)))
    in A by now rewrite <- P.
  rewrite dict_get_pop in A by reflexivity.
  rewrite dict_get_normalize, B in A. cbn [option_map] in A.
  rewrite N in A. discriminate.
Qed.

(** X7. No record is returned when the input holds null, or a null
    synonym, at one of the six positions that the dictionary surgery
    dereferences: the four top-level sections [line_items],
    [invoice_metadata], [totals] and [payment_slip], and the nested
    [payment_slip.bank_details] and [invoice_metadata.additional_metadata],
    although the models declare the last three optional. *)
Theorem null_at_dereferenced_position_no_record :
  forall (top : dict) (path : list step) (v : pyval),
    In path dereferenced_paths ->
    lookup path (PDict top) = Some v ->
    null_like v ->
    forall r : InvoiceData, reconcile (PDict top) <> Ok r.
Proof.
  intros top path v I L N r H. cbn [dereferenced_paths In] in I.
  destruct I as [<-|[<-|[<-|[<-|[<-|[<-|[]]]]]]]; cbn [lookup] in L.
  - destruct (dict_get "line_items" top) eqn:G; [|discriminate].
    injection L as ->.
    eapply (null_top_level_no_record top "line_items"); eauto.
  - destruct (dict_get "invoice_metadata" top) eqn:G; [|discriminate].
    injection L as ->.
    eapply (null_top_level_no_record top "invoice_metadata"); eauto.
  - destruct (dict_get "totals" top) eqn:G; [|discriminate].
    injection L as ->.
    eapply (null_top_level_no_record top "totals"); eauto.
  - destruct (dict_get "payment_slip" top) eqn:G; [|discriminate].
    injection L as ->.
    eapply (null_top_level_no_record top "payment_slip"); eauto 6.
  - destruct (dict_get "payment_slip" top) as [[]|] eqn:G; try discriminate.
    destruct (dict_get "bank_details" d) eqn:B; [|discriminate].
    injection L as ->. eapply null_bank_details_no_record; eauto.
  - destruct (dict_get "invoice_metadata" top) as [[]|] eqn:G;
      try discriminate.
    destruct (dict_get "additional_metadata" d) eqn:B; [|discriminate].
    injection L as ->. eapply null_additional_metadata_no_record; eauto.
Qed.
End Dereferences.

(** ** The payment slip after the pops of lines 445-446 *)

Lemma dict_del_absent (k : string) (d : dict) :
  dict_get k d = None -> dict_del k d = d.
Proof.
  induction d as [|[k0 v0] t IH]; simpl; [reflexivity|].
  destruct (String.eqb k k0); [discriminate|].
  intros H. now rewrite IH.
Qed.

Lemma dict_pop_snd (k : string) (default : pyval) (d : dict) :
  snd (dict_pop k default d) = dict_del k d.
Proof.
  unfold dict_pop. destruct (dict_get k d) eqn:E; [reflexivity|].
  simpl. symmetry. now apply dict_del_absent.
Qed.

Lemma dict_del_keys (k k' : string) (d : dict) :
  NoDup (map fst d) ->
  In k' (map fst (dict_del k d)) <-> In k' (map fst d) /\ k' <> k.
Proof.
  induction d as [|[k0 v0] t IH]; simpl; intros N.
  - tauto.
  - inversion N as [|? ? N0 N1]; subst.
    destruct (String.eqb k k0) eqn:E.
    + apply String.eqb_eq in E. subst k0. split.
      * intros I. split; [now right|]. intros ->. contradiction.
      * intros [[<-|I] D]; [contradiction | exact I].
    + apply String.eqb_neq in E. simpl. rewrite (IH N1). split.
      * intros [<-|[I D]]; [split; [now left | congruence] | split; [now right | exact D]].
      * intros [[<-|I] D]; [now left | right; now split].
Qed.

Lemma dict_del_NoDup (k : string) (d : dict) :
  NoDup (map fst d) -> NoDup (map fst (dict_del k d)).
Proof.
  induction d as [|[k0 v0] t IH]; simpl; intros N; [constructor|].
  inversion N as [|? ? N0 N1]; subst.
  destruct (String.eqb k k0); [exact N1|].
  simpl. constructor; [|now apply IH].
  intros I. apply dict_del_keys in I; [|exact N1]. now destruct I.
Qed.

Lemma normalize_dict_keys (d : dict) : map fst (normalize_dict d) = map fst d.
Proof. unfold normalize_dict. rewrite map_map. reflexivity. Qed.

Section PaymentSlipFacts.
Context {lib : Library}.

(** X8. When [payment_slip] holds a map and a record is returned, the
    record has no payment slip exactly when the map has no key besides
    [extra_fields] and [bank_details]: the truth test of line 475 reads the
    dictionary after lines 445-446 have popped these two keys from it, so a
    payment slip that holds bank details only is dropped. *)
Theorem payment_slip_dropped_iff :
  forall (top p : dict) (r : InvoiceData),
    reconcile (PDict top) = Ok r ->
    dict_get "payment_slip" top = Some (PDict p) ->
    NoDup (map fst p) ->
    (payment_slip r = None
     <-> forall k : string,
           In k (map fst p) -> k = "extra_fields" \/ k = "bank_details").
Proof.
  intros top p r H G N. apply reconcile_inv in H as (s & S & C).
  apply construct_inv in C as (_ & _ & B & _).
  apply surgery_spec in S as (_ & _ & _ & (p0 & P & V & _) & T & _).
  apply (py_pop_get_default _ _ _ _ _ (dict_get_normalize_dict _ _ _ G)) in P.
  assert (E : v_payment_slip s
              = dict_del "bank_details"
                  (dict_del "extra_fields" (normalize_dict p))).
  { rewrite V, dict_pop_snd. f_equal.
    rewrite <- dict_pop_snd with (default := PDict []). now rewrite <- P. }
  assert (K : forall k, In k (map fst (v_payment_slip s))
                        <-> In k (map fst p)
                            /\ k <> "extra_fields" /\ k <> "bank_details").
  { intros k. rewrite E.
    rewrite dict_del_keys
      by (apply dict_del_NoDup; now rewrite normalize_dict_keys).
    rewrite dict_del_keys by now rewrite normalize_dict_keys.
    rewrite normalize_dict_keys. tauto. }
  unfold build_payment_slip, dict_get_default in B.
  rewrite T, dict_get_normalize, G in B. cbn [option_map py_truthy] in B.
  destruct (v_payment_slip s) as [|[k0 v0] rest] eqn:VS; cbn in B.
  - injection B as <-. split; [|reflexivity].
    intros _ k I.
    destruct (string_dec k "extra_fields") as [|D1]; [now left|].
    destruct (string_dec k "bank_details") as [|D2]; [now right|].
    exfalso. apply (proj2 (K k)). now split. 
  - inv_bind B. injection B as <-. split; [discriminate|].
    intros A. exfalso.
    destruct (proj1 (K k0) (or_introl eq_refl)) as (I & D1 & D2).
    destruct (A k0 I); contradiction.
Qed.
End PaymentSlipFacts.

(** ** The additional metadata (lines 449-454) *)




Section AdditionalMetadata.
Context {lib : Library}.


End AdditionalMetadata.

(** ** Line items, field by field *)

Lemma opt_dict_default (d : dict) (k : string) :
  opt_dict (Some (dict_get_default k (PDict []) d)) = opt_dict (dict_get k d).
Proof.
  unfold dict_get_default. now destruct (dict_get k d).
Qed.

Lemma normalize_nulls_dict_inv (v : pyval) (nd : dict) :
  normalize_nulls v = PDict nd ->
  exists d, v = PDict d /\ nd = normalize_dict d.
Proof.
  destruct v as [| b | n | q | s | l | d]; try discriminate.
  - change (normalize_nulls (PStr s))
      with (if py_in (PStr s) ["null"; "NA"] then PNone else PStr s).
    destruct (py_in (PStr s) ["null"; "NA"]); discriminate.
  - intros H. exists d. split; [reflexivity|].
    change (normalize_nulls (PDict d)) with (PDict (normalize_dict d)) in H.
    now injection H.
Qed.

Section LineItemFacts.
Context {lib : Library}.

Lemma process_line_items_built (nd nd' : dict) (lis : list LineItem) :
  process_line_items nd = Ok (nd', lis) ->
  exists items, Forall2 built_from items lis.
Proof.
  unfold process_line_items.
  destruct (dict_get "line_items" nd) as [obj|].
  - intros H. inv_bind H. injection H as _ <-.
    eexists. eapply line_items_loop_Forall2. eassumption.
  - intros H. injection H as _ <-. exists []. constructor.
Qed.

Lemma built_from_dict (item : pyval) (li : LineItem) :
  built_from item li ->
  exists d ef item0,
    item = PDict d
    /\ (ef, item0) = dict_pop "extra_fields" (PDict []) d
    /\ LineItem_init
         (dict_set "extra_fields" ef
            (if extra_details_missing item0
             then dict_set "extra_details" (PStr EmptyString) item0
             else item0))
       = Ok li.
Proof.
  intros [item' H]. unfold normalize_line_item in H.
  destruct item; try discriminate. cbn [py_pop bind] in H.
  destruct (dict_pop "extra_fields" (PDict []) d) as [ef item0] eqn:P.
  inv_bind H. injection H as _ <-.
  exists d, ef, item0. split; [reflexivity|]. split; [now rewrite P|].
  eassumption.
Qed.

Lemma built_from_extra_details (item : pyval) (li : LineItem) :
  built_from item li -> li_extra_details li <> None.
Proof.
  intros B. apply built_from_dict in B as (d & ef & item0 & _ & _ & E).
  apply LineItem_init_extra_details in E.
  rewrite dict_get_set in E. cbn [String.eqb Ascii.eqb Bool.eqb] in E.
  unfold extra_details_missing in E.
  destruct (dict_get "extra_details" item0) as [v|] eqn:G.
  - destruct (is_None v) eqn:N.
    + rewrite dict_get_set in E. cbn in E. injection E as <-. discriminate.
    + rewrite G in E. cbn [field_default] in E.
      destruct v; try discriminate; cbn in E; injection E as <-; discriminate.
  - rewrite dict_get_set in E. cbn in E. injection E as <-. discriminate.
Qed.

Lemma LineItem_init_inv (kw : dict) (li : LineItem) :
  LineItem_init kw = Ok li ->
  opt_str (dict_get "transaction_date" kw) = Ok (li_transaction_date li)
  /\ opt_str (dict_get "description" kw) = Ok (li_description li)
  /\ opt_str (dict_get "transaction_type" kw) = Ok (li_transaction_type li)
  /\ opt_float (dict_get "quantity" kw) = Ok (li_quantity li)
  /\ opt_str (dict_get "unit" kw) = Ok (li_unit li)
  /\ opt_float (dict_get "unit_price" kw) = Ok (li_unit_price li)
  /\ opt_float (dict_get "tax_rate" kw) = Ok (li_tax_rate li)
  /\ opt_float (dict_get "tax_amount" kw) = Ok (li_tax_amount li)
  /\ opt_float (dict_get "subtotal" kw) = Ok (li_subtotal li)
  /\ opt_float (dict_get "total" kw) = Ok (li_total li)
  /\ opt_str (dict_get "status" kw) = Ok (li_status li)
  /\ opt_list (dict_get "sub_items" kw) = Ok (li_sub_items li)
  /\ field_default (Some (inl EmptyString)) (optional str_or_dict)
       (dict_get "extra_details" kw) = Ok (li_extra_details li)
  /\ opt_dict (dict_get "extra_fields" kw) = Ok (li_extra_fields li).
Proof.
  unfold LineItem_init. intros H. inv_bind H. injection H as <-.
  cbn [li_transaction_date li_description li_transaction_type li_quantity
       li_unit li_unit_price li_tax_rate li_tax_amount li_subtotal li_total
       li_status li_sub_items li_extra_details li_extra_fields].
  repeat split; assumption.
Qed.

(** the keyword arguments of line 432, read from the element itself *)
Lemma built_from_fields (nd : dict) (li : LineItem) :
  built_from (PDict nd) li -> line_item_of nd li.
Proof.
  intros B. apply built_from_dict in B as (d & ef & item0 & E & P & I).
  injection E as <-.
  assert (G : forall k, String.eqb k "extra_fields" = false ->
                        dict_get k item0 = dict_get k nd).
  { intros k N.
    replace item0 with (snd (dict_pop "extra_fields" (PDict []) nd))
      by now rewrite <- P.
    now apply dict_get_pop. }
  assert (K : forall k,
             String.eqb k "extra_fields" = false ->
             String.eqb k "extra_details" = false ->
             dict_get k
               (dict_set "extra_fields" ef
                  (if extra_details_missing item0
                   then dict_set "extra_details" (PStr EmptyString) item0
                   else item0))
             = dict_get k nd).
  { intros k N1 N2. rewrite dict_get_set, N1.
    destruct (extra_details_missing item0).
    - rewrite dict_get_set, N2. now apply G.
    - now apply G. }
  apply LineItem_init_inv in I
    as (F1 & F2 & F3 & F4 & F5 & F6 & F7 & F8 & F9 & F10 & F11 & F12 & F13
        & F14).
  rewrite K in F1, F2, F3, F4, F5, F6, F7, F8, F9, F10, F11, F12
    by reflexivity.
  unfold line_item_of.
  repeat (split; [assumption|]). split.
  - rewrite dict_get_set in F13. cbn [String.eqb Ascii.eqb Bool.eqb] in F13.
    unfold extra_details_missing in F13.
    rewrite (G "extra_details" eq_refl) in F13.
    unfold extra_details_of.
    destruct (dict_get "extra_details" nd) as [v|] eqn:V.
    + destruct v; cbn [is_None] in F13;
        try (rewrite (G "extra_details" eq_refl), V in F13);
        try (rewrite dict_get_set in F13);
        cbn in F13; try discriminate; now injection F13 as <-.
    + rewrite dict_get_set in F13. cbn in F13. now injection F13 as <-.
  - rewrite dict_get_set in F14. cbn [String.eqb Ascii.eqb Bool.eqb] in F14.
    replace ef with (fst (dict_pop "extra_fields" (PDict []) nd)) in F14
      by now rewrite <- P.
    rewrite dict_pop_fst in F14. now rewrite <- opt_dict_default.
Qed.

(** the line item at index [i] of a returned record and the element at
    index [i] of the input sequence *)
Lemma line_item_at (top : dict) (items : list pyval) (r : InvoiceData)
  (i : nat) (item : pyval) :
  reconcile (PDict top) = Ok r ->
  dict_get "line_items" top = Some (PList items) ->
  nth_error items i = Some item ->
  exists (li : LineItem) (d : dict),
    nth_error (line_items r) i = Some li
    /\ built_from (normalize_nulls item) li
    /\ item = PDict d
    /\ line_item_of (normalize_dict d) li.
Proof.
  intros H G N.
  pose proof (line_items_pointwise top items r H G) as F.
  eapply Forall2_nth_error in F as (li & L & B);
    [|rewrite nth_error_map, N; reflexivity].
  destruct (built_from_dict _ _ B) as (nd & _ & _ & E & _).
  apply normalize_nulls_dict_inv in E as (d & -> & ->).
  exists li, d. split; [exact L|]. split; [exact B|].
  split; [reflexivity|]. now apply built_from_fields.
Qed.

(** X10. In every returned record, no line item has an absent
    [extra_details], and the value is read from the element of the same
    index: lines 430-431 put the empty string where the element has no
    entry, null or a null synonym, a text is kept as that text and a map as
    that map; no record is returned when the entry is a number, a boolean or
    a list. *)
Theorem line_items_extra_details_never_absent :
  forall (top : dict) (r : InvoiceData),
    reconcile (PDict top) = Ok r ->
    Forall (fun li => li_extra_details li <> None) (line_items r)
    /\ forall (items : list pyval) (i : nat) (item : pyval),
         dict_get "line_items" top = Some (PList items) ->
         nth_error items i = Some item ->
         exists (li : LineItem) (d : dict),
           nth_error (line_items r) i = Some li
           /\ item = PDict d
           /\ match dict_get "extra_details" d with
              | None => li_extra_details li = Some (inl EmptyString)
              | Some v =>
                  match normalize_nulls v with
                  | PNone => li_extra_details li = Some (inl EmptyString)
                  | PStr s => li_extra_details li = Some (inl s)
                  | PDict m => li_extra_details li = Some (inr m)
                  | _ => False
                  end
              end.
Proof.
  intros top r H. split.
  - rewrite reconcile_dict in H.
    apply map_to_models_line_items in H as [nd' H].
    apply process_line_items_built in H as [items F].
    induction F as [|item li items lis B F IH]; constructor.
    + eapply built_from_extra_details. exact B.
    + exact IH.
  - intros items i item G N.
    destruct (line_item_at top items r i item H G N)
      as (li & d & L & _ & E & F).
    exists li, d. split; [exact L|]. split; [exact E|].
    destruct F as (_ & _ & _ & _ & _ & _ & _ & _ & _ & _ & _ & _ & X & _).
    unfold extra_details_of in X. rewrite dict_get_normalize in X.
    destruct (dict_get "extra_details" d) as [v|]; cbn [option_map] in X;
      [|exact X].
    destruct (normalize_nulls v); exact X.
Qed.

(** C8. When the [line_items] key of the decoded input holds a sequence
    and a record is returned, the record has as many line items as the
    sequence has elements, and the line item at each index is the one built
    from the element at the same index: the element is a map, and every
    field of the line item is the validated entry of that (null-normalized)
    map under the field's own key, [extra_details] being the empty string
    when the map has none. *)
Theorem line_items_order_preserved :
  forall (top : dict) (items : list pyval) (r : InvoiceData),
    reconcile (PDict top) = Ok r ->
    dict_get "line_items" top = Some (PList items) ->
    length (line_items r) = length items
    /\ forall (i : nat) (item : pyval),
         nth_error items i = Some item ->
         exists (li : LineItem) (d : dict),
           nth_error (line_items r) i = Some li
           /\ built_from (normalize_nulls item) li
           /\ item = PDict d
           /\ line_item_of (normalize_dict d) li.
Proof.
  intros top items r H G. split.
  - pose proof (line_items_pointwise top items r H G) as F.
    apply Forall2_length in F. now rewrite length_map in F.
  - intros i item N. now apply (line_item_at top items r i item).
Qed.
End LineItemFacts.

(** ** Keys a returned record presupposes *)

Lemma normalize_nulls_is_dict (x : pyval) (d : dict) :
  normalize_nulls x = PDict d -> exists m, x = PDict m /\ d = normalize_dict m.
Proof.
  destruct x; try discriminate.
  - change (normalize_nulls (PStr s))
      with (if py_in (PStr s) ["null"; "NA"] then PNone else PStr s).
    destruct (py_in (PStr s) ["null"; "NA"]); discriminate.
  - rewrite normalize_nulls_dict. intros H. injection H as <-. eauto.
Qed.

Lemma dict_get_normalize_is_dict (k : string) (input d : dict) :
  dict_get k (normalize_dict input) = Some (PDict d) ->
  exists m, dict_get k input = Some (PDict m) /\ d = normalize_dict m.
Proof.
  rewrite dict_get_normalize.
  destruct (dict_get k input) as [x|]; [|discriminate].
  cbn [option_map]. intros H. injection H as H.
  apply normalize_nulls_is_dict in H as (m & -> & ->). eauto.
Qed.

Lemma keys_present_bridge (input kw : dict) (keys : list string) :
  agree_on keys kw input ->
  Forall (fun k => dict_get k kw <> None) keys ->
  keys_present input keys.
Proof.
  unfold keys_present, agree_on. intros A F.
  rewrite Forall_forall in *. intros k I N.
  apply (F k I). rewrite (A k I), dict_get_normalize, N. reflexivity.
Qed.

Lemma py_pop_default_cases (nd : dict) (k key : string) (default x : pyval)
  (d' : dict) :
  py_pop (dict_get_default k (PDict []) nd) key default = Ok (x, d') ->
  (dict_get k nd = None /\ d' = [])
  \/ exists m, dict_get k nd = Some (PDict m)
               /\ (x, d') = dict_pop key default m.
Proof.
  unfold dict_get_default.
  destruct (dict_get k nd) as [[]|]; try discriminate; cbn [py_pop].
  - intros H. injection H as H. right. eauto.
  - intros H. injection H as _ <-. now left.
Qed.

Section Required.
Context {lib : Library}.

Lemma field_required_present {A : Type} (validate : pyval -> result A)
  (arg : option pyval) (x : A) :
  field_required validate arg = Ok x -> arg <> None.
Proof. intros H ->. discriminate. Qed.

Ltac present_fields H :=
  inv_bind H; repeat constructor;
  eapply field_required_present; eassumption.

Lemma VendorDetails_init_present (kw : dict) (r : VendorDetails) :
  VendorDetails_init kw = Ok r ->
  Forall (fun k => dict_get k kw <> None) VendorDetails_required.
Proof. unfold VendorDetails_init. intros H. present_fields H. Qed.

Lemma CustomerDetails_init_present (kw : dict) (r : CustomerDetails) :
  CustomerDetails_init kw = Ok r ->
  Forall (fun k => dict_get k kw <> None) CustomerDetails_required.
Proof. unfold CustomerDetails_init. intros H. present_fields H. Qed.

Lemma LineItem_init_present (kw : dict) (r : LineItem) :
  LineItem_init kw = Ok r ->
  Forall (fun k => dict_get k kw <> None) LineItem_required.
Proof. unfold LineItem_init. intros H. present_fields H. Qed.

Lemma BankDetails_init_present (kw : dict) (r : BankDetails) :
  BankDetails_init kw = Ok r ->
  Forall (fun k => dict_get k kw <> None) BankDetails_required.
Proof. unfold BankDetails_init. intros H. present_fields H. Qed.

Lemma PaymentSlip_init_present (kw : dict) (bank : BankDetails)
  (extra : pyval) (r : PaymentSlip) :
  PaymentSlip_init kw bank extra = Ok r ->
  Forall (fun k => dict_get k kw <> None) PaymentSlip_required.
Proof. unfold PaymentSlip_init. intros H. present_fields H. Qed.

Lemma Totals_init_present (kw : dict) (r : Totals) :
  Totals_init kw = Ok r ->
  Forall (fun k => dict_get k kw <> None) Totals_required.
Proof. unfold Totals_init. intros H. present_fields H. Qed.

Lemma InvoiceMetadata_init_present (kw : dict) (r : InvoiceMetadata) :
  InvoiceMetadata_init kw = Ok r ->
  Forall (fun k => dict_get k kw <> None) InvoiceMetadata_required.
Proof. unfold InvoiceMetadata_init. intros H. present_fields H. Qed.

Lemma model_type_dict {A : Type} (init : dict -> result A)
  (arg : option pyval) (x : A) :
  field_required (model_type init) arg = Ok x ->
  exists d, arg = Some (PDict d) /\ init d = Ok x.
Proof.
  destruct arg as [[]|]; try discriminate. cbn. eauto.
Qed.

Lemma metadata_required (top : dict) (r : InvoiceData) :
  reconcile (PDict top) = Ok r ->
  exists m v c : dict,
    dict_get "invoice_metadata" top = Some (PDict m)
    /\ keys_present m InvoiceMetadata_required
    /\ dict_get "vendor_details" m = Some (PDict v)
    /\ keys_present v VendorDetails_required
    /\ dict_get "customer_details" m = Some (PDict c)
    /\ keys_present c CustomerDetails_required.
Proof.
  intros H. apply reconcile_inv in H as (s & S & C).
  apply construct_inv in C as (I & _).
  pose proof (InvoiceMetadata_init_present _ _ I) as F.
  pose proof (InvoiceMetadata_init_inv _ _ I) as (_ & V & CU).
  pose proof (surgery_spec _ _ S) as (_ & (m0 & am & P & _ & M) & _).
  apply py_pop_default_cases in P as [[N ->]|(nm & G & P)].
  - exfalso. rewrite M in F. apply Forall_inv in F. now apply F.
  - apply dict_get_normalize_is_dict in G as (m & G & ->).
    pose proof (fun k => metadata_kw top m s k S G) as A.
    rewrite (A "vendor_details") in V by reflexivity.
    rewrite (A "customer_details") in CU by reflexivity.
    apply model_type_dict in V as (nv & GV & IV).
    apply model_type_dict in CU as (nc & GC & IC).
    apply dict_get_normalize_is_dict in GV as (v & GV & ->).
    apply dict_get_normalize_is_dict in GC as (c & GC & ->).
    exists m, v, c. split; [exact G|]. split.
    { eapply keys_present_bridge; [|exact F].
      intros k K. cbn in K. apply A;
        repeat (destruct K as [<-|K]; [reflexivity|]); destruct K. }
    split; [exact GV|]. split.
    { eapply keys_present_bridge; [apply agree_on_refl|].
      eapply VendorDetails_init_present. exact IV. }
    split; [exact GC|].
    eapply keys_present_bridge; [apply agree_on_refl|].
    eapply CustomerDetails_init_present. exact IC.
Qed.

Lemma totals_required (top : dict) (r : InvoiceData) :
  reconcile (PDict top) = Ok r ->
  exists t : dict,
    dict_get "totals" top = Some (PDict t)
    /\ keys_present t Totals_required.
Proof.
  intros H. apply reconcile_inv in H as (s & S & C).
  apply construct_inv in C as (_ & T & _).
  pose proof (Totals_init_present _ _ T) as F.
  pose proof (surgery_spec _ _ S) as (_ & _ & P & _).
  apply py_pop_default_cases in P as [[N E]|(nt & G & P)].
  - exfalso. rewrite E in F. apply Forall_inv in F. now apply F.
  - apply dict_get_normalize_is_dict in G as (t & G & ->).
    exists t. split; [exact G|].
    eapply keys_present_bridge; [|exact F].
    now apply agree_on_pop_set.
Qed.

Lemma line_item_required (item : pyval) (li : LineItem) :
  built_from (normalize_nulls item) li ->
  exists d : dict, item = PDict d /\ keys_present d LineItem_required.
Proof.
  intros B. apply built_from_dict in B as (nd & ef & item0 & E & P & I).
  apply normalize_nulls_is_dict in E as (d & -> & ->).
  exists d. split; [reflexivity|].
  eapply keys_present_bridge; [|eapply LineItem_init_present; exact I].
  intros k K. cbn in K.
  assert (N1 : String.eqb k "extra_fields" = false)
    by (repeat (destruct K as [<-|K]; [reflexivity|]); destruct K).
  assert (N2 : String.eqb k "extra_details" = false)
    by (repeat (destruct K as [<-|K]; [reflexivity|]); destruct K).
  rewrite dict_get_set, N1.
  assert (G : dict_get k item0 = dict_get k (normalize_dict d)).
  { replace item0 with (snd (dict_pop "extra_fields" (PDict [])
                               (normalize_dict d))) by now rewrite <- P.
    now apply dict_get_pop. }
  destruct (extra_details_missing item0);
    [rewrite dict_get_set, N2|]; exact G.
Qed.

Lemma payment_slip_required (top : dict) (r : InvoiceData) (ps : PaymentSlip) :
  reconcile (PDict top) = Ok r ->
  payment_slip r = Some ps ->
  ps_bank_details ps <> None
  /\ exists p b : dict,
       dict_get "payment_slip" top = Some (PDict p)
       /\ keys_present p PaymentSlip_required
       /\ dict_get "bank_details" p = Some (PDict b)
       /\ keys_present b BankDetails_required.
Proof.
  intros H R. apply reconcile_inv in H as (s & S & C).
  apply construct_inv in C as (_ & _ & B & _).
  rewrite R in B. unfold build_payment_slip in B.
  destruct (py_truthy _) eqn:TR; [|discriminate].
  inv_bind B. injection B as ->.
  pose proof (PaymentSlip_init_present _ _ _ _ E0) as FP.
  pose proof (BankDetails_init_present _ _ E) as FB.
  apply PaymentSlip_init_absent in E0 as (_ & BD).
  split; [now rewrite BD|].
  apply surgery_spec in S as (_ & _ & _ & (p0 & P & V & Q) & T & _).
  apply py_pop_default_cases in P as [[N ->]|(np & G & P)].
  { exfalso. unfold dict_get_default in TR. rewrite T, N in TR.
    discriminate. }
  apply dict_get_normalize_is_dict in G as (p & G & ->).
  assert (G0 : forall k, String.eqb k "extra_fields" = false ->
                         dict_get k p0 = dict_get k (normalize_dict p)).
  { intros k N. replace p0 with (snd (dict_pop "extra_fields" (PDict [])
                                        (normalize_dict p)))
      by now rewrite <- P.
    now apply dict_get_pop. }
  rewrite dict_pop_fst in Q.
  apply py_pop_default_cases in Q as [[N E1]|(nb & GB & Q)].
  { exfalso. rewrite E1 in FB. apply Forall_inv in FB. now apply FB. }
  rewrite G0 in GB by reflexivity.
  apply dict_get_normalize_is_dict in GB as (b & GB & ->).
  exists p, b. split; [exact G|]. split.
  { eapply keys_present_bridge; [|exact FP].
    intros k K. rewrite V. cbn in K.
    rewrite dict_get_pop, G0;
      try reflexivity;
      repeat (destruct K as [<-|K]; [reflexivity|]); destruct K. }
  split; [exact GB|].
  eapply keys_present_bridge; [|exact FB].
  now apply agree_on_pop_set.
Qed.

(** X11. A record is returned only for an input that binds every field
    the models declare without a default: [invoice_metadata] and [totals]
    are maps holding all their scalar keys, the vendor and the customer are
    maps holding their four keys, every element of a [line_items] list is a
    map holding its eleven scalar keys, and a returned payment slip comes
    from a map with its three scalar keys and a [bank_details] map with its
    three keys, so the bank details of a returned payment slip are never
    absent. *)
Theorem returned_record_has_required_keys :
  forall (top : dict) (r : InvoiceData),
    reconcile (PDict top) = Ok r ->
    (exists m v c : dict,
       dict_get "invoice_metadata" top = Some (PDict m)
       /\ keys_present m InvoiceMetadata_required
       /\ dict_get "vendor_details" m = Some (PDict v)
       /\ keys_present v VendorDetails_required
       /\ dict_get "customer_details" m = Some (PDict c)
       /\ keys_present c CustomerDetails_required)
    /\ (exists t : dict,
          dict_get "totals" top = Some (PDict t)
          /\ keys_present t Totals_required)
    /\ (forall (items : list pyval) (i : nat) (item : pyval),
          dict_get "line_items" top = Some (PList items) ->
          nth_error items i = Some item ->
          exists d : dict, item = PDict d /\ keys_present d LineItem_required)
    /\ (forall ps : PaymentSlip,
          payment_slip r = Some ps ->
          ps_bank_details ps <> None
          /\ exists p b : dict,
               dict_get "payment_slip" top = Some (PDict p)
               /\ keys_present p PaymentSlip_required
               /\ dict_get "bank_details" p = Some (PDict b)
               /\ keys_present b BankDetails_required).
Proof.
  intros top r H.
  split; [exact (metadata_required top r H)|].
  split; [exact (totals_required top r H)|].
  split.
  - intros items i item G N.
    pose proof (line_items_pointwise top items r H G) as F.
    eapply Forall2_nth_error in F as (li & _ & B);
      [|rewrite nth_error_map, N; reflexivity].
    now apply (line_item_required item li).
  - intros ps R. now apply (payment_slip_required top r ps).
Qed.
End Required.

(** ** The root's own [extra_fields] entry *)

Lemma dict_set_comm (k k' : string) (v v' : pyval) (d : dict) :
  String.eqb k' k = false ->
  dict_get k' d <> None ->
  dict_set k' v' (dict_set k v d) = dict_set k v (dict_set k' v' d).
Proof.
  intros N. induction d as [|[k0 v0] t IH]; simpl; intros P.
  - contradiction.
  - destruct (String.eqb k k0) eqn:E; destruct (String.eqb k' k0) eqn:E'; simpl.
    + apply String.eqb_eq in E, E'. subst. now rewrite String.eqb_refl in N.
    + rewrite ?N, ?E. reflexivity.
    + rewrite ?E', ?(String.eqb_sym k k'), ?N. reflexivity.
    + rewrite ?E', ?E. f_equal. apply IH. exact P.
Qed.

Lemma write_back_set_comm (k k' : string) (v v' : pyval) (d : dict) :
  String.eqb k' k = false ->
  write_back k' v' (dict_set k v d) = dict_set k v (write_back k' v' d).
Proof.
  intros N. unfold write_back. rewrite dict_get_set, N.
  destruct (dict_get k' d) eqn:G; [|reflexivity].
  apply dict_set_comm; [exact N | now rewrite G].
Qed.

Lemma dict_get_default_set_other (k k' : string) (v default : pyval)
  (d : dict) :
  String.eqb k k' = false ->
  dict_get_default k default (dict_set k' v d) = dict_get_default k default d.
Proof. intros N. unfold dict_get_default. now rewrite dict_get_set, N. Qed.

Lemma normalize_dict_set (k : string) (x : pyval) (d : dict) :
  normalize_dict (dict_set k x d)
  = dict_set k (normalize_nulls x) (normalize_dict d).
Proof.
  induction d as [|[k0 v0] t IH]; simpl; [reflexivity|].
  destruct (String.eqb k k0); simpl; [reflexivity | now rewrite IH].
Qed.

Section RootExtraFields.
Context {lib : Library}.

Lemma process_line_items_set (x : pyval) (nd : dict) :
  process_line_items (dict_set "extra_fields" x nd)
  = ('(nd', lis) <- process_line_items nd ;;
     Ok (dict_set "extra_fields" x nd', lis)).
Proof.
  unfold process_line_items. rewrite dict_get_set.
  cbn [String.eqb Ascii.eqb Bool.eqb].
  destruct (dict_get "line_items" nd) as [obj|] eqn:G; [|reflexivity].
  destruct (py_iter obj) as [items|e]; [|reflexivity]. cbn [bind].
  destruct (line_items_loop items) as [[items' lis]|e]; [|reflexivity].
  cbn [bind]. destruct obj; try reflexivity.
  f_equal. f_equal. apply dict_set_comm; [reflexivity | now rewrite G].
Qed.

Lemma surgery_set (x : pyval) (nd : dict) :
  surgery (dict_set "extra_fields" x nd)
  = (s <- surgery nd ;;
     Ok (with_invoice_dict
           (dict_set "extra_fields" x (v_normalized_invoice_dict s)) s)).
Proof.
  unfold surgery. rewrite process_line_items_set.
  destruct (process_line_items nd) as [[nd1 lis]|e]; [|reflexivity].
  cbn [bind].
  rewrite dict_get_default_set_other by reflexivity.
  destruct (py_pop (dict_get_default "invoice_metadata" (PDict []) nd1) _ _)
    as [[mef metadata]|e]; [|reflexivity].
  cbn [bind]. cbv zeta.
  rewrite write_back_set_comm by reflexivity.
  rewrite dict_get_default_set_other by reflexivity.
  destruct (py_pop (dict_get_default "totals" (PDict []) _) _ _)
    as [[tef totals0]|e]; [|reflexivity].
  cbn [bind].
  rewrite write_back_set_comm by reflexivity.
  rewrite dict_get_default_set_other by reflexivity.
  destruct (py_pop (dict_get_default "payment_slip" (PDict []) _) _ _)
    as [[psef slip0]|e]; [|reflexivity].
  cbn [bind].
  destruct (py_pop (fst (dict_pop "bank_details" (PDict []) slip0)) _ _)
    as [[bdef bank0]|e]; [|reflexivity].
  cbn [bind].
  destruct (py_as_dict (dict_get_default "additional_metadata" (PDict [])
                          metadata)) as [am|e]; [|reflexivity].
  cbn [bind].
  rewrite !write_back_set_comm by reflexivity.
  reflexivity.
Qed.

Lemma construct_set (x : pyval) (s : locals) :
  construct (with_invoice_dict
               (dict_set "extra_fields" x (v_normalized_invoice_dict s)) s)
  = construct s.
Proof.
  unfold construct, build_payment_slip, with_invoice_dict.
  cbn [v_normalized_invoice_dict v_normalized_line_items v_metadata
       v_metadata_extra_fields v_totals v_totals_extra_fields
       v_payment_slip v_payment_slip_extra_fields v_bank_details
       v_bank_details_extra_fields].
  cbv zeta.
  rewrite !dict_get_default_set_other by reflexivity.
  change (fun kv : string * pyval => negb (in_model_fields (fst kv)))
    with undeclared.
  rewrite filter_undeclared_set by reflexivity.
  reflexivity.
Qed.

(** X12. The value bound to the top-level key [extra_fields] of the
    input has no influence on the result: whatever it is, and whether the
    key is there or not, the same record is returned or the same exception
    is raised.  The root overflow map of line 477 is rebuilt from the
    undeclared keys alone. *)
Theorem root_extra_fields_entry_is_ignored :
  forall (top : dict) (x : pyval),
    reconcile (PDict (dict_set "extra_fields" x top)) = reconcile (PDict top).
Proof.
  intros top x. rewrite !reconcile_dict, normalize_dict_set.
  unfold map_to_models. rewrite surgery_set.
  destruct (surgery (normalize_dict top)) as [s|e]; [|reflexivity].
  cbn [bind]. apply construct_set.
Qed.
End RootExtraFields.

(** ** The reply sanitizer *)

Lemma all_chars_app (f : ascii -> bool) (a b : string) :
  all_chars f (a ++ b) = all_chars f a && all_chars f b.
Proof.
  induction a as [|c a IH]; simpl; [reflexivity|].
  now rewrite IH, andb_assoc.
Qed.

Lemma first_char_app (a b : string) :
  first_char (a ++ b)
  = match first_char a with Some c => Some c | None => first_char b end.
Proof. now destruct a. Qed.

Lemma last_char_app (a b : string) :
  last_char (a ++ b)
  = match last_char b with Some c => Some c | None => last_char a end.
Proof.
  induction a as [|x a IH]; cbn [append last_char].
  - now destruct (last_char b).
  - rewrite IH. destruct (last_char b); [reflexivity|].
    now destruct (last_char a).
Qed.

Lemma lstrip_app (f : ascii -> bool) (a b : string) :
  all_chars f a = true -> lstrip f (a ++ b) = lstrip f b.
Proof.
  induction a as [|c a IH]; simpl; [reflexivity|].
  intros H. apply andb_true_iff in H as [C A]. rewrite C. now apply IH.
Qed.

Lemma lstrip_fixed (f : ascii -> bool) (s : string) (c : ascii) :
  first_char s = Some c -> f c = false -> lstrip f s = s.
Proof.
  destruct s as [|x s]; [discriminate|]. cbn. intros H N.
  injection H as ->. now rewrite N.
Qed.

Lemma rstrip_all (f : ascii -> bool) (b : string) :
  all_chars f b = true -> rstrip f b = EmptyString.
Proof.
  induction b as [|c b IH]; simpl; [reflexivity|].
  intros H. apply andb_true_iff in H as [C A]. now rewrite IH, C.
Qed.

Lemma rstrip_app (f : ascii -> bool) (a b : string) :
  all_chars f b = true -> rstrip f (a ++ b) = rstrip f a.
Proof.
  intros B. induction a as [|x a IH]; cbn [append rstrip].
  - now apply rstrip_all.
  - now rewrite IH.
Qed.

Lemma rstrip_fixed (f : ascii -> bool) (s : string) (c : ascii) :
  last_char s = Some c -> f c = false -> rstrip f s = s.
Proof.
  intros L N. induction s as [|x s IH]; [reflexivity|].
  cbn [last_char rstrip] in *.
  destruct (last_char s) as [d|] eqn:E.
  - rewrite (IH L). destruct s; [discriminate | reflexivity].
  - injection L as ->. destruct s; [|cbn in E; destruct (last_char s); discriminate].
    cbn. now rewrite N.
Qed.

(** white space around a text that neither starts nor ends with white
    space is stripped, and nothing else *)
Lemma strip_padded (f : ascii -> bool) (pad1 pad2 core : string)
  (c d : ascii) :
  all_chars f pad1 = true ->
  all_chars f pad2 = true ->
  first_char core = Some c -> f c = false ->
  last_char core = Some d -> f d = false ->
  strip f (pad1 ++ core ++ pad2) = core.
Proof.
  intros P1 P2 FC C LC D. unfold strip.
  rewrite lstrip_app by exact P1.
  rewrite (lstrip_fixed f (core ++ pad2) c);
    [|now rewrite first_char_app, FC | exact C].
  rewrite rstrip_app by exact P2.
  now apply (rstrip_fixed f core d).
Qed.

Lemma strip_prefix_first (o c : ascii) (old s : string) :
  Ascii.eqb o c = false -> Json.strip_prefix (String o old) (String c s) = None.
Proof. intros N. cbn. now rewrite N. Qed.

(** a text of ASCII characters holds no occurrence of a pattern that
    starts with a byte above 127 *)
Lemma replace_ascii (o : ascii) (old new s : string) :
  is_ascii_char o = false ->
  is_ascii s = true ->
  replace (String o old) new s = s.
Proof.
  intros O. unfold replace, is_ascii.
  induction s as [|c s IH]; [reflexivity|].
  cbn [all_chars]. intros H. apply andb_true_iff in H as [C A].
  cbn [replace_from]. rewrite strip_prefix_first.
  - now rewrite IH.
  - destruct (Ascii.eqb o c) eqn:E; [|reflexivity].
    apply Ascii.eqb_eq in E. subst c. now rewrite O in C.
Qed.

Lemma replace_quotes_ascii (s : string) :
  is_ascii s = true ->
  replace right_quote plain_quote (replace left_quote plain_quote s) = s.
Proof.
  intros A. unfold left_quote, right_quote.
  rewrite (replace_ascii "226" _ _ s) by (reflexivity || assumption).
  now apply replace_ascii.
Qed.

Lemma isspace_is_ascii (c : ascii) :
  py_isspace c = true -> is_ascii_char c = true.
Proof.
  unfold py_isspace, is_ascii_char. cbv zeta. intros H.
  apply Nat.ltb_lt.
  apply orb_true_iff in H as [H|H]; apply andb_true_iff in H as [_ H];
    apply Nat.leb_le in H; lia.
Qed.

Lemma all_isspace_is_ascii (s : string) :
  all_chars py_isspace s = true -> is_ascii s = true.
Proof.
  unfold is_ascii. induction s as [|c s IH]; cbn [all_chars]; [reflexivity|].
  intros H. apply andb_true_iff in H as [C A].
  now rewrite (isspace_is_ascii c C), IH.
Qed.

(** white space is none of the characters of the two fences *)
Lemma isspace_not_fence (c : ascii) :
  py_isspace c = true ->
  in_chars fence_json c = false /\ in_chars fence c = false.
Proof.
  intros S. unfold fence_json, fence. cbn [in_chars].
  repeat match goal with
         | |- context [Ascii.eqb c ?x] =>
             let E := fresh "E" in
             destruct (Ascii.eqb c x) eqn:E;
             [apply Ascii.eqb_eq in E; subst c; discriminate|]
         end.
  split; reflexivity.
Qed.

Lemma first_char_all (f : ascii -> bool) (s : string) (c : ascii) :
  all_chars f s = true -> first_char s = Some c -> f c = true.
Proof.
  destruct s; [discriminate|]. cbn. intros H E. injection E as ->.
  now apply andb_true_iff in H.
Qed.

Lemma last_char_all (f : ascii -> bool) (s : string) (c : ascii) :
  all_chars f s = true -> last_char s = Some c -> f c = true.
Proof.
  induction s as [|x s IH]; [discriminate|]. cbn [all_chars last_char].
  intros H E. apply andb_true_iff in H as [X A].
  destruct (last_char s) as [d|].
  - injection E as ->. now apply IH.
  - injection E as ->. exact X.
Qed.

(** an object with white space around it starts and ends outside the
    fence characters *)
Lemma padded_object_ends (body ws1 ws2 : string) :
  all_chars py_isspace ws1 = true ->
  all_chars py_isspace ws2 = true ->
  (exists c, first_char (ws1 ++ object_text body ++ ws2) = Some c
             /\ in_chars fence_json c = false)
  /\ (exists d, last_char (ws1 ++ object_text body ++ ws2) = Some d
                /\ in_chars fence d = false).
Proof.
  intros W1 W2. split.
  - rewrite first_char_app.
    destruct (first_char ws1) as [c|] eqn:E.
    + exists c. split; [reflexivity|].
      apply isspace_not_fence. exact (first_char_all py_isspace ws1 c W1 E).
    + eexists. split; reflexivity.
  - rewrite !last_char_app.
    destruct (last_char ws2) as [d|] eqn:E.
    + exists d. split; [reflexivity|].
      apply isspace_not_fence. exact (last_char_all py_isspace ws2 d W2 E).
    + unfold object_text. cbn [last_char]. rewrite last_char_app.
      cbn [last_char]. eexists. split; reflexivity.
Qed.

Lemma is_ascii_object (body : string) :
  is_ascii body = true -> is_ascii (object_text body) = true.
Proof.
  unfold is_ascii, object_text. intros B. cbn [all_chars].
  now rewrite all_chars_app, B.
Qed.

Lemma object_text_ends (body : string) :
  first_char (object_text body) = Some "{"%char
  /\ last_char (object_text body) = Some "}"%char.
Proof.
  split; [reflexivity|]. unfold object_text. cbn [last_char].
  rewrite last_char_app. reflexivity.
Qed.

(** X13. A reply that is a JSON object of ASCII characters, with any
    white space around it, is sanitized to the object itself; the same
    object inside a [json] code fence, with any white space inside and
    outside the fence, is sanitized to the object with the inner white
    space. *)
Theorem sanitize_message_unwraps_object :
  forall body pad1 pad2 ws1 ws2 : string,
    is_ascii body = true ->
    all_chars py_isspace pad1 = true ->
    all_chars py_isspace pad2 = true ->
    all_chars py_isspace ws1 = true ->
    all_chars py_isspace ws2 = true ->
    sanitize_message (pad1 ++ object_text body ++ pad2) = object_text body
    /\ sanitize_message
         (pad1
          ++ (fence_json ++ (ws1 ++ object_text body ++ ws2) ++ fence)
          ++ pad2)
       = (ws1 ++ object_text body ++ ws2)%string.
Proof.
  intros body pad1 pad2 ws1 ws2 B P1 P2 W1 W2.
  pose proof (is_ascii_object body B) as AO.
  pose proof (object_text_ends body) as (FO & LO).
  split; unfold sanitize_message.
  - rewrite (strip_padded py_isspace pad1 pad2 _ "{" "}")
      by (assumption || reflexivity).
    rewrite (lstrip_fixed _ _ "{" FO) by reflexivity.
    rewrite (rstrip_fixed _ _ "}" LO) by reflexivity.
    now apply replace_quotes_ascii.
  - destruct (padded_object_ends body ws1 ws2 W1 W2)
      as ((c & FC & C) & (d & LD & D)).
    set (inner := (ws1 ++ object_text body ++ ws2)%string) in *.
    rewrite (strip_padded py_isspace pad1 pad2 _ "`" "`");
      try assumption; try reflexivity.
    + rewrite (lstrip_app _ fence_json) by reflexivity.
      rewrite (lstrip_fixed _ (inner ++ fence) c);
        [|now rewrite first_char_app, FC | exact C].
      rewrite rstrip_app by reflexivity.
      rewrite (rstrip_fixed _ inner d LD D).
      assert (AI : is_ascii inner = true).
      { unfold inner, is_ascii. rewrite !all_chars_app.
        fold (is_ascii ws1) (is_ascii (object_text body)) (is_ascii ws2).
        now rewrite AO, !all_isspace_is_ascii. }
      now apply replace_quotes_ascii.
    + rewrite !last_char_app. reflexivity.
Qed.

Lemma lstrip_first (f : ascii -> bool) (s : string) (c : ascii) :
  first_char (lstrip f s) = Some c -> f c = false.
Proof.
  induction s as [|x s IH]; [discriminate|]. cbn [lstrip].
  destruct (f x) eqn:E; [exact IH|].
  cbn. intros H. injection H as <-. exact E.
Qed.

Lemma rstrip_first (f : ascii -> bool) (s : string) (c : ascii) :
  first_char (rstrip f s) = Some c -> first_char s = Some c.
Proof.
  destruct s as [|x s]; [discriminate|]. cbn [rstrip].
  destruct (rstrip f s); [destruct (f x); [discriminate|]|]; cbn; auto.
Qed.

Lemma replace_first (old new s : string) (q c : ascii) :
  first_char (replace old (String q new) s) = Some c ->
  c = q \/ first_char s = Some c.
Proof.
  unfold replace. destruct s as [|x s]; [discriminate|].
  cbn [replace_from].
  destruct (Json.strip_prefix old (String x s)); cbn; intros H;
    injection H as <-; auto.
Qed.

(** X14. The sanitized message never starts with a backtick or with one
    of the letters j, s, o, n: [lstrip] takes its argument as a set of
    characters, so these are removed from the start of any reply, fenced or
    not. *)
Theorem sanitize_message_never_starts_in_fence_set :
  forall assistant_message : string,
    match first_char (sanitize_message assistant_message) with
    | Some c => in_chars fence_json c = false
    | None => True
    end.
Proof.
  intros m. destruct (first_char (sanitize_message m)) as [c|] eqn:E;
    [|exact I].
  unfold sanitize_message, plain_quote in E.
  apply replace_first in E as [->|E]; [reflexivity|].
  apply replace_first in E as [->|E]; [reflexivity|].
  apply rstrip_first in E. now apply lstrip_first in E.
Qed.

(** ** The file extension check *)

Lemma lstrip_decompose (f : ascii -> bool) (s : string) :
  exists a, s = (a ++ lstrip f s)%string /\ all_chars f a = true.
Proof.
  induction s as [|c s (a & E & A)]; cbn [lstrip].
  - exists EmptyString. split; reflexivity.
  - destruct (f c) eqn:C.
    + exists (String c a). cbn. rewrite C, A. split; [now f_equal | reflexivity].
    + exists EmptyString. split; reflexivity.
Qed.

Lemma rstrip_decompose (f : ascii -> bool) (s : string) :
  exists b, s = (rstrip f s ++ b)%string /\ all_chars f b = true.
Proof.
  induction s as [|c s (b & E & B)]; cbn [rstrip].
  - exists EmptyString. split; reflexivity.
  - destruct (rstrip f s) as [|x r] eqn:R.
    + destruct (f c) eqn:C.
      * exists (String c s). cbn [append all_chars].
        split; [reflexivity|]. rewrite C. cbn in E. now rewrite E.
      * exists b. cbn in *. split; [now f_equal | exact B].
    + exists b. cbn [append] in *. split; [now f_equal | exact B].
Qed.

Lemma lower_app (a b : string) : lower (a ++ b) = (lower a ++ lower b)%string.
Proof. induction a as [|c a IH]; cbn; [reflexivity | now rewrite IH]. Qed.

Lemma lower_split (s a b : string) :
  lower s = (a ++ b)%string ->
  exists a' b', s = (a' ++ b')%string /\ lower a' = a /\ lower b' = b.
Proof.
  revert s. induction a as [|x a IH]; intros s H.
  - exists EmptyString, s. auto.
  - destruct s as [|c s]; [discriminate|]. cbn in H. injection H as X H.
    destruct (IH s H) as (a' & b' & -> & <- & <-).
    exists (String c a'), b'. cbn. rewrite X. auto.
Qed.

Lemma is_dot_lower_char (c : ascii) : is_dot (lower_char c) = is_dot c.
Proof.
  destruct c as [[] [] [] [] [] [] [] []]; reflexivity.
Qed.

Lemma all_dots_lower (a : string) :
  all_chars is_dot (lower a) = all_chars is_dot a.
Proof.
  induction a as [|c a IH]; cbn; [reflexivity|].
  now rewrite is_dot_lower_char, IH.
Qed.

Lemma lower_dots (a : string) : all_chars is_dot a = true -> lower a = a.
Proof.
  induction a as [|c a IH]; cbn; [reflexivity|].
  intros H. apply andb_true_iff in H as [C A].
  apply Ascii.eqb_eq in C. subst c. now rewrite IH.
Qed.

(** X15. The extension check of the endpoint accepts exactly the texts
    that consist of any number of dots, then [pdf] in any mix of upper and
    lower case, then any number of dots. *)
Theorem ext_allowed_iff :
  forall ext : string,
    ext_allowed ext = true
    <-> exists a p b : string,
          ext = (a ++ p ++ b)%string
          /\ all_chars is_dot a = true
          /\ all_chars is_dot b = true
          /\ lower p = "pdf".
Proof.
  intros ext. unfold ext_allowed, allowed_extensions. cbn [existsb].
  rewrite orb_false_r, String.eqb_eq. unfold normalize_ext. split.
  - intros H.
    destruct (lstrip_decompose is_dot (lower ext)) as (a & EA & A).
    destruct (rstrip_decompose is_dot (lstrip is_dot (lower ext)))
      as (b & EB & B).
    unfold strip in H. rewrite H in EB. rewrite EB in EA.
    apply lower_split in EA as (a' & rest & -> & LA & LR).
    apply lower_split in LR as (p & b' & -> & LP & LB).
    exists a', p, b'. split; [reflexivity|].
    rewrite <- (all_dots_lower a'), <- (all_dots_lower b'), LA, LB.
    auto.
  - intros (a & p & b & -> & A & B & P).
    rewrite !lower_app, P, (lower_dots a A), (lower_dots b B).
    now apply (strip_padded is_dot a b "pdf" "p" "f").
Qed.

(** ** The end of the endpoint *)

Section EndpointFacts.
Context {lib : Library}.

(** X16. The endpoint answers with a record exactly when the message
    does not hold the substring [error] and reconciles to that record; a
    message that holds the substring, be it a complete invoice, raises an
    unhandled [TypeError]; and every HTTPException of this part of the
    endpoint has status 500, so the status 422 that [parse_gpt_response]
    gives a validation failure never reaches the client. *)
Theorem respond_outcomes :
  forall response : api_response,
    (forall r : InvoiceData,
       respond response = Responded r
       <-> exists s : string,
             response = Message s
             /\ occurs "error" s = false
             /\ parse s = Ok r)
    /\ (forall s : string,
          response = Message s -> occurs "error" s = true ->
          respond response = Crashed TypeError)
    /\ (forall e : HTTPException,
          respond response = Failed e -> status_code e = 500%Z).
Proof.
  intros response. split; [|split].
  - intros r. split.
    + destruct response as [s|err]; cbn; [|discriminate].
      destruct (occurs "error" s) eqn:O; [discriminate|].
      destruct (parse s) as [r'|e] eqn:P; [|discriminate].
      intros H. injection H as <-. exists s. auto.
    + intros (s & -> & O & P). cbn. now rewrite O, P.
  - intros s -> O. cbn. now rewrite O.
  - intros e. destruct response as [s|err]; cbn.
    + destruct (occurs "error" s); [discriminate|].
      destruct (parse s); [discriminate|].
      intros H. injection H as <-. reflexivity.
    + intros H. injection H as <-. reflexivity.
Qed.
End EndpointFacts.

(** ** The log of a call *)

Section LogFacts.
Context {lib : Library}.

(** X17. A call logs exactly one ERROR record when it raises and none
    when it returns a record; and when the reply decodes to a JSON object it
    logs one WARNING record, listing the undeclared top-level keys in input
    order, if there is such a key, and no WARNING record otherwise. *)
Theorem log_reflects_outcome :
  forall response : string,
    length (filter (has_level ERROR) (snd (parse_gpt_response response [])))
    = match fst (parse_gpt_response response []) with
      | Returned _ => 0
      | Raised _ => 1
      end
    /\ forall top : dict,
         decode response = Ok (PDict top) ->
         filter (has_level WARNING) (snd (parse_gpt_response response []))
         = match filter (fun k => negb (in_model_fields k)) (map fst top) with
           | [] => []
           | unknown => [unknown_fields_warning unknown]
           end.
Proof.
  intros response. unfold parse_gpt_response, handler, emit. cbv zeta.
  destruct (decode response) as [d|e] eqn:D.
  - split.
    + destruct (unknown_top_fields (normalize_nulls d))
        as [[nd unknown]|e]; [|reflexivity].
      destruct unknown; destruct (map_to_models nd); reflexivity.
    + intros top E. injection E as ->.
      rewrite normalize_nulls_dict. unfold unknown_top_fields.
      cbn [py_keys py_as_dict bind]. rewrite normalize_dict_keys.
      destruct (filter (fun k => negb (in_model_fields k)) (map fst top));
        destruct (map_to_models (normalize_dict top)); reflexivity.
  - split; [reflexivity | discriminate].
Qed.
End LogFacts.

(** ** Fields passed through *)

Section PassThrough.
Context {lib : Library}.

(** X18. In a returned record [unstructured_content] is the normalized
    input value passed through: a string stays that string, a map stays
    that map, null (or a null synonym) is absent, and a missing key gives
    the empty string; a number, a boolean or a list under the key never
    yields a record. *)
Theorem unstructured_content_passes_through :
  forall (top : dict) (r : InvoiceData),
    reconcile (PDict top) = Ok r ->
    match dict_get "unstructured_content" top with
    | None => unstructured_content r = Some (inl EmptyString)
    | Some v =>
        match normalize_nulls v with
        | PNone => unstructured_content r = None
        | PStr s => unstructured_content r = Some (inl s)
        | PDict d => unstructured_content r = Some (inr d)
        | _ => False
        end
    end.
Proof.
  intros top r H. apply reconcile_inv in H as (s & S & C).
  apply construct_inv in C as (_ & _ & _ & _ & _ & _ & U).
  apply surgery_spec in S as (_ & _ & _ & _ & _ & F).
  unfold dict_get_default in U.
  rewrite (F "unstructured_content") in U by reflexivity.
  rewrite dict_get_normalize in U.
  destruct (dict_get "unstructured_content" top) as [v|]; cbn in U.
  - destruct (normalize_nulls v); cbn in U;
      try discriminate; now injection U.
  - now injection U.
Qed.

Lemma Totals_init_extra (kw : dict) (r : Totals) :
  Totals_init kw = Ok r ->
  opt_dict (dict_get "extra_fields" kw) = Ok (t_extra_fields r).
Proof.
  unfold Totals_init. intros H. inv_bind H. injection H as <-. assumption.
Qed.

Lemma InvoiceMetadata_init_extra (kw : dict) (r : InvoiceMetadata) :
  InvoiceMetadata_init kw = Ok r ->
  opt_dict (dict_get "extra_fields" kw) = Ok (im_extra_fields r).
Proof.
  unfold InvoiceMetadata_init. intros H. inv_bind H. injection H as <-.
  assumption.
Qed.

Lemma CustomerDetails_init_extra (kw : dict) (r : CustomerDetails) :
  CustomerDetails_init kw = Ok r ->
  opt_dict (dict_get "extra_fields" kw) = Ok (cd_extra_fields r).
Proof.
  unfold CustomerDetails_init. intros H. inv_bind H. injection H as <-.
  assumption.
Qed.

(** X19. Popping [extra_fields] from a section and passing it back as a
    keyword argument changes nothing: in a returned record the overflow map
    of the metadata, of the totals and of the customer is the validated
    value of that section's own [extra_fields] entry, the empty map when the
    entry is missing and absent when it is null.  No other key of the
    section reaches the overflow map. *)
Theorem nested_overflow_is_own_entry :
  forall (top : dict) (r : InvoiceData),
    reconcile (PDict top) = Ok r ->
    (forall m : dict,
       dict_get "invoice_metadata" top = Some (PDict m) ->
       opt_dict (dict_get "extra_fields" (normalize_dict m))
       = Ok (im_extra_fields (invoice_metadata r))
       /\ forall c : dict,
            dict_get "customer_details" m = Some (PDict c) ->
            opt_dict (dict_get "extra_fields" (normalize_dict c))
            = Ok (cd_extra_fields (im_customer_details (invoice_metadata r))))
    /\ (forall t : dict,
          dict_get "totals" top = Some (PDict t) ->
          opt_dict (dict_get "extra_fields" (normalize_dict t))
          = Ok (t_extra_fields (totals r))).
Proof.
  intros top r H. split.
  - intros m G. split.
    + apply reconcile_inv in H as (s & S & C).
      apply construct_inv in C as (I & _).
      apply InvoiceMetadata_init_extra in I.
      rewrite dict_get_set in I. cbn [String.eqb Ascii.eqb Bool.eqb] in I.
      apply surgery_spec in S as (_ & (m0 & am & P & _) & _).
      apply (py_pop_get_default _ _ _ _ _ (dict_get_normalize_dict _ _ _ G))
        in P.
      replace (v_metadata_extra_fields s)
        with (fst (dict_pop "extra_fields" (PDict []) (normalize_dict m)))
        in I by now rewrite <- P.
      rewrite dict_pop_fst in I. now rewrite <- opt_dict_default.
    + intros c V. apply CustomerDetails_init_extra.
      now apply (customer_kw top m c r).
  - intros t G. apply reconcile_inv in H as (s & S & C).
    apply construct_inv in C as (_ & T & _).
    apply Totals_init_extra in T.
    rewrite dict_get_set in T. cbn [String.eqb Ascii.eqb Bool.eqb] in T.
    apply surgery_spec in S as (_ & _ & P & _).
    apply (py_pop_get_default _ _ _ _ _ (dict_get_normalize_dict _ _ _ G))
      in P.
    replace (v_totals_extra_fields s)
      with (fst (dict_pop "extra_fields" (PDict []) (normalize_dict t)))
      in T by now rewrite <- P.
    rewrite dict_pop_fst in T. now rewrite <- opt_dict_default.
Qed.
End PassThrough.

(** * The further properties on sample inputs *)

(** X3 on the text of a two-element array. *)
Lemma preprocess_json_joins_witness :
  is_digit "1" = true
  /\ is_digit "2" = true
  /\ preprocess_json (("[" ++ "1") ++ String comma (String "2" "]"))
     = (preprocess_json ("[" ++ "1") ++ preprocess_json (String "2" "]"))%string
  /\ preprocess_json "[1,2]" = "[12]".
Proof.
  split; [reflexivity|]. split; [reflexivity|]. split.
  - exact (preprocess_json_joins_across_separator "[" "]" "1" "2"
             eq_refl eq_refl).
  - reflexivity.
Defined.

(** X5 on a reply that is a list. *)
Lemma non_object_reply_witness :
  decode list_response = Ok (PList [PInt 1; PInt 2])
  /\ fst (parse_gpt_response list_response []) = Raised unexpected_failure.
Proof.
  assert (D : decode list_response = Ok (PList [PInt 1; PInt 2]))
    by (vm_compute; reflexivity).
  split; [exact D|].
  now rewrite (non_object_reply_is_unexpected_failure list_response
                 (PList [PInt 1; PInt 2]) [] D eq_refl).
Defined.

(** X7 on the reply whose payment slip is null. *)
Lemma null_at_dereferenced_position_witness :
  In [Key "payment_slip"] dereferenced_paths
  /\ lookup [Key "payment_slip"] (PDict null_slip_top) = Some PNone
  /\ null_like PNone
  /\ forall r : InvoiceData, reconcile (PDict null_slip_top) <> Ok r.
Proof.
  assert (I : In [Key "payment_slip"] dereferenced_paths)
    by (cbn; auto).
  assert (L : lookup [Key "payment_slip"] (PDict null_slip_top) = Some PNone)
    by (vm_compute; reflexivity).
  assert (N : null_like PNone) by (left; reflexivity).
  split; [exact I|]. split; [exact L|]. split; [exact N|].
  exact (null_at_dereferenced_position_no_record null_slip_top
           [Key "payment_slip"] PNone I L N).
Defined.

(** X8 on the second reply: its payment slip holds bank details only and
    is dropped. *)
Lemma payment_slip_dropped_witness :
  exists r : InvoiceData,
    reconcile (PDict second_top) = Ok r
    /\ dict_get "payment_slip" second_top = Some (PDict second_slip)
    /\ map fst second_slip = ["bank_details"; "extra_fields"]
    /\ NoDup (map fst second_slip)
    /\ payment_slip r = None.
Proof.
  destruct (reconcile (PDict second_top)) as [r|e] eqn:E.
  - exists r. split; [reflexivity|].
    assert (G : dict_get "payment_slip" second_top
                = Some (PDict second_slip)) by (vm_compute; reflexivity).
    assert (K : map fst second_slip = ["bank_details"; "extra_fields"])
      by (vm_compute; reflexivity).
    assert (N : NoDup (map fst second_slip)).
    { rewrite K. constructor; [intros [H|[]]; discriminate|].
      constructor; [intros []|constructor]. }
    split; [exact G|]. split; [exact K|]. split; [exact N|].
    apply (proj2 (payment_slip_dropped_iff second_top second_slip r E G N)).
    rewrite K. intros k [<-|[<-|[]]]; auto.
  - exfalso. vm_compute in E. discriminate.
Defined.


(** X10 on the detailed reply: a text, a map and null under
    [extra_details]. *)
Lemma line_items_extra_details_witness :
  exists (r : InvoiceData) (li0 li1 li2 : LineItem),
    reconcile (PDict detailed_top) = Ok r
    /\ dict_get "line_items" detailed_top = Some (PList detailed_items)
    /\ Forall (fun li => li_extra_details li <> None) (line_items r)
    /\ lookup [Index 0; Key "extra_details"] (PList detailed_items)
       = Some (PStr "per unit")
    /\ nth_error (line_items r) 0 = Some li0
    /\ li_extra_details li0 = Some (inl "per unit")
    /\ lookup [Index 1; Key "extra_details"] (PList detailed_items)
       = Some (PDict [("color", PStr "red")])
    /\ nth_error (line_items r) 1 = Some li1
    /\ li_extra_details li1 = Some (inr [("color", PStr "red")])
    /\ lookup [Index 2; Key "extra_details"] (PList detailed_items)
       = Some PNone
    /\ nth_error (line_items r) 2 = Some li2
    /\ li_extra_details li2 = Some (inl EmptyString).
Proof.
  destruct (reconcile (PDict detailed_top)) as [r|e] eqn:E;
    [|exfalso; vm_compute in E; discriminate].
  assert (G : dict_get "line_items" detailed_top
              = Some (PList detailed_items)) by (vm_compute; reflexivity).
  destruct (line_items_extra_details_never_absent detailed_top r E)
    as (F & A).
  destruct (A detailed_items 0 (nth 0 detailed_items PNone) G eq_refl)
    as (li0 & d0 & L0 & E0 & X0).
  destruct (A detailed_items 1 (nth 1 detailed_items PNone) G eq_refl)
    as (li1 & d1 & L1 & E1 & X1).
  destruct (A detailed_items 2 (nth 2 detailed_items PNone) G eq_refl)
    as (li2 & d2 & L2 & E2 & X2).
  vm_compute in E0. injection E0 as E0. subst d0.
  vm_compute in E1. injection E1 as E1. subst d1.
  vm_compute in E2. injection E2 as E2. subst d2.
  exists r, li0, li1, li2.
  split; [reflexivity|]. split; [exact G|]. split; [exact F|].
  split; [vm_compute; reflexivity|]. split; [exact L0|]. split; [exact X0|].
  split; [vm_compute; reflexivity|]. split; [exact L1|]. split; [exact X1|].
  split; [vm_compute; reflexivity|]. split; [exact L2 | exact X2].
Defined.

(** C8 on the three line items of the detailed reply: the descriptions
    and the totals of the record come in the order of the input. *)
Lemma line_items_order_witness :
  exists (r : InvoiceData) (li0 li1 li2 : LineItem),
    reconcile (PDict detailed_top) = Ok r
    /\ dict_get "line_items" detailed_top = Some (PList detailed_items)
    /\ length detailed_items = 3
    /\ length (line_items r) = 3
    /\ lookup [Index 0; Key "description"] (PList detailed_items)
       = Some (PStr "Widget")
    /\ nth_error (line_items r) 0 = Some li0
    /\ li_description li0 = Some "Widget"
    /\ li_total li0 = Some (inject_Z 10)
    /\ lookup [Index 1; Key "description"] (PList detailed_items)
       = Some (PStr "Gadget")
    /\ nth_error (line_items r) 1 = Some li1
    /\ li_description li1 = Some "Gadget"
    /\ li_total li1 = Some (Qmake 41 2)
    /\ lookup [Index 2; Key "description"] (PList detailed_items)
       = Some (PStr "Sprocket")
    /\ nth_error (line_items r) 2 = Some li2
    /\ li_description li2 = Some "Sprocket"
    /\ li_total li2 = Some (inject_Z 30).
Proof.
  destruct (reconcile (PDict detailed_top)) as [r|e] eqn:E;
    [|exfalso; vm_compute in E; discriminate].
  assert (G : dict_get "line_items" detailed_top
              = Some (PList detailed_items)) by (vm_compute; reflexivity).
  destruct (line_items_order_preserved detailed_top detailed_items r E G)
    as (N & A).
  destruct (A 0 (nth 0 detailed_items PNone) eq_refl)
    as (li0 & d0 & L0 & _ & E0 & _ & D0 & _ & _ & _ & _ & _ & _ & _ & T0 & _).
  destruct (A 1 (nth 1 detailed_items PNone) eq_refl)
    as (li1 & d1 & L1 & _ & E1 & _ & D1 & _ & _ & _ & _ & _ & _ & _ & T1 & _).
  destruct (A 2 (nth 2 detailed_items PNone) eq_refl)
    as (li2 & d2 & L2 & _ & E2 & _ & D2 & _ & _ & _ & _ & _ & _ & _ & T2 & _).
  vm_compute in E0. injection E0 as E0. subst d0.
  vm_compute in E1. injection E1 as E1. subst d1.
  vm_compute in E2. injection E2 as E2. subst d2.
  vm_compute in D0, T0, D1, T1, D2, T2.
  injection D0 as D0. injection T0 as T0.
  injection D1 as D1. injection T1 as T1.
  injection D2 as D2. injection T2 as T2.
  symmetry in D0, T0, D1, T1, D2, T2.
  exists r, li0, li1, li2.
  split; [reflexivity|]. split; [exact G|].
  split; [vm_compute; reflexivity|]. split; [exact N|].
  split; [vm_compute; reflexivity|]. split; [exact L0|].
  split; [exact D0|]. split; [exact T0|].
  split; [vm_compute; reflexivity|]. split; [exact L1|].
  split; [exact D1|]. split; [exact T1|].
  split; [vm_compute; reflexivity|]. split; [exact L2|].
  split; [exact D2 | exact T2].
Defined.

(** X11 on the sample reply. *)
Lemma returned_record_required_keys_witness :
  exists r : InvoiceData,
    reconcile (PDict sample_top) = Ok r
    /\ exists t : dict,
         dict_get "totals" sample_top = Some (PDict t)
         /\ keys_present t Totals_required.
Proof.
  destruct (reconcile (PDict sample_top)) as [r|e] eqn:E.
  - exists r. split; [reflexivity|].
    exact (proj1 (proj2 (returned_record_has_required_keys sample_top r E))).
  - exfalso. vm_compute in E. discriminate.
Defined.

(** X13 on a fenced object with a line break after and before the fence. *)
Lemma sanitize_message_witness :
  is_ascii "'a': 1" = true
  /\ all_chars py_isspace "  " = true
  /\ all_chars py_isspace (String "010" EmptyString) = true
  /\ sanitize_message ("  " ++ object_text "'a': 1" ++ "  ")
     = object_text "'a': 1"
  /\ sanitize_message
       ("  "
        ++ (fence_json
            ++ (String "010" EmptyString ++ object_text "'a': 1"
                ++ String "010" EmptyString)
            ++ fence)
        ++ "  ")
     = (String "010" EmptyString ++ object_text "'a': 1"
        ++ String "010" EmptyString)%string.
Proof.
  split; [reflexivity|]. split; [reflexivity|]. split; [reflexivity|].
  exact (sanitize_message_unwraps_object "'a': 1" "  " "  "
           (String "010" EmptyString) (String "010" EmptyString)
           eq_refl eq_refl eq_refl eq_refl eq_refl).
Defined.

(** X18 on the sample reply, which has no [unstructured_content]. *)
Lemma unstructured_content_witness :
  exists r : InvoiceData,
    reconcile (PDict sample_top) = Ok r
    /\ dict_get "unstructured_content" sample_top = None
    /\ unstructured_content r = Some (inl EmptyString).
Proof.
  destruct (reconcile (PDict sample_top)) as [r|e] eqn:E.
  - exists r. split; [reflexivity|].
    assert (G : dict_get "unstructured_content" sample_top = None)
      by (vm_compute; reflexivity).
    split; [exact G|].
    pose proof (unstructured_content_passes_through sample_top r E) as U.
    rewrite G in U. exact U.
  - exfalso. vm_compute in E. discriminate.
Defined.

(** X19 on the sample reply, whose totals have no [extra_fields]. *)
Lemma nested_overflow_witness :
  exists r : InvoiceData,
    reconcile (PDict sample_top) = Ok r
    /\ dict_get "totals" sample_top
       = Some (PDict (dict_of (dict_get "totals" sample_top)))
    /\ dict_get "extra_fields" (dict_of (dict_get "totals" sample_top)) = None
    /\ t_extra_fields (totals r) = Some [].
Proof.
  destruct (reconcile (PDict sample_top)) as [r|e] eqn:E.
  - exists r. split; [reflexivity|].
    assert (G : dict_get "totals" sample_top
                = Some (PDict (dict_of (dict_get "totals" sample_top))))
      by (vm_compute; reflexivity).
    split; [exact G|]. split; [vm_compute; reflexivity|].
    destruct (nested_overflow_is_own_entry sample_top r E) as (_ & T).
    specialize (T _ G). vm_compute in T. now injection T.
  - exfalso. vm_compute in E. discriminate.
Defined.
